(** * Planetoids: the physics core (class [Physics]) and the alignment
    factor of [PlayerController.alignWithSurface]

    Further down: the surface basis of the alignment, the camera rig of
    the player, and the part of class [Game] around the physics step
    (keys, jump, upgrades, the avatar's part of a frame, [updateUI]).

    A shallow embedding of the TypeScript sources.  JavaScript numbers
    are idealised as real numbers: every arithmetic operation is exact,
    [Math.sqrt] is the real square root, and the two special values the
    code can meet are modelled where they arise:
    - [Infinity] only as the initial [minDistance] of a nearest-planet
      scan, encoded by the absence of a nearest planet;
    - [NaN] only through a geometry whose [parameters] carry no
      [radius]: every comparison against it is false.
    Reading [parameters.radius] of a geometry without [parameters]
    raises a [TypeError], modelled by the [Throw] outcome.

    Where rounding decides an outcome -- the collision correction, which
    aims at the very threshold of the collision test -- the same lines
    are also embedded over the binary64 numbers JavaScript computes
    with (module [Binary64]), and run. *)

From Stdlib Require Import Reals Lra Lia List Bool Arith Psatz Permutation.
From Stdlib Require String.
From Stdlib Require Floats.PrimFloat.
Import ListNotations.
Import String.StringSyntax.
Delimit Scope string_scope with string.
Local Open Scope R_scope.

(** ** Outcomes of a call *)

Inductive Abort : Type :=
| TypeError      (* property read on [undefined] *)
| NotANumber.    (* a NaN would enter the avatar state *)

Inductive result (A : Type) : Type :=
| Ok (a : A)
| Throw (e : Abort).
Arguments Ok {A} a.
Arguments Throw {A} e.

Definition bind {A B : Type} (m : result A) (k : A -> result B) : result B :=
  match m with
  | Ok a => k a
  | Throw e => Throw e
  end.

Notation "'let*' x ':=' m 'in' k" := (bind m (fun x => k))
  (at level 10, x pattern, m at level 100, k at level 200).

(** ** Comparisons of numbers, as booleans *)

Definition Rltb (a b : R) : bool := if Rlt_dec a b then true else false.
Definition Rleb (a b : R) : bool := if Rle_dec a b then true else false.
Definition Rgtb (a b : R) : bool := Rltb b a.
Definition Reqb (a b : R) : bool := if Req_dec_T a b then true else false.

Infix "<?" := Rltb (at level 70, no associativity) : R_scope.
Infix "<=?" := Rleb (at level 70, no associativity) : R_scope.
Infix ">?" := Rgtb (at level 70, no associativity) : R_scope.

(** [a || b] on numbers: [b] when [a] is falsy (zero). *)
Definition orElse (a b : R) : R := if Reqb a 0 then b else a.

(** ** THREE.Vector3 (the methods the sources call) *)

Module Vector3.

Record t : Type := mk { x : R; y : R; z : R }.

Definition zero : t := mk 0 0 0.
Definition add (a b : t) : t := mk (x a + x b) (y a + y b) (z a + z b).
Definition sub (a b : t) : t := mk (x a - x b) (y a - y b) (z a - z b).
Definition subVectors := sub.
Definition addVectors := add.
Definition multiplyScalar (a : t) (s : R) : t := mk (x a * s) (y a * s) (z a * s).
Definition divideScalar (a : t) (s : R) : t := multiplyScalar a (1 / s).
Definition negate (a : t) : t := mk (- x a) (- y a) (- z a).
Definition dot (a b : t) : R := x a * x b + y a * y b + z a * z b.
Definition lengthSq (a : t) : R := x a * x a + y a * y a + z a * z a.
Definition length (a : t) : R := sqrt (lengthSq a).
(** [normalize] divides by [length() || 1]. *)
Definition normalize (a : t) : t := divideScalar a (orElse (length a) 1).
Definition distanceToSquared (a b : t) : R :=
  let dx := x a - x b in
  let dy := y a - y b in
  let dz := z a - z b in
  dx * dx + dy * dy + dz * dz.
Definition distanceTo (a b : t) : R := sqrt (distanceToSquared a b).
Definition crossVectors (a b : t) : t :=
  mk (y a * z b - z a * y b) (z a * x b - x a * z b) (x a * y b - y a * x b).
Definition projectOnVector (a v : t) : t :=
  let denominator := lengthSq v in
  if Reqb denominator 0 then zero
  else multiplyScalar v (dot v a / denominator).
Definition projectOnPlane (a planeNormal : t) : t :=
  sub a (projectOnVector a planeNormal).

Record Quaternion : Type := mkQ { qx : R; qy : R; qz : R; qw : R }.

Definition applyQuaternion (v : t) (q : Quaternion) : t :=
  let tx := 2 * (qy q * z v - qz q * y v) in
  let ty := 2 * (qz q * x v - qx q * z v) in
  let tz := 2 * (qx q * y v - qy q * x v) in
  mk (x v + qw q * tx + qy q * tz - qz q * ty)
     (y v + qw q * ty + qz q * tx - qx q * tz)
     (z v + qw q * tz + qx q * ty - qy q * tx).

End Vector3.

Definition Vec : Type := Vector3.t.

(** ** Bodies *)

(** The geometry of a mesh, as far as the sources look at it:
    [geometry.parameters.radius]. *)
Inductive Geometry : Type :=
| BufferGeometry                 (* no [parameters] at all *)
| ParametricGeometry             (* [parameters] without a [radius] *)
| SphereGeometry (radius : R).   (* [parameters.radius] is a number *)

Module Mesh.
Record t : Type := mk {
  position : Vec;
  geometry : Geometry;
  isSun : bool                 (* [userData.isSun] *)
}.
End Mesh.

(** [geometry.parameters.radius]: [None] is [undefined]. *)
Definition parametersRadius (m : Mesh.t) : result (option R) :=
  match Mesh.geometry m with
  | BufferGeometry => Throw TypeError
  | ParametricGeometry => Ok None
  | SphereGeometry r => Ok (Some r)
  end.

(** [geometry?.parameters?.radius]: never throws. *)
Definition optionalRadius (m : Mesh.t) : option R :=
  match Mesh.geometry m with
  | SphereGeometry r => Some r
  | _ => None
  end.

(** ** Result types (types.ts) *)

Inductive Zone : Type :=
| DeepSpace | UpperAtmosphere | Atmosphere | LowAtmosphere | Surface | NoclipZone.

Definition Zone_eqb (a b : Zone) : bool :=
  match a, b with
  | DeepSpace, DeepSpace | UpperAtmosphere, UpperAtmosphere
  | Atmosphere, Atmosphere | LowAtmosphere, LowAtmosphere
  | Surface, Surface | NoclipZone, NoclipZone => true
  | _, _ => false
  end.

(** [{ planet, distance }]: [None] stands for [{ planet: null,
    distance: Infinity }], the only state of the scan without a planet. *)
Definition Nearest : Type := option (Mesh.t * R).

Record EnvironmentResult : Type := mkEnv {
  inSpace : bool;
  inTransition : option bool;
  inAtmosphere : option bool;
  env_onGround : bool;
  nearest : Nearest;
  atmosphereZone : Zone;
  transitionFactor : option R
}.

Record CollisionResult : Type := mkCollision {
  col_onGround : bool;
  collidedPlanet : option Mesh.t;
  surfaceNormal : option Vec
}.

Record Alignment : Type := mkAlignment {
  upDirection : Vec;
  aligned : option bool;
  alignmentDistance_r : option R;
  alignmentSpeed_r : option R
}.

Record PhysicsResult : Type := mkPhysicsResult {
  environment : EnvironmentResult;
  collision : CollisionResult;
  alignment : Alignment
}.

Record ControlsState : Type := mkControls {
  moveForward : bool;
  moveBackward : bool;
  moveLeft : bool;
  moveRight : bool;
  jump : bool;
  jetpack : bool;
  sprint : bool;
  downThrusters : bool
}.

(** The fields of the [player] object that the physics step touches. *)
Record Player : Type := mkPlayer {
  p_position : Vec;
  p_velocity : Vec;
  p_onGround : bool;
  fuel : R;
  stamina : R;
  maxStamina : R;
  staminaDrainRate : R;
  staminaRechargeRate : R;
  isSprinting : bool
}.

(** [camera.getWorldDirection] and [camera.quaternion]. *)
Record Camera : Type := mkCamera {
  worldDirection : Vec;
  quaternion : Vector3.Quaternion
}.

Record GameState : Type := mkGameState { noclip : bool }.

(** ** class Physics *)

Module Physics.

(** The instance fields. *)
Record t : Type := mk {
  gravity : R;
  jumpForce : R;
  moveSpeed : R;
  jetpackForce : R;
  dragCoefficient : R;
  inSpaceDrag : R;
  inAtmosphereDrag : R;
  collisionRadius : R;
  gravitationalConstant : R;
  alignmentSpeed : R;
  alignmentDistance : R;
  atmosphereRatio : R;
  outerAtmosphereRatio : R;
  lastZone : option Zone;
  zoneHysteresis : R;
  zoneSwitchDelay : nat
}.

Definition constructor : t :=
  {| gravity := 98 / 10;
     jumpForce := 10;
     moveSpeed := 5;
     jetpackForce := 20;
     dragCoefficient := 1 / 10;
     inSpaceDrag := 1 / 1000;
     inAtmosphereDrag := 1 / 100;
     collisionRadius := 2;
     gravitationalConstant := 100;
     alignmentSpeed := 5 / 100;
     alignmentDistance := 50;
     atmosphereRatio := 125 / 100;
     outerAtmosphereRatio := 15 / 10;
     lastZone := None;
     zoneHysteresis := 1;
     zoneSwitchDelay := 0 |}.

Definition setZone (ph : t) (zone : option Zone) (delay : nat) : t :=
  {| gravity := gravity ph;
     jumpForce := jumpForce ph;
     moveSpeed := moveSpeed ph;
     jetpackForce := jetpackForce ph;
     dragCoefficient := dragCoefficient ph;
     inSpaceDrag := inSpaceDrag ph;
     inAtmosphereDrag := inAtmosphereDrag ph;
     collisionRadius := collisionRadius ph;
     gravitationalConstant := gravitationalConstant ph;
     alignmentSpeed := alignmentSpeed ph;
     alignmentDistance := alignmentDistance ph;
     atmosphereRatio := atmosphereRatio ph;
     outerAtmosphereRatio := outerAtmosphereRatio ph;
     lastZone := zone;
     zoneHysteresis := zoneHysteresis ph;
     zoneSwitchDelay := delay |}.

Definition setCollisionRadius (ph : t) (r : R) : t :=
  {| gravity := gravity ph;
     jumpForce := jumpForce ph;
     moveSpeed := moveSpeed ph;
     jetpackForce := jetpackForce ph;
     dragCoefficient := dragCoefficient ph;
     inSpaceDrag := inSpaceDrag ph;
     inAtmosphereDrag := inAtmosphereDrag ph;
     collisionRadius := r;
     gravitationalConstant := gravitationalConstant ph;
     alignmentSpeed := alignmentSpeed ph;
     alignmentDistance := alignmentDistance ph;
     atmosphereRatio := atmosphereRatio ph;
     outerAtmosphereRatio := outerAtmosphereRatio ph;
     lastZone := lastZone ph;
     zoneHysteresis := zoneHysteresis ph;
     zoneSwitchDelay := zoneSwitchDelay ph |}.

(** *** getNearestPlanet *)

(** The body of the [forEach] callback.  [acc] is the pair
    [(nearestPlanet, minDistance)]. *)
Definition nearestStep (position : Vec) (acc : Nearest) (planet : Mesh.t)
  : result Nearest :=
  let* radius := parametersRadius planet in
  match radius with
  | None => Ok acc  (* distance is NaN, and NaN < minDistance is false *)
  | Some r =>
      let distance := Vector3.distanceTo position (Mesh.position planet) - r in
      match acc with
      | None => Ok (Some (planet, distance))        (* distance < Infinity *)
      | Some (_, minDistance) =>
          if distance <? minDistance then Ok (Some (planet, distance))
          else Ok acc
      end
  end.

Fixpoint forEachNearest (position : Vec) (acc : Nearest) (planets : list Mesh.t)
  : result Nearest :=
  match planets with
  | [] => Ok acc
  | planet :: rest =>
      let* acc' := nearestStep position acc planet in
      forEachNearest position acc' rest
  end.

Definition getNearestPlanet (position : Vec) (planets : list Mesh.t)
  : result Nearest :=
  forEachNearest position None planets.

(** *** checkPlayerEnvironment *)

Definition groundThreshold : R := 8 / 10.

(** Comparisons against a threshold that is NaN when the radius is
    [undefined]. *)
Definition gtThreshold (d : R) (threshold : option R) : bool :=
  match threshold with Some t => d >? t | None => false end.
Definition leThreshold (d : R) (threshold : option R) : bool :=
  match threshold with Some t => d <=? t | None => false end.
Definition ltScaled (d : R) (threshold : option R) (k : R) : bool :=
  match threshold with Some t => d <? t * k | None => false end.

Definition isSurface (z : option Zone) : bool :=
  match z with Some Surface => true | _ => false end.

(** The zone proposed for this tick, before the switch delay. *)
Definition proposedZone (ph : t) (distance : R) (atmosphereThreshold : option R)
    (onGround inAtmosphere inUpperAtmosphere : bool) : Zone :=
  if onGround then Surface
  else if ltScaled distance atmosphereThreshold (3 / 10) then
    if isSurface (lastZone ph)
       && (distance <? groundThreshold + zoneHysteresis ph * 3)
    then Surface else LowAtmosphere
  else if inAtmosphere then Atmosphere
  else if inUpperAtmosphere then UpperAtmosphere
  else DeepSpace.

(** Lines 110-125: the switch delay.  Returns the reported zone and
    the updated instance. *)
Definition delayZoneSwitch (ph : t) (atmosphereZone : Zone) : Zone * t :=
  match lastZone ph with
  | Some last =>
      if negb (Zone_eqb last atmosphereZone) then
        let delay := S (zoneSwitchDelay ph) in
        if (delay <? 3)%nat then (last, setZone ph (Some last) delay)
        else (atmosphereZone, setZone ph (Some atmosphereZone) 0%nat)
      else (atmosphereZone, setZone ph (Some atmosphereZone) 0%nat)
  | None => (atmosphereZone, setZone ph (Some atmosphereZone) 0%nat)
  end.

Definition checkPlayerEnvironment (ph : t) (playerPosition : Vec)
    (planets : list Mesh.t) : result (EnvironmentResult * t) :=
  let* nearest := getNearestPlanet playerPosition planets in
  match nearest with
  | None =>
      Ok ({| inSpace := true;
             inTransition := None;
             inAtmosphere := None;
             env_onGround := false;
             nearest := nearest;
             atmosphereZone := DeepSpace;
             transitionFactor := None |}, ph)
  | Some (planet, distance) =>
      let* planetRadius := parametersRadius planet in
      let atmosphereThreshold :=
        option_map (fun r => r * atmosphereRatio ph) planetRadius in
      let outerAtmosphereThreshold :=
        option_map (fun r => r * outerAtmosphereRatio ph) planetRadius in
      let inDeepSpace := gtThreshold distance outerAtmosphereThreshold in
      let inUpperAtmosphere :=
        leThreshold distance outerAtmosphereThreshold
        && gtThreshold distance atmosphereThreshold in
      let inAtmosphere := leThreshold distance atmosphereThreshold in
      let onGround :=
        if isSurface (lastZone ph)
        then distance <? groundThreshold + zoneHysteresis ph
        else distance <? groundThreshold in
      let transitionFactor :=
        if inUpperAtmosphere then
          match atmosphereThreshold, outerAtmosphereThreshold with
          | Some a, Some o => (distance - a) / (o - a)
          | _, _ => 0   (* not reached: inUpperAtmosphere is false on NaN *)
          end
        else if inDeepSpace then 1
        else 0 in
      let proposed :=
        proposedZone ph distance atmosphereThreshold
                     onGround inAtmosphere inUpperAtmosphere in
      let '(atmosphereZone, ph') := delayZoneSwitch ph proposed in
      Ok ({| inSpace := inDeepSpace;
             inTransition := Some inUpperAtmosphere;
             inAtmosphere := Some inAtmosphere;
             env_onGround := onGround;
             nearest := nearest;
             atmosphereZone := atmosphereZone;
             transitionFactor := Some transitionFactor |}, ph')
  end.

(** *** getGravityForce *)

(** What one body adds to [gravityVector]; [None] where the callback
    returns early. *)
Definition bodyGravity (ph : t) (position : Vec) (mass : R) (body : Mesh.t)
  : option Vec :=
  match optionalRadius body with
  | None => None
  | Some radius =>
      if Reqb radius 0 then None   (* !radius *)
      else
        let direction :=
          Vector3.normalize
            (Vector3.subVectors (Mesh.position body) position) in
        let distance := Vector3.distanceTo position (Mesh.position body) in
        if distance <=? 1 / 10 then None
        else
          let bodyMass := if Mesh.isSun body then 50 else radius in
          let clampedDistance := Rmax distance (radius * (5 / 10)) in
          let force :=
            gravitationalConstant ph * (bodyMass * mass)
            / (clampedDistance * clampedDistance) in
          let scaledForce := Rmin force 20 in
          Some (Vector3.multiplyScalar direction scaledForce)
  end.

Definition gravityStep (ph : t) (position : Vec) (mass : R)
    (gravityVector : Vec) (body : Mesh.t) : Vec :=
  match bodyGravity ph position mass body with
  | Some contribution => Vector3.add gravityVector contribution
  | None => gravityVector
  end.

Definition getGravityForce (ph : t) (position : Vec)
    (celestialBodies : list Mesh.t) (mass : R) : Vec :=
  fold_left (gravityStep ph position mass) celestialBodies Vector3.zero.

(** *** handlePlanetCollisions *)

Definition groundCollisionRadius : R := 5 / 10.

(** The [for ... of] loop, with the corrected position and velocity
    returned next to the result. *)
Fixpoint collisionLoop (playerPosition playerVelocity : Vec) (planets : list Mesh.t)
  : result (CollisionResult * Vec * Vec) :=
  match planets with
  | [] =>
      Ok ({| col_onGround := false; collidedPlanet := None;
             surfaceNormal := None |}, playerPosition, playerVelocity)
  | planet :: rest =>
      let planetPos := Mesh.position planet in
      let* planetRadius := parametersRadius planet in
      let distanceToCenter := Vector3.distanceTo playerPosition planetPos in
      match planetRadius with
      | None => collisionLoop playerPosition playerVelocity rest (* NaN < 0.5 *)
      | Some radius =>
          let distanceToSurface := distanceToCenter - radius in
          if distanceToSurface <? groundCollisionRadius then
            let normal :=
              Vector3.normalize (Vector3.subVectors playerPosition planetPos) in
            let correctionDistance := groundCollisionRadius - distanceToSurface in
            let playerPosition' :=
              Vector3.add playerPosition
                          (Vector3.multiplyScalar normal correctionDistance) in
            let dot := Vector3.dot playerVelocity normal in
            let playerVelocity' :=
              if dot <? 0 then
                Vector3.multiplyScalar
                  (Vector3.sub playerVelocity (Vector3.multiplyScalar normal dot))
                  (8 / 10)
              else playerVelocity in
            Ok ({| col_onGround := true; collidedPlanet := Some planet;
                   surfaceNormal := Some normal |},
                playerPosition', playerVelocity')
          else collisionLoop playerPosition playerVelocity rest
      end
  end.

Definition handlePlanetCollisions (playerPosition playerVelocity : Vec)
    (planets : list Mesh.t) (collisionRadius : R)
  : result (CollisionResult * Vec * Vec) :=
  collisionLoop playerPosition playerVelocity planets.

(** *** calculateUpDirection *)

Definition calculateUpDirection (ph : t) (playerPosition : Vec)
    (planets : list Mesh.t) : result Vec :=
  let* nearest := getNearestPlanet playerPosition planets in
  match nearest with
  | None => Ok (Vector3.mk 0 1 0)
  | Some (planet, distance) =>
      if distance >? alignmentDistance ph then Ok (Vector3.mk 0 1 0)
      else Ok (Vector3.normalize
                 (Vector3.subVectors playerPosition (Mesh.position planet)))
  end.

(** *** updateStamina *)

Definition setStamina (player : Player) (s : R) (sprinting : bool) : Player :=
  {| p_position := p_position player;
     p_velocity := p_velocity player;
     p_onGround := p_onGround player;
     fuel := fuel player;
     stamina := s;
     maxStamina := maxStamina player;
     staminaDrainRate := staminaDrainRate player;
     staminaRechargeRate := staminaRechargeRate player;
     isSprinting := sprinting |}.

Definition updateStamina (player : Player) (controls : ControlsState)
    (deltaTime : R) : Player :=
  if sprint controls && (stamina player >? 0) then
    let s := stamina player - staminaDrainRate player * deltaTime in
    let s := if s <? 0 then 0 else s in
    setStamina player s (isSprinting player)
  else if negb (sprint controls) || (stamina player <=? 0) then
    let s := stamina player + staminaRechargeRate player * deltaTime in
    let s := if s >? maxStamina player then maxStamina player else s in
    setStamina player s (if s <=? 0 then false else isSprinting player)
  else player.

(** *** calculateMoveDirection *)

Definition calculateMoveDirection (controls : ControlsState) (camera : Camera)
    (inSpace onGround : bool) : Vec :=
  let forward := worldDirection camera in
  let rightward :=
    Vector3.normalize (Vector3.crossVectors forward (Vector3.mk 0 1 0)) in
  let upVector :=
    Vector3.applyQuaternion (Vector3.mk 0 1 0) (quaternion camera) in
  let forward :=
    if onGround
    then Vector3.normalize (Vector3.projectOnPlane forward upVector)
    else forward in
  let rightward :=
    if onGround
    then Vector3.normalize (Vector3.crossVectors forward upVector)
    else rightward in
  let moveDirection := Vector3.zero in
  let moveDirection :=
    if moveForward controls then Vector3.add moveDirection forward
    else moveDirection in
  let moveDirection :=
    if moveBackward controls then Vector3.sub moveDirection forward
    else moveDirection in
  let moveDirection :=
    if moveRight controls then Vector3.add moveDirection rightward
    else moveDirection in
  let moveDirection :=
    if moveLeft controls then Vector3.sub moveDirection rightward
    else moveDirection in
  moveDirection.

(** *** updatePlayerPhysics *)

Definition setMotion (player : Player) (pos vel : Vec) (ground : bool) (f : R)
  : Player :=
  {| p_position := pos;
     p_velocity := vel;
     p_onGround := ground;
     fuel := f;
     stamina := stamina player;
     maxStamina := maxStamina player;
     staminaDrainRate := staminaDrainRate player;
     staminaRechargeRate := staminaRechargeRate player;
     isSprinting := isSprinting player |}.

(** [b ?? false] and [x ?? 0] on optional result fields. *)
Definition truthy (b : option bool) : bool :=
  match b with Some v => v | None => false end.
Definition orZero (x : option R) : R :=
  match x with Some v => v | None => 0 end.

Definition noclipResult : PhysicsResult :=
  {| environment :=
       {| inSpace := true; inTransition := None; inAtmosphere := None;
          env_onGround := false; nearest := None;
          atmosphereZone := NoclipZone; transitionFactor := None |};
     collision :=
       {| col_onGround := false; collidedPlanet := None; surfaceNormal := None |};
     alignment :=
       {| upDirection := Vector3.mk 0 1 0; aligned := Some false;
          alignmentDistance_r := None; alignmentSpeed_r := None |} |}.

(** Lines 326-350: the drag coefficient of the zone. *)
Definition zoneDrag (ph : t) (environment : EnvironmentResult) : result R :=
  let spaceDrag := inSpaceDrag ph in
  let atmosphereDrag := inAtmosphereDrag ph in
  if inSpace environment then Ok spaceDrag
  else if truthy (inTransition environment) then
    Ok (spaceDrag + (atmosphereDrag - spaceDrag)
                    * (1 - orZero (transitionFactor environment)))
  else if negb (env_onGround environment) then
    match nearest environment with
    | Some (planet, distanceFromSurface) =>
        let* planetRadius := parametersRadius planet in
        match planetRadius with
        | Some radius =>
            let normalizedAltitude :=
              Rmin 1 (distanceFromSurface / (radius * (25 / 100))) in
            Ok (spaceDrag + (atmosphereDrag - spaceDrag)
                            * (1 - normalizedAltitude * (9 / 10)))
        | None => Throw NotANumber
        end
    | None =>
        (* radius 100, distance Infinity: Math.min(1, Infinity) *)
        let normalizedAltitude := 1 in
        Ok (spaceDrag + (atmosphereDrag - spaceDrag)
                        * (1 - normalizedAltitude * (9 / 10)))
    end
  else Ok atmosphereDrag.

(** The direction of simple gravity: toward the nearest planet, or
    world-down without one (before scaling by [gravity * deltaTime]). *)
Definition directionalGravity (ph : t) (environment : EnvironmentResult)
    (playerPosition : Vec) (deltaTime : R) : Vec :=
  match nearest environment with
  | Some (planet, _) =>
      Vector3.multiplyScalar
        (Vector3.normalize
           (Vector3.subVectors (Mesh.position planet) playerPosition))
        (gravity ph * deltaTime)
  | None => Vector3.mk 0 (- gravity ph * deltaTime) 0
  end.

(** Lines 378-413. *)
Definition zoneGravity (ph : t) (environment : EnvironmentResult)
    (playerPosition : Vec) (celestialBodies : list Mesh.t) (deltaTime : R)
  : Vec :=
  if inSpace environment && negb (truthy (inTransition environment)) then
    Vector3.multiplyScalar
      (getGravityForce ph playerPosition celestialBodies 1) deltaTime
  else if truthy (inTransition environment) then
    let orbitalGravity :=
      Vector3.multiplyScalar
        (getGravityForce ph playerPosition celestialBodies 1) deltaTime in
    let dirGravity := directionalGravity ph environment playerPosition deltaTime in
    Vector3.addVectors
      (Vector3.multiplyScalar orbitalGravity
                              (orZero (transitionFactor environment)))
      (Vector3.multiplyScalar dirGravity
                              (1 - orZero (transitionFactor environment)))
  else directionalGravity ph environment playerPosition deltaTime.

(** Whether the thrusters use the planet's up direction (lines 425, 447). *)
Definition nearPlanet (environment : EnvironmentResult) : bool :=
  match nearest environment with
  | Some (_, distance) => distance <? 500
  | None => false
  end.

(** Lines 420-440: the jetpack; returns the velocity and the fuel. *)
Definition applyJetpack (ph : t) (environment : EnvironmentResult)
    (controls : ControlsState) (camera : Camera) (planets : list Mesh.t)
    (deltaTime : R) (playerPosition velocity : Vec) (fuel : R)
  : result (Vec * R) :=
  if jetpack controls && (fuel >? 0) then
    let* jetpackDirection :=
      if nearPlanet environment
      then calculateUpDirection ph playerPosition planets
      else Ok (worldDirection camera) in
    let jetpackForce :=
      Vector3.multiplyScalar jetpackDirection (jetpackForce ph * deltaTime) in
    let velocity := Vector3.add velocity jetpackForce in
    let fuel := fuel - 20 * deltaTime in
    let fuel := if fuel <? 0 then 0 else fuel in
    Ok (velocity, fuel)
  else Ok (velocity, fuel).

(** Lines 442-464: the down thrusters. *)
Definition applyDownThrusters (ph : t) (environment : EnvironmentResult)
    (controls : ControlsState) (camera : Camera) (planets : list Mesh.t)
    (deltaTime : R) (playerPosition velocity : Vec) (fuel : R)
  : result (Vec * R) :=
  if downThrusters controls && (fuel >? 0) then
    let* downDirection :=
      if nearPlanet environment
      then
        let* upDirection := calculateUpDirection ph playerPosition planets in
        Ok (Vector3.negate upDirection)
      else Ok (Vector3.negate (worldDirection camera)) in
    let downForce :=
      Vector3.multiplyScalar downDirection
                             (jetpackForce ph * (8 / 10) * deltaTime) in
    let velocity := Vector3.add velocity downForce in
    let fuel := fuel - 15 * deltaTime in
    let fuel := if fuel <? 0 then 0 else fuel in
    Ok (velocity, fuel)
  else Ok (velocity, fuel).

(** Lines 480-496: friction on the ground. *)
Definition groundFriction (collision : CollisionResult) (velocity : Vec) : Vec :=
  if col_onGround collision then
    match surfaceNormal collision with
    | Some normal =>
        let dot := Vector3.dot velocity normal in
        let normalComponent := Vector3.multiplyScalar normal dot in
        let tangentialComponent := Vector3.subVectors velocity normalComponent in
        Vector3.multiplyScalar tangentialComponent (9 / 10)
    | None => velocity
    end
  else velocity.

(** The noclip branch (lines 275-308), after the stamina update. *)
Definition noclipStep (ph : t) (player : Player) (controls : ControlsState)
    (deltaTime : R) (camera : Camera) : PhysicsResult * Player :=
  let moveDirection := calculateMoveDirection controls camera true false in
  let position' :=
    if Vector3.length moveDirection >? 0 then
      let noclipSpeed := moveSpeed ph * 100 in
      let noclipSpeed := if sprint controls then noclipSpeed * 3 else noclipSpeed in
      Vector3.add (p_position player)
        (Vector3.multiplyScalar (Vector3.normalize moveDirection)
                                (noclipSpeed * deltaTime))
    else p_position player in
  (noclipResult, setMotion player position' (Vector3.mk 0 0 0) false (fuel player)).

Definition updatePlayerPhysics (ph : t) (player : Player)
    (controls : ControlsState) (deltaTime : R) (planets : list Mesh.t)
    (sun : option Mesh.t) (camera : Camera) (gameState : GameState)
  : result (PhysicsResult * Player * t) :=
  let player := updateStamina player controls deltaTime in
  if noclip gameState then
    let '(res, player') := noclipStep ph player controls deltaTime camera in
    Ok (res, player', ph)
  else
    let celestialBodies :=
      planets ++ match sun with Some s => [s] | None => [] end in
    let playerPosition := p_position player in
    let* upDirection := calculateUpDirection ph playerPosition planets in
    let* (environment, ph') := checkPlayerEnvironment ph playerPosition planets in
    let onGround := env_onGround environment in
    let* dragCoefficient := zoneDrag ph environment in
    let velocity :=
      Vector3.multiplyScalar (p_velocity player)
        (1 - Rmin dragCoefficient ((5 / 100) * deltaTime / (16 / 1000))) in
    let moveDirection :=
      calculateMoveDirection controls camera (negb onGround) onGround in
    let velocity :=
      if Vector3.length moveDirection >? 0 then
        let spaceSpeedFactor := 5 / 10 in
        let groundSpeedFactor := 1 in
        let speedFactor :=
          if truthy (inTransition environment) then
            groundSpeedFactor
            + (spaceSpeedFactor - groundSpeedFactor)
              * orZero (transitionFactor environment)
          else if inSpace environment then spaceSpeedFactor
          else groundSpeedFactor in
        let speedFactor :=
          if sprint controls && (stamina player >? 0)
             && negb (inSpace environment)
          then speedFactor * (15 / 10) else speedFactor in
        Vector3.add velocity
          (Vector3.multiplyScalar (Vector3.normalize moveDirection)
                                  (moveSpeed ph * deltaTime * speedFactor))
      else velocity in
    let gravityVector :=
      zoneGravity ph environment playerPosition celestialBodies deltaTime in
    let velocity :=
      if negb onGround then Vector3.add velocity gravityVector else velocity in
    let* (velocity, fuel1) :=
      applyJetpack ph environment controls camera planets deltaTime
                   playerPosition velocity (fuel player) in
    let* (velocity, fuel2) :=
      applyDownThrusters ph environment controls camera planets deltaTime
                         playerPosition velocity fuel1 in
    let* (collision, playerPosition, velocity) :=
      handlePlanetCollisions playerPosition velocity planets
                             (collisionRadius ph) in
    let playerPosition :=
      Vector3.add playerPosition (Vector3.multiplyScalar velocity deltaTime) in
    let velocity := groundFriction collision velocity in
    Ok ({| environment := environment;
           collision := collision;
           alignment :=
             {| upDirection := upDirection;
                aligned := None;
                alignmentDistance_r := Some (alignmentDistance ph);
                alignmentSpeed_r := Some (alignmentSpeed ph) |} |},
        setMotion player playerPosition velocity (col_onGround collision) fuel2,
        ph').

(** [n] consecutive ticks with the same inputs. *)
Fixpoint ticks (n : nat) (ph : t) (player : Player) (controls : ControlsState)
    (deltaTime : R) (planets : list Mesh.t) (sun : option Mesh.t)
    (camera : Camera) (gameState : GameState) : result (Player * t) :=
  match n with
  | O => Ok (player, ph)
  | S n' =>
      let* (_, player', ph') :=
        updatePlayerPhysics ph player controls deltaTime planets sun
                            camera gameState in
      ticks n' ph' player' controls deltaTime planets sun camera gameState
  end.

End Physics.

(** ** PlayerController.alignWithSurface: the alignment factor

    Steps 1 and 2 of the method (the scan for the nearest planet and the
    alignment factor) and the interpolation strength of step 4.  The
    target orientation of step 3 and the slerp of [bodyQuaternion] do
    not feed back into these numbers and are left out. *)

Module PlayerController.

Record t : Type := mk {
  position : Vec;
  velocity : Vec;
  onGround : bool;
  noclip : bool;
  alignmentNeeded : R;
  alignmentStrength : R
}.

(** The four variables the scan keeps; [None] is the initial state
    ([null], [Infinity], 0, 0). *)
Record Influence : Type := mkInfluence {
  nearestPlanet : Mesh.t;
  minDistance : R;
  escapeVelocity : R;
  gravityFactor : R
}.

(** [physics?.gravitationalConstant || 100] *)
Definition constantG (physics : option Physics.t) : R :=
  match physics with
  | Some ph => orElse (Physics.gravitationalConstant ph) 100
  | None => 100
  end.

(** [Math.sqrt(v) || 0]: the square root of a negative number is NaN. *)
Definition sqrtOrZero (v : R) : R := if v <? 0 then 0 else orElse (sqrt v) 0.

Definition influenceStep (physics : option Physics.t) (pos : Vec)
    (acc : option Influence) (planet : Mesh.t) : result (option Influence) :=
  let* radius := parametersRadius planet in
  match radius with
  | None => Ok acc    (* surfaceDistance is NaN: the comparison fails *)
  | Some r =>
      let planetMass := r * 10 in
      let distance :=
        Rmax (1 / 10) (Vector3.distanceTo pos (Mesh.position planet)) in
      let surfaceDistance := distance - r in
      let planetEscapeVel :=
        sqrtOrZero (2 * constantG physics * planetMass / distance) in
      let planetGravityFactor :=
        (constantG physics * planetMass) / (distance * distance) in
      let found :=
        {| nearestPlanet := planet; minDistance := surfaceDistance;
           escapeVelocity := planetEscapeVel;
           gravityFactor := planetGravityFactor |} in
      match acc with
      | None => Ok (Some found)
      | Some best =>
          if surfaceDistance <? minDistance best then Ok (Some found)
          else Ok acc
      end
  end.

Fixpoint scanPlanets (physics : option Physics.t) (pos : Vec)
    (acc : option Influence) (planets : list Mesh.t)
  : result (option Influence) :=
  match planets with
  | [] => Ok acc
  | planet :: rest =>
      let* acc' := influenceStep physics pos acc planet in
      scanPlanets physics pos acc' rest
  end.

(** Lines 842-856. *)
Definition alignFactorOf (gravityFactor escapeVelocity velocityMagnitude : R)
    (onGround : bool) : R :=
  let alignFactor := Rmin 1 (gravityFactor * (1 / 10)) in
  let velocityRatio := velocityMagnitude / Rmax (1 / 10) escapeVelocity in
  let alignFactor :=
    if velocityRatio >? 5 / 10
    then alignFactor * Rmax 0 (1 - (velocityRatio - 5 / 10) * 2)
    else alignFactor in
  if onGround then 1 else alignFactor.

Definition store (pc : t) (needed strength : R) : t :=
  {| position := position pc; velocity := velocity pc;
     onGround := onGround pc; noclip := noclip pc;
     alignmentNeeded := needed; alignmentStrength := strength |}.

Definition alignWithSurface (pc : t) (physics : option Physics.t)
    (planets : list Mesh.t) (upDirection : Vec) (deltaTime alignmentSpeed : R)
  : result (t * bool) :=
  if noclip pc then Ok (pc, false)
  else
    let* found := scanPlanets physics (position pc) None planets in
    match found with
    | None => Ok (store pc 0 (alignmentStrength pc), false)
    | Some inf =>
        if minDistance inf >? 500
        then Ok (store pc 0 (alignmentStrength pc), false)
        else
          let alignFactor :=
            alignFactorOf (gravityFactor inf) (escapeVelocity inf)
                          (Vector3.length (velocity pc)) (onGround pc) in
          let effectiveStrength :=
            if onGround pc then 1
            else Rmin 1 (alignFactor * alignmentSpeed * deltaTime * 30) in
          Ok (store pc alignFactor effectiveStrength, alignFactor <? 1 / 10)
    end.

End PlayerController.

(** ** Shapes of inputs, and sample scenes *)

Definition hasParameters (m : Mesh.t) : bool :=
  match Mesh.geometry m with BufferGeometry => false | _ => true end.

Definition hasRadius (m : Mesh.t) : bool :=
  match Mesh.geometry m with SphereGeometry _ => true | _ => false end.

Definition lacksRadius (m : Mesh.t) : bool :=
  match Mesh.geometry m with ParametricGeometry => true | _ => false end.

(** A planet as the world creates it. *)
Definition sphere (center : Vec) (radius : R) : Mesh.t :=
  Mesh.mk center (SphereGeometry radius) false.

(** What [checkPlayerEnvironment] returns without a nearest planet. *)
Definition noPlanetEnvironment : EnvironmentResult :=
  {| inSpace := true; inTransition := None; inAtmosphere := None;
     env_onGround := false; nearest := None;
     atmosphereZone := DeepSpace; transitionFactor := None |}.

(** A mesh whose geometry has no [parameters]. *)
Definition bareMesh : Mesh.t := Mesh.mk (Vector3.mk 0 0 0) BufferGeometry false.

(** A nearest-planet record found by a scan names a body with a radius. *)
Definition nearestOk (n : Nearest) : Prop :=
  match n with
  | Some (planet, _) => hasRadius planet = true
  | None => True
  end.

(** Every body can be read, and at least one has a radius. *)
Definition populated (planets : list Mesh.t) : bool :=
  forallb hasParameters planets && existsb hasRadius planets.

(** The outcome of a tick, with the [collisionRadius] field of the
    instance overwritten afterwards. *)
Definition withCollisionRadius (r : R)
    (out : result (PhysicsResult * Player * Physics.t))
  : result (PhysicsResult * Player * Physics.t) :=
  match out with
  | Ok (res, player, ph) => Ok (res, player, Physics.setCollisionRadius ph r)
  | Throw e => Throw e
  end.

(** What [handlePlanetCollisions] returns on a hit. *)
Definition collisionHit (playerPosition playerVelocity : Vec) (planet : Mesh.t)
    (radius : R) : CollisionResult * Vec * Vec :=
  let normal :=
    Vector3.normalize (Vector3.subVectors playerPosition (Mesh.position planet)) in
  let distanceToSurface :=
    Vector3.distanceTo playerPosition (Mesh.position planet) - radius in
  let dot := Vector3.dot playerVelocity normal in
  ({| col_onGround := true; collidedPlanet := Some planet;
      surfaceNormal := Some normal |},
   Vector3.add playerPosition
     (Vector3.multiplyScalar normal
        (Physics.groundCollisionRadius - distanceToSurface)),
   if dot <? 0
   then Vector3.multiplyScalar
          (Vector3.sub playerVelocity (Vector3.multiplyScalar normal dot))
          (8 / 10)
   else playerVelocity).

(** A planet of radius 10 at the origin, and an avatar a quarter of a
    unit above its surface, falling. *)
Definition planet10 : Mesh.t := sphere (Vector3.mk 0 0 0) 10.
Definition lowPosition : Vec := Vector3.mk (41 / 4) 0 0.
Definition fallingVelocity : Vec := Vector3.mk (-1) 0 0.

Definition noCollision : CollisionResult :=
  {| col_onGround := false; collidedPlanet := None; surfaceNormal := None |}.

(** An avatar with one unit of fuel, the jetpack held, a camera looking
    down the negative z axis. *)
Definition samplePlayer : Player :=
  {| p_position := Vector3.mk 40 0 0;
     p_velocity := Vector3.mk 0 0 0;
     p_onGround := false;
     fuel := 1;
     stamina := 100;
     maxStamina := 100;
     staminaDrainRate := 25;
     staminaRechargeRate := 15;
     isSprinting := false |}.

Definition jetpackHeld : ControlsState :=
  {| moveForward := false; moveBackward := false; moveLeft := false;
     moveRight := false; jump := false; jetpack := true; sprint := false;
     downThrusters := false |}.

Definition forwardHeld : ControlsState :=
  {| moveForward := true; moveBackward := false; moveLeft := false;
     moveRight := false; jump := false; jetpack := false; sprint := false;
     downThrusters := false |}.

Definition sampleCamera : Camera :=
  {| worldDirection := Vector3.mk 0 0 (-1);
     quaternion := Vector3.mkQ 0 0 0 1 |}.

(** A planet of radius 8 seen from 40 units (escape velocity 20), and a
    speck of radius 1/1024 seen from 500 units (escape velocity 1/16). *)
Definition planet8 : Mesh.t := sphere (Vector3.mk 0 0 0) 8.
Definition speck : Mesh.t := sphere (Vector3.mk 0 0 0) (1 / 1024).

(** An avatar in flight, for [alignWithSurface]. *)
Definition flying (pos vel : Vec) : PlayerController.t :=
  {| PlayerController.position := pos;
     PlayerController.velocity := vel;
     PlayerController.onGround := false;
     PlayerController.noclip := false;
     PlayerController.alignmentNeeded := 0;
     PlayerController.alignmentStrength := 0 |}.

(** An outcome that is a value or the TypeError of a failed read. *)
Definition valueOrTypeError {A : Type} (m : result A) : Prop :=
  match m with
  | Throw NotANumber => False
  | _ => True
  end.

(** The distance from a position to the surface of a body; [None] when
    the body has no radius to measure against. *)
Definition surfaceDistance (pos : Vec) (m : Mesh.t) : option R :=
  match Mesh.geometry m with
  | SphereGeometry r => Some (Vector3.distanceTo pos (Mesh.position m) - r)
  | _ => None
  end.

(** The zone that [checkPlayerEnvironment] proposes (lines 58-108) at
    surface distance [d] from a nearest planet of radius [r]. *)
Definition proposalAt (ph : Physics.t) (d r : R) : Zone :=
  let atmosphereThreshold := Some (r * Physics.atmosphereRatio ph) in
  let outerAtmosphereThreshold := Some (r * Physics.outerAtmosphereRatio ph) in
  Physics.proposedZone ph d atmosphereThreshold
    (if Physics.isSurface (Physics.lastZone ph)
     then d <? Physics.groundThreshold + Physics.zoneHysteresis ph
     else d <? Physics.groundThreshold)
    (Physics.leThreshold d atmosphereThreshold)
    (Physics.leThreshold d outerAtmosphereThreshold
     && Physics.gtThreshold d atmosphereThreshold).

(** [n] consecutive calls of [checkPlayerEnvironment] at one position:
    the zones reported, in order, and the instance left behind. *)
Fixpoint repeatCheck (n : nat) (ph : Physics.t) (pos : Vec)
    (planets : list Mesh.t) : result (list Zone * Physics.t) :=
  match n with
  | O => Ok ([], ph)
  | S n' =>
      let* (env, ph') := Physics.checkPlayerEnvironment ph pos planets in
      let* (zones, ph'') := repeatCheck n' ph' pos planets in
      Ok (atmosphereZone env :: zones, ph'')
  end.

(** A body moved by the vector [t]. *)
Definition translate (t : Vec) (m : Mesh.t) : Mesh.t :=
  Mesh.mk (Vector3.add (Mesh.position m) t) (Mesh.geometry m) (Mesh.isSun m).

(** An avatar at rest 0.6 above the surface of [planet10], no key held. *)
Definition restingPlayer : Player :=
  {| p_position := Vector3.mk (53 / 5) 0 0;
     p_velocity := Vector3.mk 0 0 0;
     p_onGround := true;
     fuel := 100;
     stamina := 100;
     maxStamina := 100;
     staminaDrainRate := 25;
     staminaRechargeRate := 15;
     isSprinting := false |}.

Definition idleControls : ControlsState :=
  {| moveForward := false; moveBackward := false; moveLeft := false;
     moveRight := false; jump := false; jetpack := false; sprint := false;
     downThrusters := false |}.

(** An avatar a quarter of a unit above the surface of [planet10],
    falling. *)
Definition fallingPlayer : Player :=
  {| p_position := lowPosition;
     p_velocity := fallingVelocity;
     p_onGround := false;
     fuel := 100;
     stamina := 100;
     maxStamina := 100;
     staminaDrainRate := 25;
     staminaRechargeRate := 15;
     isSprinting := false |}.

(** ** PlayerController.alignWithSurface: the surface basis

    Step 3 of the method (lines 866-881): the reference vector, the two
    cross products, and the three axes handed to [Matrix4.makeBasis]. *)

Definition planetRightReference (upDirection : Vec) : Vec :=
  if Rabs (Vector3.dot upDirection (Vector3.mk 1 0 0)) >? 9 / 10
  then Vector3.mk 0 0 1
  else Vector3.mk 1 0 0.

Definition planetForward (upDirection : Vec) : Vec :=
  Vector3.normalize
    (Vector3.crossVectors (planetRightReference upDirection) upDirection).

Definition planetRight (upDirection : Vec) : Vec :=
  Vector3.normalize
    (Vector3.crossVectors upDirection (planetForward upDirection)).

(** [makeBasis(planetRight, upDirection, planetForward.clone().negate())] *)
Definition baseAlignBasis (upDirection : Vec) : Vec * Vec * Vec :=
  (planetRight upDirection, upDirection,
   Vector3.negate (planetForward upDirection)).

(** ** The camera rig (player.ts and [Game.cycleCameraMode])

    The fields of the player and of its camera that the camera modes
    read and write; [isLocked] is [pointerLockControls.isLocked]. *)

Module CameraRig.

Record t : Type := mk {
  cameraMode : String.string;
  cameraDistance : R;
  targetCameraDistance : R;
  cameraZoomSpeed : R;
  fov : R;
  normalFOV : R;
  scopeFOV : R;
  isLocked : bool
}.

(** player.ts lines 135-142 and main.ts line 25. *)
Definition constructor : t :=
  {| cameraMode := "firstPerson"%string;
     cameraDistance := 0;
     targetCameraDistance := 0;
     cameraZoomSpeed := 5;
     fov := 75;
     normalFOV := 75;
     scopeFOV := 30;
     isLocked := false |}.

Definition setLocked (c : t) (b : bool) : t :=
  {| cameraMode := cameraMode c; cameraDistance := cameraDistance c;
     targetCameraDistance := targetCameraDistance c;
     cameraZoomSpeed := cameraZoomSpeed c; fov := fov c;
     normalFOV := normalFOV c; scopeFOV := scopeFOV c; isLocked := b |}.

Definition setDistance (c : t) (d : R) : t :=
  {| cameraMode := cameraMode c; cameraDistance := d;
     targetCameraDistance := targetCameraDistance c;
     cameraZoomSpeed := cameraZoomSpeed c; fov := fov c;
     normalFOV := normalFOV c; scopeFOV := scopeFOV c;
     isLocked := isLocked c |}.

Definition isMode (mode name : String.string) : bool := String.eqb mode name.

(** player.ts lines 392-421. *)
Definition setCameraMode (mode : String.string) (c : t) : t :=
  let '(target, fov') :=
    if isMode mode "scope"%string then (0, scopeFOV c)
    else if isMode mode "firstPerson"%string then (0, normalFOV c)
    else if isMode mode "thirdPerson"%string then (5, normalFOV c)
    else (targetCameraDistance c, fov c) in
  {| cameraMode := mode; cameraDistance := cameraDistance c;
     targetCameraDistance := target;
     cameraZoomSpeed := cameraZoomSpeed c; fov := fov';
     normalFOV := normalFOV c; scopeFOV := scopeFOV c;
     isLocked := isLocked c |}.

(** player.ts lines 367-390. *)
Definition handleMouseWheel (deltaY : R) (c : t) : t :=
  if negb (isLocked c) then c
  else
    let scrollingUp := deltaY <? 0 in
    if scrollingUp then
      if isMode (cameraMode c) "thirdPerson"%string then setCameraMode "firstPerson"%string c
      else if isMode (cameraMode c) "firstPerson"%string then setCameraMode "scope"%string c
      else c
    else
      if isMode (cameraMode c) "scope"%string then setCameraMode "firstPerson"%string c
      else if isMode (cameraMode c) "firstPerson"%string
      then setCameraMode "thirdPerson"%string c
      else c.

(** main.ts lines 212-233. *)
Definition cycleCameraMode (c : t) : t :=
  let nextMode :=
    if isMode (cameraMode c) "firstPerson"%string then "thirdPerson"%string
    else if isMode (cameraMode c) "thirdPerson"%string then "scope"%string
    else if isMode (cameraMode c) "scope"%string then "firstPerson"%string
    else "firstPerson"%string in
  setCameraMode nextMode c.

(** [THREE.MathUtils.lerp] *)
Definition lerp (x y t : R) : R := (1 - t) * x + t * y.

(** player.ts lines 446-455: the camera distance in [update]. *)
Definition update (deltaTime : R) (c : t) : t :=
  if Rabs (cameraDistance c - targetCameraDistance c) >? 1 / 100 then
    setDistance c
      (lerp (cameraDistance c) (targetCameraDistance c)
            (deltaTime * cameraZoomSpeed c))
  else setDistance c (targetCameraDistance c).

Fixpoint updates (n : nat) (deltaTime : R) (c : t) : t :=
  match n with
  | O => c
  | S n' => updates n' deltaTime (update deltaTime c)
  end.

Inductive Event : Type :=
| Lock (locked : bool)
| Wheel (deltaY : R)
| KeyC
| Update (deltaTime : R).

Definition step (c : t) (e : Event) : t :=
  match e with
  | Lock locked => setLocked c locked
  | Wheel deltaY => handleMouseWheel deltaY c
  | KeyC => cycleCameraMode c
  | Update deltaTime => update deltaTime c
  end.

Definition run (c : t) (events : list Event) : t := fold_left step events c.

End CameraRig.

(** The mode is one of the three the code names, with the target
    distance and field of view that [setCameraMode] gives it, and the
    camera is between the avatar and the third-person distance. *)
Definition rigConsistent (c : CameraRig.t) : Prop :=
  ((CameraRig.cameraMode c = "firstPerson"%string
    /\ CameraRig.targetCameraDistance c = 0
    /\ CameraRig.fov c = CameraRig.normalFOV c)
   \/ (CameraRig.cameraMode c = "scope"%string
       /\ CameraRig.targetCameraDistance c = 0
       /\ CameraRig.fov c = CameraRig.scopeFOV c)
   \/ (CameraRig.cameraMode c = "thirdPerson"%string
       /\ CameraRig.targetCameraDistance c = 5
       /\ CameraRig.fov c = CameraRig.normalFOV c))
  /\ 0 <= CameraRig.cameraDistance c <= 5.

(** An update whose interpolation factor [deltaTime * cameraZoomSpeed]
    is within [0, 1]. *)
Definition updateGentle (zoomSpeed : R) (e : CameraRig.Event) : Prop :=
  match e with
  | CameraRig.Update deltaTime => 0 <= deltaTime * zoomSpeed <= 1
  | _ => True
  end.

(** ** class Game (main.ts): the keys, the jump and the avatar's part
    of a frame

    The state is the part of the [Game] object, and of the objects it
    owns, that these methods read and write: the physics instance, the
    fields of the player that the physics step touches together with
    [maxFuel], [noclip] and the two alignment numbers, the key flags,
    [gameState.noclip], [gameState.inSpace] and
    [gameState.currentAtmosphereZone], the planets, sun and camera as
    the last frame found them, [world.upgrades.jetpackRecharge], the
    frame's [deltaTime], and the camera rig of the player.
    [window.game], through which [alignWithSurface] finds the physics
    instance and the planets, is assigned on the first lines of the
    constructor.  The user interface, the renderer, the copies of the
    key flags kept on the player for its animation and the bookkeeping
    of discoveries are not part of it. *)

(** The entries of [UIStats] that [updateUI] computes from the state
    kept here; [altitude] is [None] for [Infinity]. *)
Module UIStats.
Record t : Type := mk {
  altitude : option R;
  velocity : R;
  fuel : R;
  stamina : R;
  maxStamina : R;
  timeOfDay : String.string;
  dayNightProgress : R;
  zone : option Zone
}.
End UIStats.

Record Upgrade : Type := mkUpgrade {
  name : String.string;
  cost : R;
  effect : String.string
}.

Module Game.

Record t : Type := mk {
  physics : Physics.t;
  player : Player;
  maxFuel : R;
  playerNoclip : bool;
  alignmentNeeded : R;
  alignmentStrength : R;
  controls : ControlsState;
  gameState : GameState;
  gs_inSpace : bool;
  currentAtmosphereZone : option Zone;
  planets : list Mesh.t;
  sun : option Mesh.t;
  camera : Camera;
  jetpackRecharge : R;
  deltaTime : R;
  rig : CameraRig.t
}.

Definition setPlayer (g : t) (p : Player) : t :=
  {| physics := physics g; player := p; maxFuel := maxFuel g;
     playerNoclip := playerNoclip g; alignmentNeeded := alignmentNeeded g;
     alignmentStrength := alignmentStrength g; controls := controls g;
     gameState := gameState g; gs_inSpace := gs_inSpace g;
     currentAtmosphereZone := currentAtmosphereZone g;
     planets := planets g; sun := sun g; camera := camera g;
     jetpackRecharge := jetpackRecharge g; deltaTime := deltaTime g;
     rig := rig g |}.

Definition setControls (g : t) (c : ControlsState) : t :=
  {| physics := physics g; player := player g; maxFuel := maxFuel g;
     playerNoclip := playerNoclip g; alignmentNeeded := alignmentNeeded g;
     alignmentStrength := alignmentStrength g; controls := c;
     gameState := gameState g; gs_inSpace := gs_inSpace g;
     currentAtmosphereZone := currentAtmosphereZone g;
     planets := planets g; sun := sun g; camera := camera g;
     jetpackRecharge := jetpackRecharge g; deltaTime := deltaTime g;
     rig := rig g |}.

(** [gameState.noclip = b; player.noclip = gameState.noclip] *)
Definition setNoclip (g : t) (b : bool) : t :=
  {| physics := physics g; player := player g; maxFuel := maxFuel g;
     playerNoclip := b; alignmentNeeded := alignmentNeeded g;
     alignmentStrength := alignmentStrength g; controls := controls g;
     gameState := mkGameState b; gs_inSpace := gs_inSpace g;
     currentAtmosphereZone := currentAtmosphereZone g;
     planets := planets g; sun := sun g; camera := camera g;
     jetpackRecharge := jetpackRecharge g; deltaTime := deltaTime g;
     rig := rig g |}.

(** What a frame finds: the capped time step, the planets where
    [world.updatePlanets] has moved them, the sun, the camera. *)
Definition setFrame (g : t) (dt : R) (planets' : list Mesh.t)
    (sun' : option Mesh.t) (camera' : Camera) : t :=
  {| physics := physics g; player := player g; maxFuel := maxFuel g;
     playerNoclip := playerNoclip g; alignmentNeeded := alignmentNeeded g;
     alignmentStrength := alignmentStrength g; controls := controls g;
     gameState := gameState g; gs_inSpace := gs_inSpace g;
     currentAtmosphereZone := currentAtmosphereZone g;
     planets := planets'; sun := sun'; camera := camera';
     jetpackRecharge := jetpackRecharge g; deltaTime := dt;
     rig := rig g |}.

Definition setRig (g : t) (c : CameraRig.t) : t :=
  {| physics := physics g; player := player g; maxFuel := maxFuel g;
     playerNoclip := playerNoclip g; alignmentNeeded := alignmentNeeded g;
     alignmentStrength := alignmentStrength g; controls := controls g;
     gameState := gameState g; gs_inSpace := gs_inSpace g;
     currentAtmosphereZone := currentAtmosphereZone g;
     planets := planets g; sun := sun g; camera := camera g;
     jetpackRecharge := jetpackRecharge g; deltaTime := deltaTime g;
     rig := c |}.

Definition setPhysics (g : t) (ph : Physics.t) : t :=
  {| physics := ph; player := player g; maxFuel := maxFuel g;
     playerNoclip := playerNoclip g; alignmentNeeded := alignmentNeeded g;
     alignmentStrength := alignmentStrength g; controls := controls g;
     gameState := gameState g; gs_inSpace := gs_inSpace g;
     currentAtmosphereZone := currentAtmosphereZone g;
     planets := planets g; sun := sun g; camera := camera g;
     jetpackRecharge := jetpackRecharge g; deltaTime := deltaTime g;
     rig := rig g |}.

Definition setJetpackRecharge (g : t) (r : R) : t :=
  {| physics := physics g; player := player g; maxFuel := maxFuel g;
     playerNoclip := playerNoclip g; alignmentNeeded := alignmentNeeded g;
     alignmentStrength := alignmentStrength g; controls := controls g;
     gameState := gameState g; gs_inSpace := gs_inSpace g;
     currentAtmosphereZone := currentAtmosphereZone g;
     planets := planets g; sun := sun g; camera := camera g;
     jetpackRecharge := r; deltaTime := deltaTime g;
     rig := rig g |}.

(** [player.maxFuel = m; player.fuel = player.maxFuel] *)
Definition refill (g : t) (m : R) : t :=
  {| physics := physics g;
     player :=
       Physics.setMotion (player g) (p_position (player g))
         (p_velocity (player g)) (p_onGround (player g)) m;
     maxFuel := m;
     playerNoclip := playerNoclip g; alignmentNeeded := alignmentNeeded g;
     alignmentStrength := alignmentStrength g; controls := controls g;
     gameState := gameState g; gs_inSpace := gs_inSpace g;
     currentAtmosphereZone := currentAtmosphereZone g;
     planets := planets g; sun := sun g; camera := camera g;
     jetpackRecharge := jetpackRecharge g; deltaTime := deltaTime g;
     rig := rig g |}.

(** The four fields of the physics instance that upgrades tune. *)
Definition tune (ph : Physics.t) (gravity' moveSpeed' jetpackForce'
    inSpaceDrag' : R) : Physics.t :=
  {| Physics.gravity := gravity';
     Physics.jumpForce := Physics.jumpForce ph;
     Physics.moveSpeed := moveSpeed';
     Physics.jetpackForce := jetpackForce';
     Physics.dragCoefficient := Physics.dragCoefficient ph;
     Physics.inSpaceDrag := inSpaceDrag';
     Physics.inAtmosphereDrag := Physics.inAtmosphereDrag ph;
     Physics.collisionRadius := Physics.collisionRadius ph;
     Physics.gravitationalConstant := Physics.gravitationalConstant ph;
     Physics.alignmentSpeed := Physics.alignmentSpeed ph;
     Physics.alignmentDistance := Physics.alignmentDistance ph;
     Physics.atmosphereRatio := Physics.atmosphereRatio ph;
     Physics.outerAtmosphereRatio := Physics.outerAtmosphereRatio ph;
     Physics.lastZone := Physics.lastZone ph;
     Physics.zoneHysteresis := Physics.zoneHysteresis ph;
     Physics.zoneSwitchDelay := Physics.zoneSwitchDelay ph |}.

(** The key flags, one assignment each. *)
Definition setMoveForward (c : ControlsState) (b : bool) : ControlsState :=
  mkControls b (moveBackward c) (moveLeft c) (moveRight c) (jump c)
             (jetpack c) (sprint c) (downThrusters c).
Definition setMoveBackward (c : ControlsState) (b : bool) : ControlsState :=
  mkControls (moveForward c) b (moveLeft c) (moveRight c) (jump c)
             (jetpack c) (sprint c) (downThrusters c).
Definition setMoveLeft (c : ControlsState) (b : bool) : ControlsState :=
  mkControls (moveForward c) (moveBackward c) b (moveRight c) (jump c)
             (jetpack c) (sprint c) (downThrusters c).
Definition setMoveRight (c : ControlsState) (b : bool) : ControlsState :=
  mkControls (moveForward c) (moveBackward c) (moveLeft c) b (jump c)
             (jetpack c) (sprint c) (downThrusters c).
Definition setJump (c : ControlsState) (b : bool) : ControlsState :=
  mkControls (moveForward c) (moveBackward c) (moveLeft c) (moveRight c) b
             (jetpack c) (sprint c) (downThrusters c).
Definition setJetpack (c : ControlsState) (b : bool) : ControlsState :=
  mkControls (moveForward c) (moveBackward c) (moveLeft c) (moveRight c)
             (jump c) b (sprint c) (downThrusters c).
Definition setSprint (c : ControlsState) (b : bool) : ControlsState :=
  mkControls (moveForward c) (moveBackward c) (moveLeft c) (moveRight c)
             (jump c) (jetpack c) b (downThrusters c).
Definition setDownThrusters (c : ControlsState) (b : bool) : ControlsState :=
  mkControls (moveForward c) (moveBackward c) (moveLeft c) (moveRight c)
             (jump c) (jetpack c) (sprint c) b.

(** [controls.jump] *)
Definition jumpHeld (c : ControlsState) : bool := jump c.

(** [player.isSprinting = b] *)
Definition setSprinting (p : Player) (b : bool) : Player :=
  Physics.setStamina p (stamina p) b.

(** The state the constructor leaves (lines 52-103 of main.ts, 88-139
    of player.ts, 71-78 of world.ts), with the world's planets and sun
    and the camera as parameters. *)
Definition constructor (planets0 : list Mesh.t) (sun0 : option Mesh.t)
    (camera0 : Camera) : t :=
  {| physics := Physics.constructor;
     player :=
       {| p_position := Vector3.mk 150 150 150;
          p_velocity := Vector3.mk 0 0 0;
          p_onGround := false;
          fuel := 100;
          stamina := 100;
          maxStamina := 100;
          staminaDrainRate := 25;
          staminaRechargeRate := 15;
          isSprinting := false |};
     maxFuel := 100;
     playerNoclip := false;
     alignmentNeeded := 0;
     alignmentStrength := 0;
     controls := mkControls false false false false false false false false;
     gameState := mkGameState false;
     gs_inSpace := false;
     currentAtmosphereZone := None;
     planets := planets0; sun := sun0; camera := camera0;
     jetpackRecharge := 5 / 10;
     deltaTime := 0;
     rig := CameraRig.constructor |}.

(** Lines 235-245. *)
Definition jump (g : t) : result t :=
  if p_onGround (player g) then
    let* upDir :=
      Physics.calculateUpDirection (physics g) (p_position (player g))
                                   (planets g) in
    let jumpVector :=
      Vector3.multiplyScalar upDir (Physics.jumpForce (physics g)) in
    Ok (setPlayer g
          (Physics.setMotion (player g) (p_position (player g))
             (Vector3.add (p_velocity (player g)) jumpVector) false
             (fuel (player g))))
  else Ok g.

Definition isKey (code name : String.string) : bool := String.eqb code name.

(** Lines 122-176.  Tab calls [toggleUpgradeMenu], whose body is
    empty; KeyE calls [tryInteract], which acts on the bookkeeping of
    discoveries and on the user interface, outside [t]. *)
Definition handleKeyDown (code : String.string) (g : t) : result t :=
  if isKey code "KeyW"%string then
    Ok (setControls g (setMoveForward (controls g) true))
  else if isKey code "KeyS"%string then
    Ok (setControls g (setMoveBackward (controls g) true))
  else if isKey code "KeyA"%string then
    Ok (setControls g (setMoveLeft (controls g) true))
  else if isKey code "KeyD"%string then
    Ok (setControls g (setMoveRight (controls g) true))
  else if isKey code "ShiftLeft"%string || isKey code "ShiftRight"%string then
    if p_onGround (player g) then
      Ok (setPlayer (setControls g (setSprint (controls g) true))
                    (setSprinting (player g) true))
    else Ok (setControls g (setDownThrusters (controls g) true))
  else if isKey code "Space"%string then
    let* g :=
      if negb (jumpHeld (controls g)) && p_onGround (player g)
      then jump g else Ok g in
    Ok (setControls g (setJetpack (setJump (controls g) true) true))
  else if isKey code "KeyV"%string then
    Ok (setNoclip g (negb (noclip (gameState g))))
  else if isKey code "KeyC"%string then
    Ok (setRig g (CameraRig.cycleCameraMode (rig g)))
  else Ok g.

(** Lines 178-210. *)
Definition handleKeyUp (code : String.string) (g : t) : t :=
  if isKey code "KeyW"%string then setControls g (setMoveForward (controls g) false)
  else if isKey code "KeyS"%string then
    setControls g (setMoveBackward (controls g) false)
  else if isKey code "KeyA"%string then setControls g (setMoveLeft (controls g) false)
  else if isKey code "KeyD"%string then setControls g (setMoveRight (controls g) false)
  else if isKey code "ShiftLeft"%string || isKey code "ShiftRight"%string then
    setPlayer
      (setControls g (setDownThrusters (setSprint (controls g) false) false))
      (setSprinting (player g) false)
  else if isKey code "Space"%string then
    setControls g (setJetpack (setJump (controls g) false) false)
  else g.

(** Lines 366-439: the numbers handed to the user interface. *)
Definition timeOfDayAt (dayNightFactor : R) : String.string :=
  if dayNightFactor >? 6 / 10 then "Day"%string
  else if dayNightFactor >? 2 / 10 then "Evening"%string
  else if dayNightFactor >? - (2 / 10) then "Sunset"%string
  else if dayNightFactor >? - (6 / 10) then "Dusk"%string
  else "Night"%string.

Definition dayNightFactorAt (playerPosition sunPosition planetPosition : Vec)
  : R :=
  let sunDirection :=
    Vector3.normalize (Vector3.subVectors sunPosition playerPosition) in
  let planetDirection :=
    Vector3.normalize (Vector3.subVectors planetPosition playerPosition) in
  let upVector := Vector3.negate planetDirection in
  Vector3.dot upVector sunDirection.

Definition updateUI (g : t) : result UIStats.t :=
  let* nearest :=
    Physics.getNearestPlanet (p_position (player g)) (planets g) in
  let sunPosition :=
    match sun g with Some s => Mesh.position s | None => Vector3.zero end in
  let '(timeOfDay, dayNightFactor) :=
    match nearest with
    | Some (planet, distance) =>
        if distance <? 500 then
          let dayNightFactor :=
            dayNightFactorAt (p_position (player g)) sunPosition
                             (Mesh.position planet) in
          (timeOfDayAt dayNightFactor, dayNightFactor)
        else ("Space"%string, 5 / 10)
    | None => ("Space"%string, 5 / 10)
    end in
  Ok {| UIStats.altitude := option_map snd nearest;
        UIStats.velocity := Vector3.length (p_velocity (player g));
        UIStats.fuel := fuel (player g);
        UIStats.stamina := stamina (player g);
        UIStats.maxStamina := maxStamina (player g);
        UIStats.timeOfDay := timeOfDay;
        UIStats.dayNightProgress := (dayNightFactor + 1) / 2;
        UIStats.zone := currentAtmosphereZone g |}.

(** Lines 312-359.  The price is taken from [gameState.discoveryPoints]
    and the scanners unlock planets, both outside [t]. *)
Definition purchaseUpgrade (upgrade : Upgrade) (g : t) : result t :=
  let ph := physics g in
  let g :=
    if isKey (name upgrade) "Improved Jetpack"%string then
      setPhysics g
        (tune ph (Physics.gravity ph) (Physics.moveSpeed ph)
              (Physics.jetpackForce ph * (12 / 10)) (Physics.inSpaceDrag ph))
    else if isKey (name upgrade) "Improved Thrusters"%string then
      setPhysics g
        (tune ph (Physics.gravity ph) (Physics.moveSpeed ph * (13 / 10))
              (Physics.jetpackForce ph) (Physics.inSpaceDrag ph))
    else if isKey (name upgrade) "Fuel Efficiency"%string then
      setJetpackRecharge g (jetpackRecharge g * (125 / 100))
    else if isKey (name upgrade) "Enhanced Fuel Capacity"%string then
      refill g (maxFuel g * (15 / 10))
    else if isKey (name upgrade) "Advanced Propulsion"%string then
      setPhysics g
        (tune ph (Physics.gravity ph) (Physics.moveSpeed ph)
              (Physics.jetpackForce ph) (Physics.inSpaceDrag ph * (7 / 10)))
    else if isKey (name upgrade) "Gravitational Stabilizers"%string then
      setPhysics g
        (tune ph (Physics.gravity ph * (7 / 10)) (Physics.moveSpeed ph)
              (Physics.jetpackForce ph) (Physics.inSpaceDrag ph))
    else if isKey (name upgrade) "Anti-Gravity Field"%string then
      setPhysics g
        (tune ph (Physics.gravity ph * (1 / 10)) (Physics.moveSpeed ph)
              (Physics.jetpackForce ph) (Physics.inSpaceDrag ph))
    else g in
  let* _ := updateUI g in
  Ok g.

(** Lines 478-524: the physics step, the two [gameState] fields,
    [alignWithSurface] (which finds the physics instance and the planets
    through [window.game]), [player.update] (the camera distance), the
    recharge, and [updateUI].  The checks for discoveries and
    interactable objects in between act outside [t]. *)
Definition updatePlayer (g : t) : result t :=
  let* (physicsResults, player', physics') :=
    Physics.updatePlayerPhysics (physics g) (player g) (controls g)
      (deltaTime g) (planets g) (sun g) (camera g) (gameState g) in
  let inSpace' := inSpace (environment physicsResults) in
  let zone' := atmosphereZone (environment physicsResults) in
  let pc :=
    {| PlayerController.position := p_position player';
       PlayerController.velocity := p_velocity player';
       PlayerController.onGround := p_onGround player';
       PlayerController.noclip := playerNoclip g;
       PlayerController.alignmentNeeded := alignmentNeeded g;
       PlayerController.alignmentStrength := alignmentStrength g |} in
  let* (pc', _) :=
    PlayerController.alignWithSurface pc (Some physics') (planets g)
      (upDirection (alignment physicsResults)) (deltaTime g)
      (Physics.alignmentSpeed physics') in
  let fuel' :=
    if negb (jetpack (controls g)) && negb inSpace' then
      let f := fuel player' + jetpackRecharge g * deltaTime g in
      if f >? maxFuel g then maxFuel g else f
    else fuel player' in
  let g' :=
    {| physics := physics';
       player :=
         Physics.setMotion player' (p_position player') (p_velocity player')
                           (p_onGround player') fuel';
       maxFuel := maxFuel g;
       playerNoclip := playerNoclip g;
       alignmentNeeded := PlayerController.alignmentNeeded pc';
       alignmentStrength := PlayerController.alignmentStrength pc';
       controls := controls g;
       gameState := gameState g;
       gs_inSpace := inSpace';
       currentAtmosphereZone := Some zone';
       planets := planets g; sun := sun g; camera := camera g;
       jetpackRecharge := jetpackRecharge g; deltaTime := deltaTime g;
       rig := CameraRig.update (deltaTime g) (rig g) |} in
  let* _ := updateUI g' in
  Ok g'.

(** Lines 559-579: a frame.  [delta] is what [clock.getDelta()]
    returns. *)
Definition animate (g : t) (delta : R) (planets' : list Mesh.t)
    (sun' : option Mesh.t) (camera' : Camera) : result t :=
  updatePlayer (setFrame g (Rmin (1 / 10) delta) planets' sun' camera').

(** What happens to a game after its constructor has returned. *)
Inductive Event : Type :=
| KeyDown (code : String.string)
| KeyUp (code : String.string)
| Purchase (upgrade : Upgrade)
| Frame (delta : R) (planets' : list Mesh.t) (sun' : option Mesh.t)
        (camera' : Camera).

Definition step (g : t) (e : Event) : result t :=
  match e with
  | KeyDown code => handleKeyDown code g
  | KeyUp code => Ok (handleKeyUp code g)
  | Purchase upgrade => purchaseUpgrade upgrade g
  | Frame delta planets' sun' camera' => animate g delta planets' sun' camera'
  end.

Fixpoint run (g : t) (events : list Event) : result t :=
  match events with
  | [] => Ok g
  | e :: rest => let* g' := step g e in run g' rest
  end.

End Game.

(** A frame whose time step is not negative and whose planets can all
    be read; key events are always fine. *)
Definition frameReadable (e : Game.Event) : Prop :=
  match e with
  | Game.Frame delta planets' _ _ =>
      0 <= delta /\ forallb hasParameters planets' = true
  | _ => True
  end.

(** The fuel and stamina gauges of a game are within their ranges, and
    the rates that move them are not negative. *)
Definition gaugesInRange (g : Game.t) : Prop :=
  0 <= fuel (Game.player g) <= Game.maxFuel g
  /\ 0 <= stamina (Game.player g) <= maxStamina (Game.player g)
  /\ 0 <= staminaDrainRate (Game.player g)
  /\ 0 <= staminaRechargeRate (Game.player g)
  /\ 0 <= Game.jetpackRecharge g.

(** An avatar standing on [planet10] after a landing. *)
Definition landedGame : Game.t :=
  Game.setPlayer (Game.constructor [planet10] None sampleCamera)
    {| p_position := Vector3.mk (21 / 2) 0 0;
       p_velocity := Vector3.mk 0 0 0;
       p_onGround := true;
       fuel := 100;
       stamina := 100;
       maxStamina := 100;
       staminaDrainRate := 25;
       staminaRechargeRate := 15;
       isSprinting := false |}.

(** Presses and releases of the Space key among the events. *)
Definition isSpaceDown (e : Game.Event) : bool :=
  match e with
  | Game.KeyDown code => Game.isKey code "Space"%string
  | _ => false
  end.

Definition isSpaceUp (e : Game.Event) : bool :=
  match e with
  | Game.KeyUp code => Game.isKey code "Space"%string
  | _ => false
  end.

(** The landed avatar with Space held. *)
Definition spaceHeldGame : Game.t :=
  Game.setControls landedGame
    (mkControls false false false false true true false false).

(** The planet and the surface distance that the scan of
    [alignWithSurface] settles on, in the shape of the answer of
    [Physics.getNearestPlanet]. *)
Definition influenceNearest (found : option PlayerController.Influence)
  : Nearest :=
  match found with
  | Some inf =>
      Some (PlayerController.nearestPlanet inf, PlayerController.minDistance inf)
  | None => None
  end.

Definition mapResult {A B : Type} (f : A -> B) (m : result A) : result B :=
  match m with
  | Ok a => Ok (f a)
  | Throw e => Throw e
  end.

(** How many events of a run are purchases of the upgrade called
    [upgradeName]. *)
Definition purchased (upgradeName : String.string)
    (events : list Game.Event) : nat :=
  List.length
    (filter (fun e => match e with
                      | Game.Purchase upgrade =>
                          Game.isKey (name upgrade) upgradeName
                      | _ => false
                      end) events).

(** No event of the run is a purchase. *)
Definition noPurchase (events : list Game.Event) : Prop :=
  forall upgrade, ~ In (Game.Purchase upgrade) events.

(** The landed avatar with the sun straight overhead. *)
Definition noonGame : Game.t :=
  Game.setFrame landedGame 0 [planet10]
    (Some (Mesh.mk (Vector3.mk 21 0 0) (SphereGeometry 5) true)) sampleCamera.

(** ** The collision correction in binary64

    Lines 197-246 of [handlePlanetCollisions] once more, over IEEE 754
    binary64 as JavaScript has it, for bodies whose geometry has a
    radius.  The methods of THREE.Vector3 perform their operations in
    the order written here: [length] is the square root of
    [x*x + y*y + z*z] summed from the left, [normalize] multiplies by
    [1 / (length || 1)], [distanceTo] is the square root of the sum of
    the squared differences. *)

Module Binary64.

Import PrimFloat.
Local Open Scope float_scope.

Record Vector3 : Type := mkV { x : float; y : float; z : float }.

Definition subVectors (a b : Vector3) : Vector3 :=
  mkV (x a - x b) (y a - y b) (z a - z b).
Definition add (a b : Vector3) : Vector3 :=
  mkV (x a + x b) (y a + y b) (z a + z b).
Definition sub (a b : Vector3) : Vector3 :=
  mkV (x a - x b) (y a - y b) (z a - z b).
Definition multiplyScalar (a : Vector3) (s : float) : Vector3 :=
  mkV (x a * s) (y a * s) (z a * s).
Definition dot (a b : Vector3) : float := x a * x b + y a * y b + z a * z b.
Definition length (a : Vector3) : float :=
  sqrt (x a * x a + y a * y a + z a * z a).
(** [a || b] on numbers: [b] when [a] is 0 or NaN. *)
Definition orElse (a b : float) : float :=
  if is_nan a || (a =? 0) then b else a.
Definition normalize (a : Vector3) : Vector3 :=
  multiplyScalar a (1 / orElse (length a) 1).
Definition distanceTo (a b : Vector3) : float :=
  let dx := x a - x b in
  let dy := y a - y b in
  let dz := z a - z b in
  sqrt (dx * dx + dy * dy + dz * dz).

(** A mesh with a sphere geometry: its position and
    [geometry.parameters.radius]. *)
Record Sphere : Type := mkSphere { position : Vector3; radius : float }.

Record CollisionResult : Type := mkCollision {
  onGround : bool;
  collidedPlanet : option Sphere;
  surfaceNormal : option Vector3
}.

Definition groundCollisionRadius : float := 0.5.

(** 0.8, the double next to four fifths. *)
Definition damping : float := 0x1.999999999999ap-1.

Fixpoint collisionLoop (playerPosition playerVelocity : Vector3)
    (planets : list Sphere) : CollisionResult * Vector3 * Vector3 :=
  match planets with
  | [] => (mkCollision false None None, playerPosition, playerVelocity)
  | planet :: rest =>
      let planetPos := position planet in
      let planetRadius := radius planet in
      let distanceToCenter := distanceTo playerPosition planetPos in
      let distanceToSurface := distanceToCenter - planetRadius in
      if distanceToSurface <? groundCollisionRadius then
        let normal := normalize (subVectors playerPosition planetPos) in
        let correctionDistance := groundCollisionRadius - distanceToSurface in
        let playerPosition' :=
          add playerPosition (multiplyScalar normal correctionDistance) in
        let dot := dot playerVelocity normal in
        let playerVelocity' :=
          if dot <? 0
          then multiplyScalar
                 (sub playerVelocity (multiplyScalar normal dot)) damping
          else playerVelocity in
        (mkCollision true (Some planet) (Some normal),
         playerPosition', playerVelocity')
      else collisionLoop playerPosition playerVelocity rest
  end.

Definition handlePlanetCollisions (playerPosition playerVelocity : Vector3)
    (planets : list Sphere) (collisionRadius : float)
  : CollisionResult * Vector3 * Vector3 :=
  collisionLoop playerPosition playerVelocity planets.

(** The second of two calls in a row, the first one's onGround, and the
    distance to the surface that the second one computes for the first
    body. *)
Definition twice (playerPosition playerVelocity : Vector3) (planet : Sphere)
  : bool * float * (CollisionResult * Vector3 * Vector3) :=
  let '(first, position1, velocity1) :=
    handlePlanetCollisions playerPosition playerVelocity [planet] 2 in
  (onGround first,
   distanceTo position1 (position planet) - radius planet,
   handlePlanetCollisions position1 velocity1 [planet] 2).

(** A planet of radius 10 at the origin, and two avatars within 0.5 of
    its surface: at (41/4, 0, 0), where no operation rounds, and at
    (1, 5, 9). *)
Definition planet10 : Sphere := mkSphere (mkV 0 0 0) 10.
Definition dyadicPosition : Vector3 := mkV 10.25 0 0.
Definition dyadicVelocity : Vector3 := mkV (-1) 0 0.
Definition roundingPosition : Vector3 := mkV 1 5 9.
Definition roundingVelocity : Vector3 := mkV 0 0 (-1).

(** Where the first avatar is put, at rest. *)
Definition dyadicCorrected : Vector3 := mkV 10.5 0 0.
Definition atRest : Vector3 := mkV 0 0 0.

(** 0.5 less 2^-49, one unit in the last place of a distance of 10.5. *)
Definition belowThreshold : float := 0x1.fffffffffffe0p-2.

End Binary64.

(** * Properties *)

(** ** Boolean comparisons *)

Lemma Rltb_true (a b : R) : (a <? b) = true <-> a < b.
Proof. unfold Rltb; destruct (Rlt_dec a b); split; auto; discriminate. Qed.

Lemma Rltb_false (a b : R) : (a <? b) = false <-> b <= a.
Proof.
  unfold Rltb; destruct (Rlt_dec a b); split; intros H;
    solve [discriminate | lra | reflexivity].
Qed.

Lemma Rleb_true (a b : R) : (a <=? b) = true <-> a <= b.
Proof. unfold Rleb; destruct (Rle_dec a b); split; auto; discriminate. Qed.

Lemma Rleb_false (a b : R) : (a <=? b) = false <-> b < a.
Proof.
  unfold Rleb; destruct (Rle_dec a b); split; intros H;
    solve [discriminate | lra | reflexivity].
Qed.

Lemma Rgtb_true (a b : R) : (a >? b) = true <-> b < a.
Proof. unfold Rgtb; apply Rltb_true. Qed.

Lemma Rgtb_false (a b : R) : (a >? b) = false <-> a <= b.
Proof. unfold Rgtb; apply Rltb_false. Qed.

Lemma Reqb_true (a b : R) : Reqb a b = true <-> a = b.
Proof. unfold Reqb; destruct (Req_dec_T a b); split; auto; discriminate. Qed.

Lemma Reqb_false (a b : R) : Reqb a b = false <-> a <> b.
Proof.
  unfold Reqb; destruct (Req_dec_T a b); split; intros H;
    solve [discriminate | contradiction | reflexivity | assumption].
Qed.

Lemma orElse_nonzero (a b : R) : a <> 0 -> orElse a b = a.
Proof. intros H; unfold orElse; apply Reqb_false in H; now rewrite H. Qed.

Lemma orElse_zero (b : R) : orElse 0 b = b.
Proof. unfold orElse; now rewrite (proj2 (Reqb_true 0 0) eq_refl). Qed.

(** Turns every boolean comparison in sight into its proposition. *)
Ltac rcases :=
  repeat match goal with
    | |- context [?a <? ?b] =>
        let E := fresh "E" in
        destruct (a <? b) eqn:E;
        [apply Rltb_true in E | apply Rltb_false in E]
    | |- context [?a <=? ?b] =>
        let E := fresh "E" in
        destruct (a <=? b) eqn:E;
        [apply Rleb_true in E | apply Rleb_false in E]
    | |- context [?a >? ?b] =>
        let E := fresh "E" in
        destruct (a >? b) eqn:E;
        [apply Rgtb_true in E | apply Rgtb_false in E]
    end.

(** ** Vectors *)

Lemma vec_ext (a b : Vec) :
  Vector3.x a = Vector3.x b -> Vector3.y a = Vector3.y b ->
  Vector3.z a = Vector3.z b -> a = b.
Proof. destruct a, b; simpl; intros; subst; reflexivity. Qed.

Lemma lengthSq_nonneg (v : Vec) : 0 <= Vector3.lengthSq v.
Proof. unfold Vector3.lengthSq; nra. Qed.

Lemma length_nonneg (v : Vec) : 0 <= Vector3.length v.
Proof. apply sqrt_pos. Qed.

Lemma length_of_square (v : Vec) (l : R) :
  0 <= l -> Vector3.lengthSq v = l * l -> Vector3.length v = l.
Proof. intros Hl H; unfold Vector3.length; rewrite H; now apply sqrt_square. Qed.

Lemma length_multiplyScalar (v : Vec) (s : R) :
  Vector3.length (Vector3.multiplyScalar v s) = Rabs s * Vector3.length v.
Proof.
  rewrite Rmult_comm.
  apply length_of_square.
  - apply Rmult_le_pos; [apply length_nonneg | apply Rabs_pos].
  - assert (Hs : Rabs s * Rabs s = s * s).
    { rewrite <- Rabs_mult; apply Rabs_pos_eq; nra. }
    assert (Hv : Vector3.length v * Vector3.length v = Vector3.lengthSq v).
    { apply sqrt_sqrt, lengthSq_nonneg. }
    replace (Vector3.length v * Rabs s * (Vector3.length v * Rabs s))
      with ((Vector3.length v * Vector3.length v) * (Rabs s * Rabs s)) by ring.
    rewrite Hs, Hv; unfold Vector3.lengthSq, Vector3.multiplyScalar; simpl; ring.
Qed.

Lemma distanceTo_length (a b : Vec) :
  Vector3.distanceTo a b = Vector3.length (Vector3.sub a b).
Proof.
  unfold Vector3.distanceTo, Vector3.length; f_equal.
Qed.

Lemma distanceTo_sym (a b : Vec) : Vector3.distanceTo a b = Vector3.distanceTo b a.
Proof.
  unfold Vector3.distanceTo; f_equal; unfold Vector3.distanceToSquared; ring.
Qed.

Lemma normalize_scaled (v : Vec) :
  Vector3.length v <> 0 ->
  Vector3.normalize v = Vector3.multiplyScalar v (1 / Vector3.length v).
Proof.
  intros H; unfold Vector3.normalize, Vector3.divideScalar.
  now rewrite orElse_nonzero.
Qed.

Lemma length_normalize (v : Vec) :
  Vector3.length v <> 0 -> Vector3.length (Vector3.normalize v) = 1.
Proof.
  intros H; rewrite normalize_scaled by assumption.
  rewrite length_multiplyScalar.
  pose proof (length_nonneg v) as Hn.
  assert (Hp : 0 < Vector3.length v) by lra.
  rewrite Rabs_pos_eq.
  - field; assumption.
  - apply Rlt_le, Rdiv_lt_0_compat; lra.
Qed.

Lemma add_zero_l (v : Vec) : Vector3.add Vector3.zero v = v.
Proof. apply vec_ext; simpl; ring. Qed.

Lemma multiplyScalar_zero (v : Vec) : Vector3.multiplyScalar v 0 = Vector3.zero.
Proof. apply vec_ext; simpl; ring. Qed.

(** ** The environment without a nearest planet *)

Lemma nearestStep_lacksRadius (pos : Vec) (acc : Nearest) (m : Mesh.t) :
  lacksRadius m = true -> Physics.nearestStep pos acc m = Ok acc.
Proof.
  unfold lacksRadius, Physics.nearestStep, parametersRadius.
  destruct (Mesh.geometry m); intros H; try discriminate; reflexivity.
Qed.

Lemma forEachNearest_lacksRadius (pos : Vec) (planets : list Mesh.t) :
  forall acc, forallb lacksRadius planets = true ->
  Physics.forEachNearest pos acc planets = Ok acc.
Proof.
  induction planets as [|m rest IH]; intros acc H; simpl in *.
  - reflexivity.
  - apply andb_true_iff in H as [Hm Hrest].
    rewrite nearestStep_lacksRadius by assumption; simpl.
    now apply IH.
Qed.

(** C2, as the code has it: with an empty list, or a list in which no
    body has a radius, no nearest planet is found and
    [checkPlayerEnvironment] returns zone deep-space, inSpace = true,
    onGround = false and NO transitionFactor (the field stays
    undefined); the hysteresis state is not touched. *)
Theorem checkPlayerEnvironment_no_planet
    (ph : Physics.t) (pos : Vec) (planets : list Mesh.t) :
  forallb lacksRadius planets = true ->
  Physics.getNearestPlanet pos planets = Ok None
  /\ Physics.checkPlayerEnvironment ph pos planets = Ok (noPlanetEnvironment, ph)
  /\ atmosphereZone noPlanetEnvironment = DeepSpace
  /\ env_onGround noPlanetEnvironment = false
  /\ transitionFactor noPlanetEnvironment = None.
Proof.
  intros H.
  assert (Hn : Physics.getNearestPlanet pos planets = Ok None).
  { unfold Physics.getNearestPlanet; now apply forEachNearest_lacksRadius. }
  split; [assumption|].
  unfold Physics.checkPlayerEnvironment; rewrite Hn; simpl.
  repeat split; reflexivity.
Qed.

Lemma checkPlayerEnvironment_no_planet_witness :
  forallb lacksRadius [] = true
  /\ Physics.checkPlayerEnvironment Physics.constructor (Vector3.mk 0 0 0) []
     = Ok (noPlanetEnvironment, Physics.constructor).
Proof.
  split; [reflexivity|].
  apply (checkPlayerEnvironment_no_planet Physics.constructor (Vector3.mk 0 0 0) []).
  reflexivity.
Defined.

(** C2 as stated fails: on the empty list the returned transitionFactor
    is not 1. *)
Lemma checkPlayerEnvironment_empty_transitionFactor :
  exists env ph',
    Physics.checkPlayerEnvironment Physics.constructor (Vector3.mk 0 0 0) []
    = Ok (env, ph')
    /\ transitionFactor env <> Some 1.
Proof.
  exists noPlanetEnvironment, Physics.constructor.
  split; [reflexivity | discriminate].
Qed.

(** With a nearest planet farther than its outer-atmosphere threshold,
    the classification reports inSpace with a transitionFactor of 1. *)
Lemma checkPlayerEnvironment_beyond_outer
    (ph : Physics.t) (pos : Vec) (planets : list Mesh.t)
    (planet : Mesh.t) (d radius : R) :
  Physics.getNearestPlanet pos planets = Ok (Some (planet, d)) ->
  Mesh.geometry planet = SphereGeometry radius ->
  radius * Physics.outerAtmosphereRatio ph < d ->
  exists env ph',
    Physics.checkPlayerEnvironment ph pos planets = Ok (env, ph')
    /\ inSpace env = true
    /\ transitionFactor env = Some 1.
Proof.
  intros Hn G Hd; unfold Physics.checkPlayerEnvironment.
  rewrite Hn; cbn [bind]; unfold parametersRadius.
  rewrite G; cbn [bind option_map].
  match goal with
  | |- context [Physics.delayZoneSwitch ph ?p] =>
      destruct (Physics.delayZoneSwitch ph p) as [zone ph']
  end.
  do 2 eexists; split; [reflexivity|]; simpl.
  unfold Physics.gtThreshold, Physics.leThreshold.
  rewrite (proj2 (Rgtb_true d _) Hd), (proj2 (Rleb_false d _) Hd); simpl.
  split; reflexivity.
Qed.

(** ** Calls that return *)

Lemma hasRadius_parametersRadius (m : Mesh.t) :
  hasRadius m = true -> exists r, parametersRadius m = Ok (Some r).
Proof.
  unfold hasRadius, parametersRadius; destruct (Mesh.geometry m);
    intros H; try discriminate; eauto.
Qed.

Lemma hasParameters_parametersRadius (m : Mesh.t) :
  hasParameters m = true -> exists r, parametersRadius m = Ok r.
Proof.
  unfold hasParameters, parametersRadius; destruct (Mesh.geometry m);
    intros H; try discriminate; eauto.
Qed.

Lemma nearestStep_total (pos : Vec) (acc : Nearest) (m : Mesh.t) :
  hasParameters m = true -> nearestOk acc ->
  exists acc', Physics.nearestStep pos acc m = Ok acc'
               /\ nearestOk acc'
               /\ (acc <> None \/ hasRadius m = true -> acc' <> None).
Proof.
  intros Hm Hacc; unfold Physics.nearestStep, parametersRadius, hasRadius.
  unfold hasParameters in Hm.
  destruct (Mesh.geometry m) eqn:G; try discriminate; simpl.
  - exists acc; repeat split; auto.
    intros [H|H]; [assumption | discriminate].
  - assert (Hr : hasRadius m = true) by (unfold hasRadius; now rewrite G).
    destruct acc as [[best minDistance]|].
    + destruct (_ <? minDistance); eexists; repeat split;
        simpl; auto; discriminate.
    + eexists; repeat split; simpl; auto; discriminate.
Qed.

Lemma forEachNearest_total (pos : Vec) (planets : list Mesh.t) :
  forall acc, forallb hasParameters planets = true -> nearestOk acc ->
  exists n, Physics.forEachNearest pos acc planets = Ok n
            /\ nearestOk n
            /\ (acc <> None \/ existsb hasRadius planets = true -> n <> None).
Proof.
  induction planets as [|m rest IH]; intros acc H Hacc; simpl in *.
  - exists acc; repeat split; auto.
    intros [Hn|Hn]; [assumption | discriminate].
  - apply andb_true_iff in H as [Hm Hrest].
    destruct (nearestStep_total pos acc m Hm Hacc) as (acc' & E & Hok & Hne).
    rewrite E; simpl.
    destruct (IH acc' Hrest Hok) as (n & En & Hn & Hne').
    exists n; repeat split; auto.
    intros [Ha|Hex].
    + apply Hne'; left; apply Hne; now left.
    + apply orb_true_iff in Hex as [Hr|Hr].
      * apply Hne'; left; apply Hne; now right.
      * apply Hne'; now right.
Qed.

Lemma getNearestPlanet_total (pos : Vec) (planets : list Mesh.t) :
  forallb hasParameters planets = true ->
  exists n, Physics.getNearestPlanet pos planets = Ok n
            /\ nearestOk n
            /\ (existsb hasRadius planets = true -> n <> None).
Proof.
  intros H.
  destruct (forEachNearest_total pos planets None H I) as (n & E & Hn & Hne).
  exists n; repeat split; auto.
Qed.

Lemma calculateUpDirection_total (ph : Physics.t) (pos : Vec) (planets : list Mesh.t) :
  forallb hasParameters planets = true ->
  exists up, Physics.calculateUpDirection ph pos planets = Ok up.
Proof.
  intros H; unfold Physics.calculateUpDirection.
  destruct (getNearestPlanet_total pos planets H) as (n & E & _).
  rewrite E; simpl.
  destruct n as [[planet d]|]; [destruct (d >? _)|]; eauto.
Qed.

Lemma collisionLoop_total (planets : list Mesh.t) :
  forall pos vel, forallb hasParameters planets = true ->
  exists res pos' vel', Physics.collisionLoop pos vel planets = Ok (res, pos', vel').
Proof.
  induction planets as [|m rest IH]; intros pos vel H; simpl in *.
  - eauto.
  - apply andb_true_iff in H as [Hm Hrest].
    destruct (hasParameters_parametersRadius m Hm) as (r & E).
    rewrite E; simpl.
    destruct r as [r|]; [destruct (_ <? Physics.groundCollisionRadius)|]; eauto.
Qed.

(** ** The zone switch delay *)

Lemma Zone_eqb_spec (a b : Zone) : reflect (a = b) (Zone_eqb a b).
Proof. destruct a, b; simpl; constructor; congruence. Qed.

Lemma delayZoneSwitch_same (ph : Physics.t) (z : Zone) :
  Physics.lastZone ph = Some z ->
  Physics.delayZoneSwitch ph z = (z, Physics.setZone ph (Some z) 0%nat).
Proof.
  intros H; unfold Physics.delayZoneSwitch; rewrite H.
  destruct (Zone_eqb_spec z z); [reflexivity | congruence].
Qed.

Lemma delayZoneSwitch_hold (ph : Physics.t) (z p : Zone) :
  Physics.lastZone ph = Some z -> p <> z ->
  (S (Physics.zoneSwitchDelay ph) < 3)%nat ->
  Physics.delayZoneSwitch ph p
  = (z, Physics.setZone ph (Some z) (S (Physics.zoneSwitchDelay ph))).
Proof.
  intros H Hp Hd; unfold Physics.delayZoneSwitch; rewrite H.
  destruct (Zone_eqb_spec z p); [congruence|]; simpl.
  apply Nat.ltb_lt in Hd; now rewrite Hd.
Qed.

Lemma delayZoneSwitch_accept (ph : Physics.t) (z p : Zone) :
  Physics.lastZone ph = Some z -> p <> z ->
  (3 <= S (Physics.zoneSwitchDelay ph))%nat ->
  Physics.delayZoneSwitch ph p = (p, Physics.setZone ph (Some p) 0%nat).
Proof.
  intros H Hp Hd; unfold Physics.delayZoneSwitch; rewrite H.
  destruct (Zone_eqb_spec z p); [congruence|]; simpl.
  apply Nat.ltb_ge in Hd; now rewrite Hd.
Qed.

(** With a populated list the classification runs lines 58-135: the
    reported zone and the new instance are those of the delay applied
    to a proposed zone. *)
Lemma checkPlayerEnvironment_populated
    (ph : Physics.t) (pos : Vec) (planets : list Mesh.t) :
  populated planets = true ->
  exists proposed env,
    Physics.checkPlayerEnvironment ph pos planets
    = Ok (env, snd (Physics.delayZoneSwitch ph proposed))
    /\ atmosphereZone env = fst (Physics.delayZoneSwitch ph proposed)
    /\ nearestOk (nearest env) /\ nearest env <> None.
Proof.
  intros H; apply andb_true_iff in H as [Hall Hex].
  destruct (getNearestPlanet_total pos planets Hall) as (n & E & Hok & Hne).
  specialize (Hne Hex).
  unfold Physics.checkPlayerEnvironment; rewrite E; simpl.
  destruct n as [[planet d]|]; [|congruence].
  destruct (hasRadius_parametersRadius planet Hok) as (r & Er).
  rewrite Er; simpl.
  match goal with
  | |- context [Physics.delayZoneSwitch ph ?p] =>
      exists p; destruct (Physics.delayZoneSwitch ph p) as [zone ph'] eqn:D
  end.
  eexists; simpl; repeat split; auto; discriminate.
Qed.

Lemma delayZoneSwitch_cases (ph : Physics.t) (z p : Zone) :
  Physics.lastZone ph = Some z ->
  (p = z
   /\ Physics.delayZoneSwitch ph p = (z, Physics.setZone ph (Some z) 0%nat))
  \/ (p <> z /\ (S (Physics.zoneSwitchDelay ph) < 3)%nat
      /\ Physics.delayZoneSwitch ph p
         = (z, Physics.setZone ph (Some z) (S (Physics.zoneSwitchDelay ph))))
  \/ (p <> z /\ (3 <= S (Physics.zoneSwitchDelay ph))%nat
      /\ Physics.delayZoneSwitch ph p
         = (p, Physics.setZone ph (Some p) 0%nat)).
Proof.
  intros H.
  destruct (Zone_eqb_spec p z) as [->|Hp].
  - left; split; [reflexivity | now apply delayZoneSwitch_same].
  - destruct (Nat.lt_ge_cases (S (Physics.zoneSwitchDelay ph)) 3) as [Hd|Hd].
    + right; left; repeat split; auto; now apply delayZoneSwitch_hold.
    + right; right; repeat split; auto; now apply (delayZoneSwitch_accept ph z p).
Qed.

(** Two ticks after the counter was reset report the stored zone; the
    counter stands at 2 exactly when both proposals departed from it. *)
Lemma delayZoneSwitch_two_ticks (ph : Physics.t) (z p q : Zone) :
  Physics.lastZone ph = Some z -> Physics.zoneSwitchDelay ph = 0%nat ->
  let ph1 := snd (Physics.delayZoneSwitch ph p) in
  let ph2 := snd (Physics.delayZoneSwitch ph1 q) in
  fst (Physics.delayZoneSwitch ph p) = z
  /\ fst (Physics.delayZoneSwitch ph1 q) = z
  /\ Physics.lastZone ph2 = Some z
  /\ (Physics.zoneSwitchDelay ph2 <= 2)%nat
  /\ (Physics.zoneSwitchDelay ph2 = 2%nat <-> p <> z /\ q <> z).
Proof.
  intros Hz Hd; cbv zeta.
  destruct (delayZoneSwitch_cases ph z p Hz)
    as [(-> & E1)|[(Hp & Hlt & E1)|(Hp & Hge & E1)]];
    rewrite E1; simpl; [| |lia].
  - destruct (delayZoneSwitch_cases (Physics.setZone ph (Some z) 0) z q eq_refl)
      as [(-> & E2)|[(Hq & Hlt2 & E2)|(Hq & Hge2 & E2)]];
      rewrite E2; simpl in *; try lia; repeat split; auto; try lia;
      intros; try lia; try tauto.
  - rewrite Hd.
    destruct (delayZoneSwitch_cases (Physics.setZone ph (Some z) 1) z q eq_refl)
      as [(-> & E2)|[(Hq & Hlt2 & E2)|(Hq & Hge2 & E2)]];
      rewrite E2; simpl in *; try lia; repeat split; auto; try lia;
      intros; try lia; try tauto.
Qed.

Lemma setZone_eta (ph : Physics.t) :
  Physics.setZone ph (Physics.lastZone ph) (Physics.zoneSwitchDelay ph) = ph.
Proof. destruct ph; reflexivity. Qed.

(** A call writes two fields of the instance only: the stored zone and
    the delay counter. *)
Lemma checkPlayerEnvironment_instance
    (ph : Physics.t) (pos : Vec) (planets : list Mesh.t)
    (env : EnvironmentResult) (ph' : Physics.t) :
  Physics.checkPlayerEnvironment ph pos planets = Ok (env, ph') ->
  exists z k, ph' = Physics.setZone ph z k.
Proof.
  unfold Physics.checkPlayerEnvironment; intros E.
  destruct (Physics.getNearestPlanet _ _) as [[[planet d]|]|e];
    cbn [bind] in E; try discriminate.
  - destruct (parametersRadius planet) as [radius|e]; cbn [bind] in E;
      [|discriminate].
    match type of E with
    | context [Physics.delayZoneSwitch ph ?p] =>
        destruct (Physics.delayZoneSwitch ph p) as [zone ph2] eqn:Ed
    end.
    injection E as _ <-.
    unfold Physics.delayZoneSwitch in Ed.
    destruct (Physics.lastZone ph) as [last|];
      [destruct (negb _); [destruct (_ <? _)%nat|]|];
      injection Ed as _ <-; eauto.
  - injection E as _ <-.
    do 2 eexists; symmetry; apply setZone_eta.
Qed.

(** One call, with the nearest planet known. *)
Lemma checkPlayerEnvironment_proposal
    (ph : Physics.t) (pos : Vec) (planets : list Mesh.t)
    (planet : Mesh.t) (d r : R) :
  Physics.getNearestPlanet pos planets = Ok (Some (planet, d)) ->
  Mesh.geometry planet = SphereGeometry r ->
  exists env,
    Physics.checkPlayerEnvironment ph pos planets
    = Ok (env, snd (Physics.delayZoneSwitch ph (proposalAt ph d r)))
    /\ atmosphereZone env = fst (Physics.delayZoneSwitch ph (proposalAt ph d r)).
Proof.
  intros Hn G; unfold Physics.checkPlayerEnvironment.
  rewrite Hn; cbn [bind]; unfold parametersRadius.
  rewrite G; cbn [bind option_map].
  fold (proposalAt ph d r).
  destruct (Physics.delayZoneSwitch ph (proposalAt ph d r)) as [zone ph'].
  eexists; split; reflexivity.
Qed.

(** Far out -- beyond the outer atmosphere threshold and beyond the
    ground threshold with its hysteresis -- the code proposes deep
    space, whatever zone is stored. *)
Lemma proposalAt_deep_space (ph : Physics.t) (d r : R) :
  0 <= r ->
  0 <= Physics.atmosphereRatio ph <= Physics.outerAtmosphereRatio ph ->
  0 <= Physics.zoneHysteresis ph ->
  r * Physics.outerAtmosphereRatio ph < d ->
  Physics.groundThreshold + Physics.zoneHysteresis ph <= d ->
  proposalAt ph d r = DeepSpace.
Proof.
  intros Hr Hratio Hh Hout Hg.
  assert (Hatm : r * Physics.atmosphereRatio ph
                 <= r * Physics.outerAtmosphereRatio ph)
    by (apply Rmult_le_compat_l; lra).
  assert (Hlow : r * Physics.atmosphereRatio ph * (3 / 10)
                 <= r * Physics.atmosphereRatio ph).
  { assert (0 <= r * Physics.atmosphereRatio ph)
      by (apply Rmult_le_pos; lra).
    lra. }
  unfold proposalAt, Physics.proposedZone, Physics.ltScaled,
    Physics.leThreshold, Physics.gtThreshold.
  rewrite (proj2 (Rltb_false d (Physics.groundThreshold
                                + Physics.zoneHysteresis ph))) by lra.
  rewrite (proj2 (Rltb_false d Physics.groundThreshold)) by lra.
  rewrite (proj2 (Rltb_false d (r * Physics.atmosphereRatio ph * (3 / 10))))
    by lra.
  rewrite (proj2 (Rleb_false d (r * Physics.atmosphereRatio ph))) by lra.
  rewrite (proj2 (Rleb_false d (r * Physics.outerAtmosphereRatio ph))) by lra.
  destruct (Physics.isSurface (Physics.lastZone ph)); reflexivity.
Qed.

(** C5.  Three consecutive calls on one instance whose stored zone is
    [z], each with a nearest planet.  The zone the code proposes at a
    call is [proposalAt] of the instance as the call finds it, the
    distance to the surface of the nearest planet and its radius; call
    the three proposals [p1], [p2], [p3].  Then:
    - a proposal equal to [z] is reported and resets the counter;
    - a proposal that departs from [z] is held back while the counter,
      incremented, is below 3: [z] is reported and stays stored, and the
      counter has gone up by one;
    - when the incremented counter reaches 3 the proposal is reported
      and stored, and the counter is reset;
    - so with the counter at 0 the first two calls report [z], and the
      third reports its own proposal if all three proposals departed
      from [z], and [z] otherwise;
    - once a call reports a zone other than [z], the next two calls
      report that same zone: at most one change in 3 consecutive ticks. *)
Theorem zone_switch_delay
    (ph : Physics.t) (z : Zone) (pos1 pos2 pos3 : Vec)
    (planets1 planets2 planets3 : list Mesh.t)
    (planet1 planet2 planet3 : Mesh.t) (d1 d2 d3 r1 r2 r3 : R) :
  Physics.getNearestPlanet pos1 planets1 = Ok (Some (planet1, d1)) ->
  Physics.getNearestPlanet pos2 planets2 = Ok (Some (planet2, d2)) ->
  Physics.getNearestPlanet pos3 planets3 = Ok (Some (planet3, d3)) ->
  Mesh.geometry planet1 = SphereGeometry r1 ->
  Mesh.geometry planet2 = SphereGeometry r2 ->
  Mesh.geometry planet3 = SphereGeometry r3 ->
  Physics.lastZone ph = Some z ->
  exists env1 ph1 env2 ph2 env3 ph3,
    Physics.checkPlayerEnvironment ph pos1 planets1 = Ok (env1, ph1)
    /\ Physics.checkPlayerEnvironment ph1 pos2 planets2 = Ok (env2, ph2)
    /\ Physics.checkPlayerEnvironment ph2 pos3 planets3 = Ok (env3, ph3)
    /\ (proposalAt ph d1 r1 = z ->
        atmosphereZone env1 = z /\ Physics.lastZone ph1 = Some z
        /\ Physics.zoneSwitchDelay ph1 = 0%nat)
    /\ (proposalAt ph d1 r1 <> z ->
        (S (Physics.zoneSwitchDelay ph) < 3)%nat ->
        atmosphereZone env1 = z /\ Physics.lastZone ph1 = Some z
        /\ Physics.zoneSwitchDelay ph1 = S (Physics.zoneSwitchDelay ph))
    /\ (proposalAt ph d1 r1 <> z ->
        (3 <= S (Physics.zoneSwitchDelay ph))%nat ->
        atmosphereZone env1 = proposalAt ph d1 r1
        /\ Physics.lastZone ph1 = Some (proposalAt ph d1 r1)
        /\ Physics.zoneSwitchDelay ph1 = 0%nat)
    /\ (Physics.zoneSwitchDelay ph = 0%nat ->
        atmosphereZone env1 = z /\ atmosphereZone env2 = z
        /\ Physics.lastZone ph2 = Some z
        /\ (proposalAt ph d1 r1 <> z -> proposalAt ph1 d2 r2 <> z ->
            proposalAt ph2 d3 r3 <> z ->
            Physics.zoneSwitchDelay ph1 = 1%nat
            /\ Physics.zoneSwitchDelay ph2 = 2%nat
            /\ atmosphereZone env3 = proposalAt ph2 d3 r3
            /\ Physics.lastZone ph3 = Some (proposalAt ph2 d3 r3)
            /\ Physics.zoneSwitchDelay ph3 = 0%nat)
        /\ (proposalAt ph d1 r1 = z \/ proposalAt ph1 d2 r2 = z
            \/ proposalAt ph2 d3 r3 = z ->
            atmosphereZone env3 = z /\ Physics.lastZone ph3 = Some z))
    /\ (atmosphereZone env1 <> z ->
        atmosphereZone env2 = atmosphereZone env1
        /\ atmosphereZone env3 = atmosphereZone env1).
Proof.
  intros N1 N2 N3 G1 G2 G3 Hz.
  destruct (checkPlayerEnvironment_proposal ph pos1 planets1 planet1 d1 r1
              N1 G1) as (env1 & E1 & Z1).
  set (p1 := proposalAt ph d1 r1) in *.
  set (ph1 := snd (Physics.delayZoneSwitch ph p1)) in *.
  destruct (checkPlayerEnvironment_proposal ph1 pos2 planets2 planet2 d2 r2
              N2 G2) as (env2 & E2 & Z2).
  set (p2 := proposalAt ph1 d2 r2) in *.
  set (ph2 := snd (Physics.delayZoneSwitch ph1 p2)) in *.
  destruct (checkPlayerEnvironment_proposal ph2 pos3 planets3 planet3 d3 r3
              N3 G3) as (env3 & E3 & Z3).
  set (p3 := proposalAt ph2 d3 r3) in *.
  set (ph3 := snd (Physics.delayZoneSwitch ph2 p3)) in *.
  exists env1, ph1, env2, ph2, env3, ph3.
  split; [exact E1|]. split; [exact E2|]. split; [exact E3|].
  rewrite Z1, Z2, Z3.
  clear E1 E2 E3 Z1 Z2 Z3.
  split; [|split; [|split; [|split]]].
  - intros Hp; subst ph1; rewrite Hp.
    rewrite (delayZoneSwitch_same ph z Hz); simpl; auto.
  - intros Hp Hd; subst ph1.
    rewrite (delayZoneSwitch_hold ph z p1 Hz Hp Hd); simpl; auto.
  - intros Hp Hd; subst ph1.
    rewrite (delayZoneSwitch_accept ph z p1 Hz Hp Hd); simpl; auto.
  - intros Hd.
    destruct (delayZoneSwitch_two_ticks ph z p1 p2 Hz Hd)
      as (T1 & T2 & L2 & D2 & D2').
    fold ph1 in T2, L2, D2, D2'; fold ph2 in L2, D2, D2'.
    split; [exact T1|]. split; [exact T2|]. split; [exact L2|]. split.
    + intros Hp1 Hp2 Hp3.
      assert (Hd2 : Physics.zoneSwitchDelay ph2 = 2%nat) by tauto.
      assert (Hd1 : Physics.zoneSwitchDelay ph1 = 1%nat).
      { subst ph1.
        rewrite (delayZoneSwitch_hold ph z p1 Hz Hp1) by lia.
        simpl; lia. }
      subst ph3.
      rewrite (delayZoneSwitch_accept ph2 z p3 L2 Hp3) by lia; simpl; auto.
    + intros Hsome.
      assert (Hd2 : Physics.zoneSwitchDelay ph2 <> 2%nat \/ p3 = z).
      { destruct (Zone_eqb_spec p3 z) as [->|Hp3]; [now right|].
        left; intros Hd2; apply D2' in Hd2; tauto. }
      subst ph3.
      destruct (delayZoneSwitch_cases ph2 z p3 L2)
        as [(Hp & E)|[(Hp & Hlt & E)|(Hp & Hge & E)]];
        rewrite E; simpl; auto.
      destruct Hd2 as [Hd2|Hd2]; [lia | contradiction].
  - intros Hne.
    destruct (delayZoneSwitch_cases ph z p1 Hz)
      as [(Hp & E)|[(Hp & Hlt & E)|(Hp & Hge & E)]];
      rewrite E in Hne; simpl in Hne; try congruence.
    assert (L1 : Physics.lastZone ph1 = Some p1)
      by (subst ph1; rewrite E; reflexivity).
    assert (D1 : Physics.zoneSwitchDelay ph1 = 0%nat)
      by (subst ph1; rewrite E; reflexivity).
    destruct (delayZoneSwitch_two_ticks ph1 p1 p2 p3 L1 D1) as (T2 & T3 & _).
    fold ph2 in T3.
    rewrite E; simpl; split; assumption.
Qed.

(** ** The collision threshold *)

Lemma collisionLoop_sphere (pos vel : Vec) (planet : Mesh.t) (radius : R)
    (rest : list Mesh.t) :
  Mesh.geometry planet = SphereGeometry radius ->
  Physics.collisionLoop pos vel (planet :: rest)
  = if Vector3.distanceTo pos (Mesh.position planet) - radius <? 5 / 10
    then Ok (collisionHit pos vel planet radius)
    else Physics.collisionLoop pos vel rest.
Proof.
  intros G; simpl; unfold parametersRadius; rewrite G; simpl.
  unfold Physics.groundCollisionRadius, collisionHit.
  destruct (_ <? 5 / 10); reflexivity.
Qed.

Lemma checkPlayerEnvironment_collisionRadius
    (ph : Physics.t) (r : R) (pos : Vec) (planets : list Mesh.t) :
  Physics.checkPlayerEnvironment (Physics.setCollisionRadius ph r) pos planets
  = match Physics.checkPlayerEnvironment ph pos planets with
    | Ok (env, ph') => Ok (env, Physics.setCollisionRadius ph' r)
    | Throw e => Throw e
    end.
Proof.
  unfold Physics.checkPlayerEnvironment.
  destruct (Physics.getNearestPlanet pos planets) as [[[planet d]|]|e]; simpl;
    try reflexivity.
  destruct (parametersRadius planet) as [radius|e]; simpl; try reflexivity.
  unfold Physics.proposedZone, Physics.delayZoneSwitch; simpl.
  destruct (Physics.lastZone ph) as [last|]; simpl; try reflexivity.
  match goal with |- context [Zone_eqb last ?p] => destruct (Zone_eqb last p) end;
    simpl; try reflexivity.
  destruct (_ <? 3)%nat; reflexivity.
Qed.

Lemma updatePlayerPhysics_collisionRadius
    (ph : Physics.t) (r : R) (player : Player) (controls : ControlsState)
    (deltaTime : R) (planets : list Mesh.t) (sun : option Mesh.t)
    (camera : Camera) (gameState : GameState) :
  Physics.updatePlayerPhysics (Physics.setCollisionRadius ph r) player controls
                              deltaTime planets sun camera gameState
  = withCollisionRadius r
      (Physics.updatePlayerPhysics ph player controls deltaTime planets sun
                                   camera gameState).
Proof.
  unfold Physics.updatePlayerPhysics.
  destruct (noclip gameState); [reflexivity|].
  change (Physics.calculateUpDirection (Physics.setCollisionRadius ph r))
    with (Physics.calculateUpDirection ph).
  destruct (Physics.calculateUpDirection ph _ planets) as [up|e];
    [|reflexivity].
  cbn [bind].
  rewrite checkPlayerEnvironment_collisionRadius.
  destruct (Physics.checkPlayerEnvironment ph _ planets) as [[env ph']|e];
    [|reflexivity].
  cbn [bind].
  change (Physics.zoneDrag (Physics.setCollisionRadius ph r))
    with (Physics.zoneDrag ph).
  destruct (Physics.zoneDrag ph env) as [drag|e]; [|reflexivity].
  cbn [bind].
  change (Physics.zoneGravity (Physics.setCollisionRadius ph r))
    with (Physics.zoneGravity ph).
  change (Physics.applyJetpack (Physics.setCollisionRadius ph r))
    with (Physics.applyJetpack ph).
  change (Physics.moveSpeed (Physics.setCollisionRadius ph r))
    with (Physics.moveSpeed ph).
  destruct (Physics.applyJetpack ph env controls camera planets deltaTime _ _ _)
    as [[v1 f1]|e]; [|reflexivity].
  cbn [bind].
  change (Physics.applyDownThrusters (Physics.setCollisionRadius ph r))
    with (Physics.applyDownThrusters ph).
  destruct (Physics.applyDownThrusters ph env controls camera planets deltaTime
                                       _ _ _)
    as [[v2 f2]|e]; [|reflexivity].
  cbn [bind].
  unfold Physics.handlePlanetCollisions.
  destruct (Physics.collisionLoop _ v2 planets) as [[[col pos'] vel']|e];
    reflexivity.
Qed.

(** C10.  [handlePlanetCollisions] does not depend on its
    [collisionRadius] argument: two runs that differ only in it return
    the same result, position and velocity.  The threshold in use is the
    constant 0.5: a sphere at the head of the list is hit exactly when
    the distance to its surface is below 5/10.  A tick of
    [updatePlayerPhysics] is likewise unaffected by the instance's
    [collisionRadius] field (2 after construction), which it passes. *)
Theorem handlePlanetCollisions_ignores_collisionRadius
    (pos vel : Vec) (planets : list Mesh.t) (r1 r2 : R)
    (center : Vec) (radius : R) (rest : list Mesh.t)
    (ph : Physics.t) (player : Player) (controls : ControlsState)
    (deltaTime : R) (sun : option Mesh.t) (camera : Camera)
    (gameState : GameState) :
  Physics.handlePlanetCollisions pos vel planets r1
  = Physics.handlePlanetCollisions pos vel planets r2
  /\ Physics.handlePlanetCollisions pos vel (sphere center radius :: rest) r1
     = (if Vector3.distanceTo pos center - radius <? 5 / 10
        then Ok (collisionHit pos vel (sphere center radius) radius)
        else Physics.handlePlanetCollisions pos vel rest r1)
  /\ Physics.updatePlayerPhysics (Physics.setCollisionRadius ph r1) player
       controls deltaTime planets sun camera gameState
     = withCollisionRadius r1
         (Physics.updatePlayerPhysics ph player controls deltaTime planets sun
                                      camera gameState).
Proof.
  split; [reflexivity|]. split.
  - unfold Physics.handlePlanetCollisions.
    now rewrite (collisionLoop_sphere pos vel (sphere center radius) radius rest).
  - apply updatePlayerPhysics_collisionRadius.
Qed.

(** ** Bodies without a radius *)

Lemma forEachNearest_app (pos : Vec) (l1 l2 : list Mesh.t) :
  forall acc,
    Physics.forEachNearest pos acc (l1 ++ l2)
    = bind (Physics.forEachNearest pos acc l1)
           (fun acc' => Physics.forEachNearest pos acc' l2).
Proof.
  induction l1 as [|m l1 IH]; intros acc; simpl; [reflexivity|].
  destruct (Physics.nearestStep pos acc m) as [acc'|e]; simpl; auto.
Qed.

(** A body whose geometry has [parameters] but no [radius] drops out of
    every scan: its surface distance is NaN and no comparison holds. *)
Lemma radiusless_body_skipped
    (ph : Physics.t) (pos vel : Vec) (mass r : R) (l1 l2 : list Mesh.t)
    (body : Mesh.t) :
  lacksRadius body = true ->
  Physics.getNearestPlanet pos (l1 ++ body :: l2)
  = Physics.getNearestPlanet pos (l1 ++ l2)
  /\ Physics.checkPlayerEnvironment ph pos (l1 ++ body :: l2)
     = Physics.checkPlayerEnvironment ph pos (l1 ++ l2)
  /\ Physics.getGravityForce ph pos (l1 ++ body :: l2) mass
     = Physics.getGravityForce ph pos (l1 ++ l2) mass
  /\ Physics.handlePlanetCollisions pos vel (l1 ++ body :: l2) r
     = Physics.handlePlanetCollisions pos vel (l1 ++ l2) r.
Proof.
  intros H.
  assert (N : Physics.getNearestPlanet pos (l1 ++ body :: l2)
              = Physics.getNearestPlanet pos (l1 ++ l2)).
  { unfold Physics.getNearestPlanet; rewrite !forEachNearest_app.
    destruct (Physics.forEachNearest pos None l1) as [acc|e]; simpl; auto.
    now rewrite nearestStep_lacksRadius. }
  split; [exact N|]. split; [|split].
  - unfold Physics.checkPlayerEnvironment; now rewrite N.
  - unfold Physics.getGravityForce; rewrite !fold_left_app; simpl.
    f_equal; unfold Physics.gravityStep, Physics.bodyGravity, optionalRadius.
    unfold lacksRadius in H.
    destruct (Mesh.geometry body); try discriminate; reflexivity.
  - clear N; unfold Physics.handlePlanetCollisions.
    induction l1 as [|m l1 IH]; simpl.
    + unfold parametersRadius; unfold lacksRadius in H.
      destruct (Mesh.geometry body); try discriminate; reflexivity.
    + destruct (parametersRadius m) as [[radius|]|e]; simpl; auto.
      destruct (_ <? Physics.groundCollisionRadius); auto.
Qed.

(** C9 at a mesh whose geometry has no [parameters]: gravity skips it,
    as if the list were empty, but the nearest-planet search, the
    classification and the collision scan end in a TypeError. *)
Theorem bare_geometry_throws (ph : Physics.t) (pos vel : Vec) (r : R) :
  Physics.getGravityForce ph pos [bareMesh] 1 = Physics.getGravityForce ph pos [] 1
  /\ Physics.getNearestPlanet pos [] = Ok None
  /\ Physics.getNearestPlanet pos [bareMesh] = Throw TypeError
  /\ Physics.checkPlayerEnvironment ph pos [bareMesh] = Throw TypeError
  /\ Physics.handlePlanetCollisions pos vel [bareMesh] r = Throw TypeError.
Proof. repeat split; reflexivity. Qed.

(** ** Gravity *)

Lemma length_zero : Vector3.length Vector3.zero = 0.
Proof. apply length_of_square; [lra | unfold Vector3.lengthSq; simpl; ring]. Qed.

Lemma length_toward (pos center : Vec) :
  Vector3.length (Vector3.subVectors center pos) = Vector3.distanceTo pos center.
Proof.
  rewrite distanceTo_sym, distanceTo_length; reflexivity.
Qed.

(** The shape of a contribution: a factor between 0 and 20 along the
    unit vector toward the body. *)
Lemma bodyGravity_shape (ph : Physics.t) (pos : Vec) (mass : R) (body : Mesh.t)
    (c : Vec) :
  0 <= Physics.gravitationalConstant ph -> 0 <= mass ->
  (forall r, Mesh.geometry body = SphereGeometry r -> 0 <= r) ->
  Physics.bodyGravity ph pos mass body = Some c ->
  exists k,
    0 <= k <= 20
    /\ 1 / 10 < Vector3.distanceTo pos (Mesh.position body)
    /\ c = Vector3.multiplyScalar
             (Vector3.normalize (Vector3.subVectors (Mesh.position body) pos)) k.
Proof.
  intros HG Hm Hr; unfold Physics.bodyGravity, optionalRadius.
  destruct (Mesh.geometry body) as [| |radius] eqn:G; try discriminate.
  specialize (Hr radius eq_refl).
  destruct (Reqb radius 0); [discriminate|].
  destruct (_ <=? 1 / 10) eqn:E; [discriminate|].
  apply Rleb_false in E.
  intros [= <-].
  eexists; split; [|split; [exact E | reflexivity]].
  set (d := Vector3.distanceTo pos (Mesh.position body)) in *.
  set (bodyMass := if Mesh.isSun body then 50 else radius).
  assert (Hb : 0 <= bodyMass) by (unfold bodyMass; destruct (Mesh.isSun body); lra).
  set (cl := Rmax d (radius * (5 / 10))).
  assert (Hcl : 0 < cl * cl).
  { assert (d <= cl) by apply Rmax_l. nra. }
  assert (Hf : 0 <= Physics.gravitationalConstant ph * (bodyMass * mass) / (cl * cl)).
  { apply Rmult_le_pos.
    - apply Rmult_le_pos; [assumption | apply Rmult_le_pos; assumption].
    - apply Rlt_le, Rinv_0_lt_compat; assumption. }
  split.
  - apply Rmin_glb; lra.
  - apply Rmin_r.
Qed.

Lemma bodyGravity_length (ph : Physics.t) (pos : Vec) (mass : R) (body : Mesh.t)
    (c : Vec) :
  0 <= Physics.gravitationalConstant ph -> 0 <= mass ->
  (forall r, Mesh.geometry body = SphereGeometry r -> 0 <= r) ->
  Physics.bodyGravity ph pos mass body = Some c ->
  Vector3.length c <= 20.
Proof.
  intros HG Hm Hr Hc.
  destruct (bodyGravity_shape ph pos mass body c HG Hm Hr Hc) as (k & Hk & Hd & ->).
  rewrite length_multiplyScalar, length_normalize.
  - rewrite Rabs_pos_eq; lra.
  - rewrite length_toward; lra.
Qed.

(** C3.  With a nonnegative gravitational constant (100 after
    construction), a nonnegative [mass] (1 by default) and a body whose
    radius, if it has one, is nonnegative: whatever the position, the
    vector that the body adds to the gravity sum has length at most 20,
    and so has the gravity of the one-element list. *)
Theorem gravity_contribution_capped
    (ph : Physics.t) (pos : Vec) (mass : R) (body : Mesh.t) :
  0 <= Physics.gravitationalConstant ph -> 0 <= mass ->
  (forall r, Mesh.geometry body = SphereGeometry r -> 0 <= r) ->
  (forall c, Physics.bodyGravity ph pos mass body = Some c ->
             Vector3.length c <= 20)
  /\ Vector3.length (Physics.getGravityForce ph pos [body] mass) <= 20.
Proof.
  intros HG Hm Hr; split.
  - intros c; now apply bodyGravity_length.
  - unfold Physics.getGravityForce; simpl; unfold Physics.gravityStep.
    destruct (Physics.bodyGravity ph pos mass body) as [c|] eqn:E.
    + rewrite add_zero_l; now apply (bodyGravity_length ph pos mass body).
    + rewrite length_zero; lra.
Qed.

Lemma gravity_contribution_capped_witness :
  0 <= Physics.gravitationalConstant Physics.constructor
  /\ 0 <= 1
  /\ Vector3.length
       (Physics.getGravityForce Physics.constructor (Vector3.mk 20 0 0)
                                [sphere (Vector3.mk 0 0 0) 10] 1) <= 20.
Proof.
  split; [simpl; lra|]. split; [lra|].
  apply (gravity_contribution_capped Physics.constructor (Vector3.mk 20 0 0) 1
                                     (sphere (Vector3.mk 0 0 0) 10)).
  - simpl; lra.
  - lra.
  - intros r [= <-]; lra.
Defined.

(** C4.  One body with a positive radius, position farther from its
    centre than half the radius (constants as in C3): the gravity
    returned is a nonnegative multiple of the unit vector from the
    position to the centre. *)
Theorem gravity_points_to_center
    (ph : Physics.t) (pos : Vec) (mass : R) (body : Mesh.t) (radius : R) :
  Mesh.geometry body = SphereGeometry radius -> 0 < radius ->
  0 <= Physics.gravitationalConstant ph -> 0 <= mass ->
  radius * (5 / 10) < Vector3.distanceTo pos (Mesh.position body) ->
  let toward := Vector3.normalize (Vector3.subVectors (Mesh.position body) pos) in
  Vector3.length toward = 1
  /\ exists k, 0 <= k
               /\ Physics.getGravityForce ph pos [body] mass
                  = Vector3.multiplyScalar toward k.
Proof.
  intros G Hr HG Hm Hd toward; split.
  - apply length_normalize; rewrite length_toward; lra.
  - unfold Physics.getGravityForce; simpl; unfold Physics.gravityStep.
    destruct (Physics.bodyGravity ph pos mass body) as [c|] eqn:E.
    + destruct (bodyGravity_shape ph pos mass body c HG Hm) as (k & Hk & _ & ->);
        auto.
      * intros r Gr; rewrite G in Gr; injection Gr as <-; lra.
      * exists k; split; [lra | apply add_zero_l].
    + exists 0; split; [lra | now rewrite multiplyScalar_zero].
Qed.

Lemma gravity_points_to_center_witness :
  10 * (5 / 10)
  < Vector3.distanceTo (Vector3.mk 20 0 0)
                       (Mesh.position (sphere (Vector3.mk 0 0 0) 10))
  /\ exists k, 0 <= k
       /\ Physics.getGravityForce Physics.constructor (Vector3.mk 20 0 0)
                                  [sphere (Vector3.mk 0 0 0) 10] 1
          = Vector3.multiplyScalar
              (Vector3.normalize
                 (Vector3.subVectors (Vector3.mk 0 0 0) (Vector3.mk 20 0 0))) k.
Proof.
  assert (D : Vector3.distanceTo (Vector3.mk 20 0 0) (Vector3.mk 0 0 0) = 20).
  { rewrite distanceTo_length; apply length_of_square; [lra|].
    unfold Vector3.lengthSq; simpl; ring. }
  split; [simpl; rewrite D; lra|].
  apply (gravity_points_to_center Physics.constructor (Vector3.mk 20 0 0) 1
                                  (sphere (Vector3.mk 0 0 0) 10) 10).
  - reflexivity.
  - lra.
  - simpl; lra.
  - lra.
  - simpl; rewrite D; lra.
Defined.

(** ** Collision resolution *)

Lemma sum_squares_nonneg (a b c : R) : 0 <= a * a + b * b + c * c.
Proof. nra. Qed.

Lemma sum_squares_zero (a b c : R) :
  a * a + b * b + c * c = 0 -> a = 0 /\ b = 0 /\ c = 0.
Proof. intros H; repeat split; nra. Qed.

Lemma distanceTo_zero (a b : Vec) : Vector3.distanceTo a b = 0 -> a = b.
Proof.
  unfold Vector3.distanceTo; intros H.
  assert (Hs : Vector3.distanceToSquared a b = 0).
  { apply sqrt_eq_0; [|assumption].
    unfold Vector3.distanceToSquared; cbv zeta; apply sum_squares_nonneg. }
  unfold Vector3.distanceToSquared in Hs; cbv zeta in Hs.
  apply sum_squares_zero in Hs as (Hx & Hy & Hz).
  apply vec_ext; lra.
Qed.


Lemma collisionLoop_hit (planets : list Mesh.t) :
  forall pos vel res pos' vel' planet,
    Physics.collisionLoop pos vel planets = Ok (res, pos', vel') ->
    collidedPlanet res = Some planet ->
    exists radius,
      Mesh.geometry planet = SphereGeometry radius
      /\ Vector3.distanceTo pos (Mesh.position planet) - radius < 5 / 10
      /\ (res, pos', vel') = collisionHit pos vel planet radius.
Proof.
  induction planets as [|m rest IH]; intros pos vel res pos' vel' planet E Hc.
  - simpl in E; injection E as <- <- <-; discriminate.
  - simpl in E; unfold parametersRadius in E.
    destruct (Mesh.geometry m) as [| |radius] eqn:G; simpl in E;
      [discriminate | eauto |].
    fold Physics.groundCollisionRadius in E.
    destruct (_ <? Physics.groundCollisionRadius) eqn:L; [|eauto].
    apply Rltb_true in L; unfold Physics.groundCollisionRadius in L.
    injection E as <- <- <-; simpl in Hc; injection Hc as <-.
    exists radius; repeat split; auto.
Qed.

Lemma collisionLoop_miss (planets : list Mesh.t) :
  forall pos vel res pos' vel',
    Physics.collisionLoop pos vel planets = Ok (res, pos', vel') ->
    collidedPlanet res = None ->
    col_onGround res = false /\ pos' = pos /\ vel' = vel.
Proof.
  induction planets as [|m rest IH]; intros pos vel res pos' vel' E Hc.
  - simpl in E; injection E as <- <- <-; auto.
  - simpl in E.
    destruct (parametersRadius m) as [[radius|]|e]; simpl in E;
      [|eauto|discriminate].
    destruct (_ <? Physics.groundCollisionRadius); [|eauto].
    injection E as <- <- <-; discriminate.
Qed.



Lemma normalize_along_x (a : R) :
  0 < a -> Vector3.normalize (Vector3.mk a 0 0) = Vector3.mk 1 0 0.
Proof.
  intros Ha.
  assert (L : Vector3.length (Vector3.mk a 0 0) = a).
  { apply length_of_square; [lra | unfold Vector3.lengthSq; simpl; ring]. }
  rewrite normalize_scaled by (rewrite L; lra).
  rewrite L; apply vec_ext; simpl; field; lra.
Qed.

Lemma distanceTo_along_x (a : R) :
  0 <= a -> Vector3.distanceTo (Vector3.mk a 0 0) (Vector3.mk 0 0 0) = a.
Proof.
  intros Ha; rewrite distanceTo_length.
  apply length_of_square; [lra | unfold Vector3.lengthSq; simpl; ring].
Qed.

(** The first call on the sample scene: a hit, the avatar is put at
    distance 10.5 from the centre and loses its inward velocity. *)
Lemma sample_first_call (r : R) :
  Physics.handlePlanetCollisions lowPosition fallingVelocity [planet10] r
  = Ok ({| col_onGround := true; collidedPlanet := Some planet10;
           surfaceNormal := Some (Vector3.mk 1 0 0) |},
        Vector3.mk (21 / 2) 0 0, Vector3.mk 0 0 0).
Proof.
  unfold Physics.handlePlanetCollisions, planet10, sphere.
  rewrite (collisionLoop_sphere _ _ _ 10) by reflexivity.
  cbn [Mesh.position]; unfold lowPosition.
  rewrite distanceTo_along_x by lra.
  rewrite (proj2 (Rltb_true (41 / 4 - 10) (5 / 10))) by lra.
  unfold collisionHit; cbn [Mesh.position].
  rewrite distanceTo_along_x by lra.
  replace (Vector3.subVectors (Vector3.mk (41 / 4) 0 0) (Vector3.mk 0 0 0))
    with (Vector3.mk (41 / 4) 0 0) by (apply vec_ext; simpl; ring).
  rewrite normalize_along_x by lra.
  unfold fallingVelocity, Physics.groundCollisionRadius.
  assert (D : Vector3.dot (Vector3.mk (-1) 0 0) (Vector3.mk 1 0 0) = -1)
    by (unfold Vector3.dot; simpl; ring).
  rewrite D, (proj2 (Rltb_true (-1) 0)) by lra.
  f_equal; f_equal; [f_equal|]; apply vec_ext; simpl; lra.
Qed.




(** ** The correction in binary64 *)

(** At (41/4, 0, 0) above a planet of radius 10 every number involved
    is a binary64 number and no operation rounds: the corrected
    position is at 0.5 exactly, and the second call reports no
    collision and changes nothing, as over the reals. *)
Lemma binary64_second_call_not_on_ground :
  Binary64.twice Binary64.dyadicPosition Binary64.dyadicVelocity
                 Binary64.planet10
  = (true, Binary64.groundCollisionRadius,
     (Binary64.mkCollision false None None,
      Binary64.dyadicCorrected, Binary64.atRest)).
Proof. vm_compute; reflexivity. Qed.

(** At (1, 5, 9) above the same planet the operations round: the
    corrected position is computed to lie at 0.5 less 2^-49 above the
    surface, and the second call reports onGround again. *)
Lemma binary64_second_call_on_ground :
  exists position2 velocity2 normal,
    Binary64.twice Binary64.roundingPosition Binary64.roundingVelocity
                   Binary64.planet10
    = (true, Binary64.belowThreshold,
       (Binary64.mkCollision true (Some Binary64.planet10) (Some normal),
        position2, velocity2)).
Proof. do 3 eexists; vm_compute; reflexivity. Qed.

(** ** A tick returns *)

Lemma checkPlayerEnvironment_total
    (ph : Physics.t) (pos : Vec) (planets : list Mesh.t) :
  forallb hasParameters planets = true ->
  exists env ph',
    Physics.checkPlayerEnvironment ph pos planets = Ok (env, ph')
    /\ nearestOk (nearest env).
Proof.
  intros Hall.
  destruct (getNearestPlanet_total pos planets Hall) as (n & E & Hok & _).
  unfold Physics.checkPlayerEnvironment; rewrite E; simpl.
  destruct n as [[planet d]|]; [|do 2 eexists; split; [reflexivity | exact I]].
  destruct (hasRadius_parametersRadius planet Hok) as (r & Er).
  rewrite Er; simpl.
  match goal with
  | |- context [Physics.delayZoneSwitch ph ?p] =>
      destruct (Physics.delayZoneSwitch ph p) as [zone ph']
  end.
  do 2 eexists; split; [reflexivity | exact Hok].
Qed.

Lemma zoneDrag_total (ph : Physics.t) (env : EnvironmentResult) :
  nearestOk (nearest env) -> exists drag, Physics.zoneDrag ph env = Ok drag.
Proof.
  intros Hok; unfold Physics.zoneDrag.
  destruct (inSpace env); [eauto|].
  destruct (Physics.truthy (inTransition env)); [eauto|].
  destruct (negb (env_onGround env)); [|eauto].
  destruct (nearest env) as [[planet d]|]; [|eauto].
  destruct (hasRadius_parametersRadius planet Hok) as (r & Er).
  rewrite Er; simpl; eauto.
Qed.

(** ** No NaN reaches the avatar

    The [NotANumber] outcome of [zoneDrag] stands for a drag computed
    from an undefined radius.  It never occurs: the nearest planet
    always has a radius. *)

Lemma bind_valueOrTypeError {A B : Type} (m : result A) (k : A -> result B) :
  valueOrTypeError m -> (forall a, m = Ok a -> valueOrTypeError (k a)) ->
  valueOrTypeError (bind m k).
Proof. destruct m as [a|[|]]; simpl; auto. Qed.

Lemma parametersRadius_valueOrTypeError (m : Mesh.t) :
  valueOrTypeError (parametersRadius m).
Proof. unfold parametersRadius; destruct (Mesh.geometry m); exact I. Qed.

Lemma forEachNearest_found (pos : Vec) (planets : list Mesh.t) :
  forall acc, nearestOk acc ->
  valueOrTypeError (Physics.forEachNearest pos acc planets)
  /\ forall n, Physics.forEachNearest pos acc planets = Ok n -> nearestOk n.
Proof.
  induction planets as [|m rest IH]; intros acc Hacc; simpl.
  - split; [exact I | intros n [= <-]; assumption].
  - unfold Physics.nearestStep, parametersRadius.
    destruct (Mesh.geometry m) as [| |radius] eqn:G; simpl.
    + split; [exact I | discriminate].
    + now apply IH.
    + assert (Hm : hasRadius m = true) by (unfold hasRadius; now rewrite G).
      destruct acc as [[best minDistance]|]; [destruct (_ <? minDistance)|];
        simpl; now apply IH.
Qed.

Lemma getNearestPlanet_found (pos : Vec) (planets : list Mesh.t) :
  valueOrTypeError (Physics.getNearestPlanet pos planets)
  /\ forall n, Physics.getNearestPlanet pos planets = Ok n -> nearestOk n.
Proof. apply forEachNearest_found; exact I. Qed.

Lemma calculateUpDirection_valueOrTypeError
    (ph : Physics.t) (pos : Vec) (planets : list Mesh.t) :
  valueOrTypeError (Physics.calculateUpDirection ph pos planets).
Proof.
  unfold Physics.calculateUpDirection.
  apply bind_valueOrTypeError; [apply getNearestPlanet_found|].
  intros [[planet d]|] _; [destruct (d >? _)|]; exact I.
Qed.

Lemma checkPlayerEnvironment_found
    (ph : Physics.t) (pos : Vec) (planets : list Mesh.t) :
  valueOrTypeError (Physics.checkPlayerEnvironment ph pos planets)
  /\ forall env ph',
       Physics.checkPlayerEnvironment ph pos planets = Ok (env, ph') ->
       nearestOk (nearest env).
Proof.
  destruct (getNearestPlanet_found pos planets) as (Hv & Hok).
  unfold Physics.checkPlayerEnvironment.
  destruct (Physics.getNearestPlanet pos planets) as [n|e]; simpl in *.
  - specialize (Hok n eq_refl).
    destruct n as [[planet d]|].
    + destruct (hasRadius_parametersRadius planet Hok) as (r & Er).
      rewrite Er; simpl.
      match goal with
      | |- context [Physics.delayZoneSwitch ph ?p] =>
          destruct (Physics.delayZoneSwitch ph p) as [zone ph1]
      end.
      split; [exact I | intros env ph' [= <- _]; exact Hok].
    + split; [exact I | intros env ph' [= <- _]; exact I].
  - split; [exact Hv | discriminate].
Qed.

Lemma collisionLoop_valueOrTypeError (planets : list Mesh.t) :
  forall pos vel, valueOrTypeError (Physics.collisionLoop pos vel planets).
Proof.
  induction planets as [|m rest IH]; intros pos vel; simpl; [exact I|].
  unfold parametersRadius; destruct (Mesh.geometry m); simpl; auto.
  destruct (_ <? Physics.groundCollisionRadius); simpl; auto.
Qed.

Lemma updatePlayerPhysics_valueOrTypeError
    (ph : Physics.t) (player : Player) (controls : ControlsState)
    (deltaTime : R) (planets : list Mesh.t) (sun : option Mesh.t)
    (camera : Camera) (gameState : GameState) :
  valueOrTypeError
    (Physics.updatePlayerPhysics ph player controls deltaTime planets sun
                                 camera gameState).
Proof.
  unfold Physics.updatePlayerPhysics.
  destruct (noclip gameState).
  - destruct (Physics.noclipStep _ _ _ _ _); exact I.
  - apply bind_valueOrTypeError;
      [apply calculateUpDirection_valueOrTypeError | intros up _].
    apply bind_valueOrTypeError;
      [apply checkPlayerEnvironment_found | intros [env ph'] Eenv].
    apply checkPlayerEnvironment_found in Eenv.
    destruct (zoneDrag_total ph env Eenv) as (drag & ->); cbn [bind].
    apply bind_valueOrTypeError.
    { unfold Physics.applyJetpack.
      destruct (jetpack controls && _); [|exact I].
      apply bind_valueOrTypeError; [|intros; exact I].
      destruct (Physics.nearPlanet env);
        [apply calculateUpDirection_valueOrTypeError | exact I]. }
    intros [v1 f1] _.
    apply bind_valueOrTypeError.
    { unfold Physics.applyDownThrusters.
      destruct (downThrusters controls && _); [|exact I].
      apply bind_valueOrTypeError; [|intros; exact I].
      destruct (Physics.nearPlanet env); [|exact I].
      apply bind_valueOrTypeError;
        [apply calculateUpDirection_valueOrTypeError | intros; exact I]. }
    intros [v2 f2] _.
    apply bind_valueOrTypeError;
      [apply collisionLoop_valueOrTypeError | intros [[col pos'] vel'] _].
    exact I.
Qed.

(** ** Fuel and stamina *)

Lemma clamp_below_nonneg (v : R) : 0 <= (if v <? 0 then 0 else v).
Proof. rcases; lra. Qed.

Lemma applyJetpack_fuel
    (ph : Physics.t) (env : EnvironmentResult) (controls : ControlsState)
    (camera : Camera) (planets : list Mesh.t) (deltaTime : R)
    (pos vel : Vec) (f : R) :
  forallb hasParameters planets = true -> 0 <= f ->
  exists vel' f',
    Physics.applyJetpack ph env controls camera planets deltaTime pos vel f
    = Ok (vel', f')
    /\ 0 <= f'
    /\ (jetpack controls = true -> f = 1 -> 1 / 20 < deltaTime -> f' = 0).
Proof.
  intros Hall Hf; unfold Physics.applyJetpack.
  destruct (jetpack controls); simpl.
  - destruct (f >? 0) eqn:Ef.
    + assert (Hdir : exists dir,
                 (if Physics.nearPlanet env
                  then Physics.calculateUpDirection ph pos planets
                  else Ok (worldDirection camera)) = Ok dir).
      { destruct (Physics.nearPlanet env); [|eauto].
        now apply calculateUpDirection_total. }
      destruct Hdir as (dir & ->); simpl.
      do 2 eexists; split; [reflexivity|]. split.
      * apply clamp_below_nonneg.
      * intros _ -> Hdt; rcases; lra.
    + apply Rgtb_false in Ef.
      do 2 eexists; split; [reflexivity|]. split; [assumption|].
      intros _ -> _; lra.
  - do 2 eexists; split; [reflexivity|]. split; [assumption|].
    discriminate.
Qed.

Lemma applyDownThrusters_fuel
    (ph : Physics.t) (env : EnvironmentResult) (controls : ControlsState)
    (camera : Camera) (planets : list Mesh.t) (deltaTime : R)
    (pos vel : Vec) (f : R) :
  forallb hasParameters planets = true -> 0 <= f ->
  exists vel' f',
    Physics.applyDownThrusters ph env controls camera planets deltaTime pos vel f
    = Ok (vel', f')
    /\ 0 <= f'
    /\ (f = 0 -> f' = 0).
Proof.
  intros Hall Hf; unfold Physics.applyDownThrusters.
  destruct (downThrusters controls); simpl.
  - destruct (f >? 0) eqn:Ef.
    + apply Rgtb_true in Ef.
      assert (Hdir : exists dir,
                 (if Physics.nearPlanet env
                  then let* upDirection :=
                         Physics.calculateUpDirection ph pos planets in
                       Ok (Vector3.negate upDirection)
                  else Ok (Vector3.negate (worldDirection camera))) = Ok dir).
      { destruct (Physics.nearPlanet env); [|eauto].
        destruct (calculateUpDirection_total ph pos planets Hall) as (up & ->).
        simpl; eauto. }
      destruct Hdir as (dir & ->); simpl.
      do 2 eexists; split; [reflexivity|]. split.
      * apply clamp_below_nonneg.
      * intros ->; lra.
    + do 2 eexists; split; [reflexivity|]. split; [assumption|auto].
  - do 2 eexists; split; [reflexivity|]. split; [assumption|auto].
Qed.

Lemma updateStamina_bounds (player : Player) (controls : ControlsState)
    (deltaTime : R) :
  0 <= deltaTime ->
  0 <= stamina player <= maxStamina player ->
  0 <= staminaDrainRate player -> 0 <= staminaRechargeRate player ->
  let player' := Physics.updateStamina player controls deltaTime in
  0 <= stamina player' <= maxStamina player'
  /\ maxStamina player' = maxStamina player
  /\ fuel player' = fuel player
  /\ p_position player' = p_position player.
Proof.
  intros Hdt Hs Hdrain Hre; cbv zeta; unfold Physics.updateStamina.
  assert (Hd : 0 <= staminaDrainRate player * deltaTime)
    by (apply Rmult_le_pos; assumption).
  assert (Hr : 0 <= staminaRechargeRate player * deltaTime)
    by (apply Rmult_le_pos; assumption).
  destruct (sprint controls); simpl.
  - destruct (stamina player >? 0) eqn:E1; simpl.
    + repeat split; auto; rcases; lra.
    + destruct (stamina player <=? 0) eqn:E2; simpl.
      * repeat split; auto; rcases; lra.
      * repeat split; auto; lra.
  - repeat split; auto; rcases; lra.
Qed.

(** C8.  A call of [updatePlayerPhysics] on bodies that can be read,
    with deltaTime >= 0, fuel >= 0, stamina within [0, maxStamina] and
    nonnegative drain and recharge rates, returns, with fuel >= 0 and
    stamina still within [0, maxStamina].  Outside noclip, with the
    jetpack held, fuel = 1 and deltaTime > 1/20 (the drain being 20 per
    second), the fuel after the tick is exactly 0. *)
Theorem fuel_and_stamina_bounds
    (ph : Physics.t) (player : Player) (controls : ControlsState)
    (deltaTime : R) (planets : list Mesh.t) (sun : option Mesh.t)
    (camera : Camera) (gameState : GameState) :
  forallb hasParameters planets = true ->
  0 <= deltaTime ->
  0 <= fuel player ->
  0 <= stamina player <= maxStamina player ->
  0 <= staminaDrainRate player -> 0 <= staminaRechargeRate player ->
  exists res player' ph',
    Physics.updatePlayerPhysics ph player controls deltaTime planets sun
                                camera gameState = Ok (res, player', ph')
    /\ 0 <= fuel player'
    /\ 0 <= stamina player' <= maxStamina player
    /\ maxStamina player' = maxStamina player
    /\ (noclip gameState = false -> jetpack controls = true ->
        fuel player = 1 -> 1 / 20 < deltaTime -> fuel player' = 0).
Proof.
  intros Hall Hdt Hf Hs Hdrain Hre.
  destruct (updateStamina_bounds player controls deltaTime Hdt Hs Hdrain Hre)
    as (Hs' & Hmax & Hfuel & _).
  unfold Physics.updatePlayerPhysics.
  set (player0 := Physics.updateStamina player controls deltaTime) in *.
  destruct (noclip gameState).
  - unfold Physics.noclipStep.
    do 3 eexists; split; [reflexivity|]; simpl.
    rewrite Hfuel; rewrite Hmax in Hs'.
    repeat split; try assumption; try lra; discriminate.
  - destruct (calculateUpDirection_total ph (p_position player0) planets Hall)
      as (up & Eup).
    rewrite Eup; cbn [bind].
    destruct (checkPlayerEnvironment_total ph (p_position player0) planets Hall)
      as (env & ph' & Eenv & Hok).
    rewrite Eenv; cbn [bind].
    destruct (zoneDrag_total ph env Hok) as (drag & Edrag).
    rewrite Edrag; cbn [bind].
    rewrite <- Hfuel in Hf.
    match goal with
    | |- context [Physics.applyJetpack ?a ?b ?c ?d ?e ?f ?g ?h ?i] =>
        destruct (applyJetpack_fuel a b c d e f g h i Hall Hf)
          as (v1 & f1 & Ejet & Hf1 & Hjet)
    end.
    rewrite Ejet; cbn [bind].
    match goal with
    | |- context [Physics.applyDownThrusters ?a ?b ?c ?d ?e ?f ?g ?h ?i] =>
        destruct (applyDownThrusters_fuel a b c d e f g h i Hall Hf1)
          as (v2 & f2 & Edown & Hf2 & Hdown)
    end.
    rewrite Edown; cbn [bind].
    unfold Physics.handlePlanetCollisions.
    destruct (collisionLoop_total planets (p_position player0) v2 Hall)
      as (col & pos' & vel' & Ecol).
    rewrite Ecol; cbn [bind].
    do 3 eexists; split; [reflexivity|]; simpl.
    rewrite Hmax in Hs'.
    repeat split; try assumption; try lra.
    intros _ Hj Hone Hlong.
    apply Hdown, Hjet; auto; congruence.
Qed.

Lemma fuel_and_stamina_bounds_witness :
  0 <= 1 / 10
  /\ 0 <= stamina samplePlayer <= maxStamina samplePlayer
  /\ exists res player' ph',
       Physics.updatePlayerPhysics Physics.constructor samplePlayer jetpackHeld
         (1 / 10) [planet10] None sampleCamera (mkGameState false)
       = Ok (res, player', ph')
       /\ fuel player' = 0.
Proof.
  split; [lra|]. split; [simpl; lra|].
  destruct (fuel_and_stamina_bounds Physics.constructor samplePlayer jetpackHeld
              (1 / 10) [planet10] None sampleCamera (mkGameState false))
    as (res & player' & ph' & E & _ & _ & _ & Hjet);
    try (simpl; lra); try reflexivity.
  exists res, player', ph'; split; [exact E|].
  apply Hjet; try reflexivity; simpl; lra.
Defined.

(** ** Noclip *)

Lemma calculateMoveDirection_forward (controls : ControlsState) (camera : Camera)
    (inSpace : bool) :
  moveForward controls = true -> moveBackward controls = false ->
  moveLeft controls = false -> moveRight controls = false ->
  Physics.calculateMoveDirection controls camera inSpace false
  = worldDirection camera.
Proof.
  intros HF HB HL HR; unfold Physics.calculateMoveDirection.
  rewrite HF, HB, HL, HR; apply add_zero_l.
Qed.

Lemma updateStamina_motion (player : Player) (controls : ControlsState)
    (deltaTime : R) :
  p_position (Physics.updateStamina player controls deltaTime) = p_position player
  /\ fuel (Physics.updateStamina player controls deltaTime) = fuel player.
Proof.
  unfold Physics.updateStamina.
  destruct (sprint controls && (stamina player >? 0));
    [|destruct (negb (sprint controls) || (stamina player <=? 0))];
    split; reflexivity.
Qed.

(** One noclip tick with only the forward key held. *)
Lemma noclip_tick
    (ph : Physics.t) (player : Player) (controls : ControlsState)
    (deltaTime : R) (planets : list Mesh.t) (sun : option Mesh.t)
    (camera : Camera) (gameState : GameState) :
  noclip gameState = true ->
  moveForward controls = true -> moveBackward controls = false ->
  moveLeft controls = false -> moveRight controls = false ->
  sprint controls = false ->
  0 < Vector3.length (worldDirection camera) ->
  exists player',
    Physics.updatePlayerPhysics ph player controls deltaTime planets sun
                                camera gameState
    = Ok (Physics.noclipResult, player', ph)
    /\ p_position player'
       = Vector3.add (p_position player)
           (Vector3.multiplyScalar (Vector3.normalize (worldDirection camera))
                                   (Physics.moveSpeed ph * 100 * deltaTime))
    /\ p_velocity player' = Vector3.mk 0 0 0
    /\ p_onGround player' = false
    /\ fuel player' = fuel player.
Proof.
  intros Hn HF HB HL HR HS Hlen.
  unfold Physics.updatePlayerPhysics, Physics.noclipStep; rewrite Hn.
  rewrite calculateMoveDirection_forward by assumption.
  rewrite (proj2 (Rgtb_true _ 0) Hlen), HS.
  destruct (updateStamina_motion player controls deltaTime) as (Hp & Hfuel).
  eexists; split; [reflexivity|]; simpl.
  rewrite Hp, Hfuel; repeat split; reflexivity.
Qed.

(** C6.  In noclip, with only the forward key held (no sprint) and a
    camera direction that is not the zero vector: [n] ticks of the same
    deltaTime return, leave the instance as it is, and move the avatar
    by exactly (moveSpeed * 100) * deltaTime * n along the normalised
    view direction, whatever the planets and the sun; after every tick
    the velocity is the zero vector, onGround is false, the fuel is
    untouched, and the tick reports the fixed noclip result (no
    collision, zone noclip). *)
Theorem noclip_kinematic
    (n : nat) (ph : Physics.t) (player : Player) (controls : ControlsState)
    (deltaTime : R) (planets : list Mesh.t) (sun : option Mesh.t)
    (camera : Camera) (gameState : GameState) :
  noclip gameState = true ->
  moveForward controls = true -> moveBackward controls = false ->
  moveLeft controls = false -> moveRight controls = false ->
  sprint controls = false ->
  0 < Vector3.length (worldDirection camera) ->
  exists playerN player1,
    Physics.ticks n ph player controls deltaTime planets sun camera gameState
    = Ok (playerN, ph)
    /\ p_position playerN
       = Vector3.add (p_position player)
           (Vector3.multiplyScalar (Vector3.normalize (worldDirection camera))
              (Physics.moveSpeed ph * 100 * deltaTime * INR n))
    /\ fuel playerN = fuel player
    /\ ((1 <= n)%nat ->
        p_velocity playerN = Vector3.mk 0 0 0 /\ p_onGround playerN = false)
    /\ Physics.updatePlayerPhysics ph player controls deltaTime planets sun
                                   camera gameState
       = Ok (Physics.noclipResult, player1, ph)
    /\ collision Physics.noclipResult = noCollision
    /\ env_onGround (environment Physics.noclipResult) = false.
Proof.
  intros Hn HF HB HL HR HS Hlen.
  destruct (noclip_tick ph player controls deltaTime planets sun camera gameState
              Hn HF HB HL HR HS Hlen) as (player1 & E1 & _).
  enough (Hticks : exists playerN,
    Physics.ticks n ph player controls deltaTime planets sun camera gameState
    = Ok (playerN, ph)
    /\ p_position playerN
       = Vector3.add (p_position player)
           (Vector3.multiplyScalar (Vector3.normalize (worldDirection camera))
              (Physics.moveSpeed ph * 100 * deltaTime * INR n))
    /\ fuel playerN = fuel player
    /\ ((1 <= n)%nat ->
        p_velocity playerN = Vector3.mk 0 0 0 /\ p_onGround playerN = false)).
  { destruct Hticks as (playerN & E & Hp & Hfu & Hv).
    exists playerN, player1; repeat split; auto; now apply Hv. }
  clear player1 E1.
  revert player; induction n as [|n IH]; intros player.
  - exists player; split; [reflexivity|]. split; [|split; [reflexivity | lia]].
    apply vec_ext; simpl; ring.
  - destruct (noclip_tick ph player controls deltaTime planets sun camera
                gameState Hn HF HB HL HR HS Hlen)
      as (player1 & E1 & P1 & V1 & G1 & F1).
    destruct (IH player1) as (playerN & E & Hp & Hfu & Hv).
    exists playerN.
    split; [cbn [Physics.ticks]; rewrite E1; cbn [bind]; exact E|].
    split; [|split].
    + rewrite Hp, P1, S_INR; apply vec_ext; simpl; ring.
    + congruence.
    + intros _; destruct n as [|n'].
      * cbn [Physics.ticks] in E; injection E as <-; auto.
      * apply Hv; lia.
Qed.

Lemma sampleCamera_direction :
  Vector3.length (worldDirection sampleCamera) = 1
  /\ Vector3.normalize (worldDirection sampleCamera) = Vector3.mk 0 0 (-1).
Proof.
  assert (L : Vector3.length (worldDirection sampleCamera) = 1).
  { apply length_of_square; [lra | unfold Vector3.lengthSq; simpl; ring]. }
  split; [exact L|].
  rewrite normalize_scaled by lra.
  rewrite L; apply vec_ext; simpl; field.
Qed.

Lemma noclip_kinematic_witness :
  0 < Vector3.length (worldDirection sampleCamera)
  /\ exists playerN,
       Physics.ticks 3 Physics.constructor samplePlayer forwardHeld (1 / 10)
                     [bareMesh] None sampleCamera (mkGameState true)
       = Ok (playerN, Physics.constructor)
       /\ p_position playerN = Vector3.mk 40 0 (-150)
       /\ p_velocity playerN = Vector3.mk 0 0 0.
Proof.
  destruct sampleCamera_direction as (L & N).
  assert (Hlen : 0 < Vector3.length (worldDirection sampleCamera))
    by (rewrite L; lra).
  split; [exact Hlen|].
  destruct (noclip_kinematic 3 Physics.constructor samplePlayer forwardHeld
              (1 / 10) [bareMesh] None sampleCamera (mkGameState true)
              eq_refl eq_refl eq_refl eq_refl eq_refl eq_refl Hlen)
    as (playerN & player1 & E & Hp & _ & Hv & _).
  exists playerN; split; [exact E|]. split.
  - rewrite Hp, N; apply vec_ext; simpl; lra.
  - apply Hv; lia.
Defined.

(** ** The alignment factor *)

Lemma reference_speed_pos (e : R) : 0 < Rmax (1 / 10) e.
Proof. pose proof (Rmax_l (1 / 10) e); lra. Qed.

(** Between half the reference speed and the reference speed the factor
    falls linearly from its base value to 0. *)
Lemma alignFactorOf_fading (g e s : R) :
  Rmax (1 / 10) e / 2 <= s <= Rmax (1 / 10) e ->
  PlayerController.alignFactorOf g e s false
  = Rmin 1 (g * (1 / 10)) * (2 - 2 * (s / Rmax (1 / 10) e)).
Proof.
  intros Hs; unfold PlayerController.alignFactorOf.
  pose proof (reference_speed_pos e) as HE.
  set (E := Rmax (1 / 10) e) in *.
  set (q := s / E).
  assert (Hq : s = q * E) by (unfold q; field; lra).
  assert (Hq1 : 1 / 2 <= q <= 1) by (split; nra).
  destruct (q >? 5 / 10) eqn:C; [apply Rgtb_true in C | apply Rgtb_false in C].
  - rewrite Rmax_right by lra; f_equal; lra.
  - assert (q = 1 / 2) by lra.
    replace (2 - 2 * q) with 1 by lra; ring.
Qed.

Lemma alignFactorOf_escaped (g e s : R) :
  Rmax (1 / 10) e <= s -> PlayerController.alignFactorOf g e s false = 0.
Proof.
  intros Hs; unfold PlayerController.alignFactorOf.
  pose proof (reference_speed_pos e) as HE.
  set (E := Rmax (1 / 10) e) in *.
  set (q := s / E).
  assert (Hq : s = q * E) by (unfold q; field; lra).
  assert (Hq1 : 1 <= q) by nra.
  rewrite (proj2 (Rgtb_true q (5 / 10))) by lra.
  rewrite Rmax_left by lra; ring.
Qed.

Lemma alignFactorOf_slow (g e s : R) :
  s <= Rmax (1 / 10) e / 2 ->
  PlayerController.alignFactorOf g e s false = Rmin 1 (g * (1 / 10)).
Proof.
  intros Hs; unfold PlayerController.alignFactorOf.
  pose proof (reference_speed_pos e) as HE.
  set (E := Rmax (1 / 10) e) in *.
  set (q := s / E).
  assert (Hq : s = q * E) by (unfold q; field; lra).
  assert (Hq1 : q <= 1 / 2) by nra.
  now rewrite (proj2 (Rgtb_false q (5 / 10))) by lra.
Qed.

Lemma alignFactorOf_decreasing (g e s1 s2 : R) :
  0 < g ->
  Rmax (1 / 10) e / 2 <= s1 -> s1 < s2 -> s2 <= Rmax (1 / 10) e ->
  PlayerController.alignFactorOf g e s2 false
  < PlayerController.alignFactorOf g e s1 false.
Proof.
  intros Hg H1 H12 H2.
  rewrite !alignFactorOf_fading by lra.
  pose proof (reference_speed_pos e) as HE.
  set (E := Rmax (1 / 10) e) in *.
  assert (Hb : 0 < Rmin 1 (g * (1 / 10))) by (apply Rmin_glb_lt; lra).
  assert (Hq : s1 / E < s2 / E).
  { apply Rmult_lt_compat_r; [apply Rinv_0_lt_compat|]; lra. }
  nra.
Qed.

(** What [alignWithSurface] stores when the scan found a planet within
    the range of 500. *)
Lemma alignWithSurface_in_range
    (pc : PlayerController.t) (physics : option Physics.t)
    (planets : list Mesh.t) (up : Vec) (deltaTime speed : R)
    (inf : PlayerController.Influence) :
  PlayerController.noclip pc = false ->
  PlayerController.scanPlanets physics (PlayerController.position pc) None planets
  = Ok (Some inf) ->
  PlayerController.minDistance inf <= 500 ->
  exists pc' b,
    PlayerController.alignWithSurface pc physics planets up deltaTime speed
    = Ok (pc', b)
    /\ PlayerController.alignmentNeeded pc'
       = PlayerController.alignFactorOf
           (PlayerController.gravityFactor inf)
           (PlayerController.escapeVelocity inf)
           (Vector3.length (PlayerController.velocity pc))
           (PlayerController.onGround pc).
Proof.
  intros Hn Hscan Hd; unfold PlayerController.alignWithSurface.
  rewrite Hn, Hscan; cbn [bind].
  rewrite (proj2 (Rgtb_false _ 500) Hd).
  do 2 eexists; split; reflexivity.
Qed.

(** C7, as the code has it.  Position, planets and gravitational
    constant fixed, the scan having found a planet within 500 units with
    a positive gravity factor; the avatar in flight (not on the ground,
    no noclip).  The speed is measured against max(0.1, v_esc), which is
    v_esc itself as soon as v_esc >= 0.1.  Between half that reference
    and the reference the stored alignment factor strictly decreases as
    the speed grows, and at or above the reference it is 0. *)
Theorem alignment_fades_toward_escape
    (physics : option Physics.t) (planets : list Mesh.t) (pos up : Vec)
    (deltaTime speed : R) (inf : PlayerController.Influence)
    (v1 v2 v3 : Vec) :
  PlayerController.scanPlanets physics pos None planets = Ok (Some inf) ->
  PlayerController.minDistance inf <= 500 ->
  0 < PlayerController.gravityFactor inf ->
  Rmax (1 / 10) (PlayerController.escapeVelocity inf) / 2 <= Vector3.length v1 ->
  Vector3.length v1 < Vector3.length v2 ->
  Vector3.length v2 <= Rmax (1 / 10) (PlayerController.escapeVelocity inf) ->
  Rmax (1 / 10) (PlayerController.escapeVelocity inf) <= Vector3.length v3 ->
  exists pc1 b1 pc2 b2 pc3 b3,
    PlayerController.alignWithSurface (flying pos v1) physics planets up
                                      deltaTime speed = Ok (pc1, b1)
    /\ PlayerController.alignWithSurface (flying pos v2) physics planets up
                                         deltaTime speed = Ok (pc2, b2)
    /\ PlayerController.alignWithSurface (flying pos v3) physics planets up
                                         deltaTime speed = Ok (pc3, b3)
    /\ PlayerController.alignmentNeeded pc2 < PlayerController.alignmentNeeded pc1
    /\ PlayerController.alignmentNeeded pc3 = 0
    /\ (1 / 10 <= PlayerController.escapeVelocity inf ->
        Rmax (1 / 10) (PlayerController.escapeVelocity inf)
        = PlayerController.escapeVelocity inf).
Proof.
  intros Hscan Hd Hg H1 H12 H2 H3.
  destruct (alignWithSurface_in_range (flying pos v1) physics planets up
              deltaTime speed inf eq_refl Hscan Hd) as (pc1 & b1 & E1 & A1).
  destruct (alignWithSurface_in_range (flying pos v2) physics planets up
              deltaTime speed inf eq_refl Hscan Hd) as (pc2 & b2 & E2 & A2).
  destruct (alignWithSurface_in_range (flying pos v3) physics planets up
              deltaTime speed inf eq_refl Hscan Hd) as (pc3 & b3 & E3 & A3).
  exists pc1, b1, pc2, b2, pc3, b3.
  split; [exact E1|]. split; [exact E2|]. split; [exact E3|].
  rewrite A1, A2, A3; cbn [flying PlayerController.velocity PlayerController.onGround].
  split; [now apply alignFactorOf_decreasing|].
  split; [now apply alignFactorOf_escaped|].
  intros He; now apply Rmax_right.
Qed.

Lemma scan_along_x (physics : option Physics.t) (a r : R) :
  1 / 10 <= a ->
  PlayerController.scanPlanets physics (Vector3.mk a 0 0) None
                               [sphere (Vector3.mk 0 0 0) r]
  = Ok (Some {| PlayerController.nearestPlanet := sphere (Vector3.mk 0 0 0) r;
                PlayerController.minDistance := a - r;
                PlayerController.escapeVelocity :=
                  PlayerController.sqrtOrZero
                    (2 * PlayerController.constantG physics * (r * 10) / a);
                PlayerController.gravityFactor :=
                  PlayerController.constantG physics * (r * 10) / (a * a) |}).
Proof.
  intros Ha.
  cbn [PlayerController.scanPlanets PlayerController.influenceStep bind
       parametersRadius sphere Mesh.geometry Mesh.position].
  rewrite distanceTo_along_x by lra.
  rewrite Rmax_right by lra.
  reflexivity.
Qed.

Lemma sqrtOrZero_square (a : R) : 0 < a -> PlayerController.sqrtOrZero (a * a) = a.
Proof.
  intros Ha; unfold PlayerController.sqrtOrZero.
  rewrite (proj2 (Rltb_false (a * a) 0)) by nra.
  rewrite sqrt_square by lra.
  apply orElse_nonzero; lra.
Qed.

Lemma constantG_constructor :
  PlayerController.constantG (Some Physics.constructor) = 100.
Proof. simpl; apply orElse_nonzero; lra. Qed.

Lemma length_along_x (a : R) : 0 <= a -> Vector3.length (Vector3.mk a 0 0) = a.
Proof.
  intros Ha; apply length_of_square; [lra | unfold Vector3.lengthSq; simpl; ring].
Qed.

(** The scan of the sample scenes. *)
Lemma scan_planet8 :
  PlayerController.scanPlanets (Some Physics.constructor) (Vector3.mk 40 0 0)
                               None [planet8]
  = Ok (Some {| PlayerController.nearestPlanet := planet8;
                PlayerController.minDistance := 32;
                PlayerController.escapeVelocity := 20;
                PlayerController.gravityFactor := 5 |}).
Proof.
  unfold planet8; rewrite scan_along_x by lra.
  rewrite constantG_constructor.
  replace (2 * 100 * (8 * 10) / 40) with (20 * 20) by field.
  rewrite sqrtOrZero_square by lra.
  do 3 f_equal; field.
Qed.

Lemma scan_speck :
  PlayerController.scanPlanets (Some Physics.constructor) (Vector3.mk 500 0 0)
                               None [speck]
  = Ok (Some {| PlayerController.nearestPlanet := speck;
                PlayerController.minDistance := 500 - 1 / 1024;
                PlayerController.escapeVelocity := 1 / 16;
                PlayerController.gravityFactor := 1 / 256000 |}).
Proof.
  unfold speck; rewrite scan_along_x by lra.
  rewrite constantG_constructor.
  replace (2 * 100 * (1 / 1024 * 10) / 500) with ((1 / 16) * (1 / 16)) by field.
  rewrite sqrtOrZero_square by lra.
  do 3 f_equal; field.
Qed.

Lemma alignment_fades_toward_escape_witness :
  PlayerController.scanPlanets (Some Physics.constructor) (Vector3.mk 40 0 0)
                               None [planet8]
  = Ok (Some {| PlayerController.nearestPlanet := planet8;
                PlayerController.minDistance := 32;
                PlayerController.escapeVelocity := 20;
                PlayerController.gravityFactor := 5 |})
  /\ Vector3.length (Vector3.mk 10 0 0) < Vector3.length (Vector3.mk 15 0 0)
  /\ exists pc1 b1 pc2 b2 pc3 b3,
       PlayerController.alignWithSurface
         (flying (Vector3.mk 40 0 0) (Vector3.mk 10 0 0))
         (Some Physics.constructor) [planet8] (Vector3.mk 1 0 0) (1 / 60) (5 / 100)
       = Ok (pc1, b1)
       /\ PlayerController.alignWithSurface
            (flying (Vector3.mk 40 0 0) (Vector3.mk 15 0 0))
            (Some Physics.constructor) [planet8] (Vector3.mk 1 0 0) (1 / 60)
            (5 / 100)
          = Ok (pc2, b2)
       /\ PlayerController.alignWithSurface
            (flying (Vector3.mk 40 0 0) (Vector3.mk 20 0 0))
            (Some Physics.constructor) [planet8] (Vector3.mk 1 0 0) (1 / 60)
            (5 / 100)
          = Ok (pc3, b3)
       /\ PlayerController.alignmentNeeded pc2
          < PlayerController.alignmentNeeded pc1
       /\ PlayerController.alignmentNeeded pc3 = 0.
Proof.
  assert (E : Rmax (1 / 10) 20 = 20) by (apply Rmax_right; lra).
  split; [exact scan_planet8|].
  split; [rewrite !length_along_x by lra; lra|].
  destruct (alignment_fades_toward_escape
              (Some Physics.constructor) [planet8] (Vector3.mk 40 0 0)
              (Vector3.mk 1 0 0) (1 / 60) (5 / 100) _
              (Vector3.mk 10 0 0) (Vector3.mk 15 0 0) (Vector3.mk 20 0 0)
              scan_planet8)
    as (pc1 & b1 & pc2 & b2 & pc3 & b3 & E1 & E2 & E3 & Hlt & Hzero & _);
    cbn [PlayerController.minDistance PlayerController.gravityFactor
         PlayerController.escapeVelocity];
    rewrite ?E, ?length_along_x by lra; try lra.
  exists pc1, b1, pc2, b2, pc3, b3; auto.
Defined.

(** C7 as stated fails: for the speck the escape velocity is 1/16, and
    at a speed of exactly 1/16 the stored alignment factor is 3/4 of
    its base value, not 0. *)
Lemma alignment_positive_at_escape_velocity :
  exists inf pc b,
    PlayerController.scanPlanets (Some Physics.constructor) (Vector3.mk 500 0 0)
                                 None [speck] = Ok (Some inf)
    /\ PlayerController.escapeVelocity inf = 1 / 16
    /\ PlayerController.minDistance inf <= 500
    /\ Vector3.length (Vector3.mk (1 / 16) 0 0) = 1 / 16
    /\ PlayerController.alignWithSurface
         (flying (Vector3.mk 500 0 0) (Vector3.mk (1 / 16) 0 0))
         (Some Physics.constructor) [speck] (Vector3.mk 1 0 0) (1 / 60) (5 / 100)
       = Ok (pc, b)
    /\ PlayerController.alignmentNeeded pc = 3 / 10240000
    /\ PlayerController.alignmentNeeded pc <> 0.
Proof.
  destruct (alignWithSurface_in_range
              (flying (Vector3.mk 500 0 0) (Vector3.mk (1 / 16) 0 0))
              (Some Physics.constructor) [speck] (Vector3.mk 1 0 0) (1 / 60)
              (5 / 100) _ eq_refl scan_speck)
    as (pc & b & E & A).
  { simpl; lra. }
  cbn [flying PlayerController.velocity PlayerController.onGround
       PlayerController.gravityFactor PlayerController.escapeVelocity] in A.
  rewrite length_along_x in A by lra.
  rewrite alignFactorOf_fading in A
    by (rewrite Rmax_left by lra; lra).
  rewrite Rmin_right, Rmax_left in A by lra.
  eexists; exists pc, b.
  split; [exact scan_speck|]. split; [reflexivity|].
  split; [simpl; lra|]. split; [apply length_along_x; lra|].
  split; [exact E|].
  split; [rewrite A; field | rewrite A; lra].
Qed.

(** * Further properties of the physics core *)

(** ** More on vectors *)

Lemma length_square (v : Vec) :
  Vector3.length v * Vector3.length v = Vector3.lengthSq v.
Proof. apply sqrt_sqrt, lengthSq_nonneg. Qed.

Lemma lengthSq_dot (v : Vec) : Vector3.lengthSq v = Vector3.dot v v.
Proof. reflexivity. Qed.

Lemma dot_comm (a b : Vec) : Vector3.dot a b = Vector3.dot b a.
Proof. unfold Vector3.dot; ring. Qed.

Lemma dot_multiplyScalar_l (a b : Vec) (s : R) :
  Vector3.dot (Vector3.multiplyScalar a s) b = s * Vector3.dot a b.
Proof. unfold Vector3.dot; simpl; ring. Qed.

Lemma dot_multiplyScalar_r (a b : Vec) (s : R) :
  Vector3.dot a (Vector3.multiplyScalar b s) = s * Vector3.dot a b.
Proof. unfold Vector3.dot; simpl; ring. Qed.

Lemma dot_sub_l (a b c : Vec) :
  Vector3.dot (Vector3.sub a b) c = Vector3.dot a c - Vector3.dot b c.
Proof. unfold Vector3.dot; simpl; ring. Qed.

Lemma dot_add_l (a b c : Vec) :
  Vector3.dot (Vector3.add a b) c = Vector3.dot a c + Vector3.dot b c.
Proof. unfold Vector3.dot; simpl; ring. Qed.

Lemma dot_unit (n : Vec) : Vector3.length n = 1 -> Vector3.dot n n = 1.
Proof. intros H; rewrite <- lengthSq_dot, <- length_square, H; ring. Qed.

Lemma length_le_of_lengthSq (a b : Vec) :
  Vector3.lengthSq a <= Vector3.lengthSq b -> Vector3.length a <= Vector3.length b.
Proof. intros H; unfold Vector3.length; now apply sqrt_le_1_alt. Qed.

(** Cauchy-Schwarz. *)
Lemma dot_squared_le (a b : Vec) :
  Vector3.dot a b * Vector3.dot a b <= Vector3.lengthSq a * Vector3.lengthSq b.
Proof.
  destruct a as [a1 a2 a3], b as [b1 b2 b3]; unfold Vector3.dot, Vector3.lengthSq;
    simpl.
  pose proof (sum_squares_nonneg (a1 * b2 - a2 * b1) (a2 * b3 - a3 * b2)
                                 (a3 * b1 - a1 * b3)) as H.
  lra.
Qed.

Lemma dot_le_lengths (a b : Vec) :
  Rabs (Vector3.dot a b) <= Vector3.length a * Vector3.length b.
Proof.
  pose proof (dot_squared_le a b) as H.
  pose proof (length_nonneg a) as Ha; pose proof (length_nonneg b) as Hb.
  rewrite <- (length_square a), <- (length_square b) in H.
  rewrite <- (Rabs_pos_eq (Vector3.length a * Vector3.length b))
    by (apply Rmult_le_pos; assumption).
  apply Rsqr_le_abs_0; unfold Rsqr; lra.
Qed.

(** The triangle inequality. *)
Lemma length_add_le (a b : Vec) :
  Vector3.length (Vector3.add a b) <= Vector3.length a + Vector3.length b.
Proof.
  pose proof (length_nonneg a) as Ha; pose proof (length_nonneg b) as Hb.
  rewrite <- (sqrt_square (Vector3.length a + Vector3.length b)) by lra.
  apply sqrt_le_1_alt.
  assert (E : Vector3.lengthSq (Vector3.add a b)
              = Vector3.lengthSq a + 2 * Vector3.dot a b + Vector3.lengthSq b)
    by (unfold Vector3.lengthSq, Vector3.dot; simpl; ring).
  pose proof (dot_le_lengths a b) as D.
  pose proof (Rle_abs (Vector3.dot a b)) as D'.
  rewrite E, <- (length_square a), <- (length_square b); nra.
Qed.

Lemma length_negate (v : Vec) : Vector3.length (Vector3.negate v) = Vector3.length v.
Proof.
  unfold Vector3.length; f_equal; unfold Vector3.lengthSq; simpl; ring.
Qed.

Lemma normalize_zero_length (v : Vec) :
  Vector3.length v = 0 -> Vector3.normalize v = Vector3.zero.
Proof.
  intros H; unfold Vector3.normalize, Vector3.divideScalar.
  rewrite H, orElse_zero.
  assert (Hs : Vector3.lengthSq v = 0).
  { apply sqrt_eq_0; [apply lengthSq_nonneg | exact H]. }
  apply sum_squares_zero in Hs as (Hx & Hy & Hz).
  apply vec_ext; simpl; rewrite ?Hx, ?Hy, ?Hz; field.
Qed.

(** [normalize] returns a unit vector, or the zero vector for the zero
    vector. *)
Lemma length_normalize_cases (v : Vec) :
  (Vector3.length v <> 0 /\ Vector3.length (Vector3.normalize v) = 1)
  \/ (Vector3.length v = 0 /\ Vector3.normalize v = Vector3.zero).
Proof.
  destruct (Req_dec_T (Vector3.length v) 0) as [H|H].
  - right; split; [assumption | now apply normalize_zero_length].
  - left; split; [assumption | now apply length_normalize].
Qed.

Lemma normalize_as_scale (v : Vec) :
  exists k, 0 < k /\ Vector3.normalize v = Vector3.multiplyScalar v k.
Proof.
  unfold Vector3.normalize, Vector3.divideScalar.
  pose proof (length_nonneg v) as Hn.
  destruct (Req_dec_T (Vector3.length v) 0) as [H|H].
  - rewrite H, orElse_zero; exists (1 / 1); split; [lra | reflexivity].
  - rewrite orElse_nonzero by assumption.
    eexists; split; [|reflexivity].
    apply Rdiv_lt_0_compat; lra.
Qed.

(** ** The nearest planet *)

Lemma surfaceDistance_hasRadius (pos : Vec) (m : Mesh.t) (d : R) :
  surfaceDistance pos m = Some d -> hasRadius m = true.
Proof.
  unfold surfaceDistance, hasRadius; destruct (Mesh.geometry m);
    intros H; try discriminate; reflexivity.
Qed.

(** What the scan keeps, against the bodies it has seen: [best] holds a
    body of the list at its surface distance, strictly nearer than every
    body before it and at least as near as every body after it. *)
Lemma forEachNearest_spec (pos : Vec) (planets : list Mesh.t) :
  forall acc n,
    Physics.forEachNearest pos acc planets = Ok n ->
    (n = acc
     /\ forall q dq, In q planets -> surfaceDistance pos q = Some dq ->
                     match acc with
                     | Some (_, d0) => d0 <= dq
                     | None => False
                     end)
    \/ exists p d l1 l2,
         n = Some (p, d) /\ planets = l1 ++ p :: l2
         /\ surfaceDistance pos p = Some d
         /\ match acc with Some (_, d0) => d < d0 | None => True end
         /\ (forall q dq, In q l1 -> surfaceDistance pos q = Some dq -> d < dq)
         /\ (forall q dq, In q l2 -> surfaceDistance pos q = Some dq -> d <= dq).
Proof.
  induction planets as [|m rest IH]; intros acc n E.
  - simpl in E; injection E as <-; left; split; [reflexivity|].
    intros q dq [].
  - simpl in E; unfold Physics.nearestStep, parametersRadius in E.
    destruct (Mesh.geometry m) as [| |r] eqn:G; simpl in E; [discriminate| |].
    + (* no radius: skipped *)
      destruct (IH acc n E) as [(-> & Hall)|(p & d & l1 & l2 & -> & -> & Hp & Hacc & H1 & H2)].
      * left; split; [reflexivity|].
        intros q dq [<-|Hin] Hq; [|exact (Hall q dq Hin Hq)].
        unfold surfaceDistance in Hq; rewrite G in Hq; discriminate.
      * right; exists p, d, (m :: l1), l2; repeat split; auto.
        intros q dq [<-|Hin] Hq; [|exact (H1 q dq Hin Hq)].
        unfold surfaceDistance in Hq; rewrite G in Hq; discriminate.
    + set (dm := Vector3.distanceTo pos (Mesh.position m) - r) in *.
      assert (Hm : surfaceDistance pos m = Some dm)
        by (unfold surfaceDistance; rewrite G; reflexivity).
      assert (Taken :
        forall n, Physics.forEachNearest pos (Some (m, dm)) rest = Ok n ->
                  match acc with Some (_, d0) => dm < d0 | None => True end ->
        exists p d l1 l2,
          n = Some (p, d) /\ m :: rest = l1 ++ p :: l2
          /\ surfaceDistance pos p = Some d
          /\ match acc with Some (_, d0) => d < d0 | None => True end
          /\ (forall q dq, In q l1 -> surfaceDistance pos q = Some dq -> d < dq)
          /\ (forall q dq, In q l2 -> surfaceDistance pos q = Some dq -> d <= dq)).
      { intros n' E' Hacc.
        destruct (IH _ n' E')
          as [(-> & Hall)|(p & d & l1 & l2 & -> & -> & Hp & Hlt & H1 & H2)].
        - exists m, dm, [], rest; repeat split; auto.
          intros q dq [].
        - exists p, d, (m :: l1), l2; repeat split; auto.
          + destruct acc as [[b0 d0]|]; [lra | exact I].
          + intros q dq [<-|Hin] Hq; [|exact (H1 q dq Hin Hq)].
            rewrite Hm in Hq; injection Hq as <-; exact Hlt. }
      destruct acc as [[b0 d0]|].
      * destruct (dm <? d0) eqn:C;
          [apply Rltb_true in C | apply Rltb_false in C].
        -- right; now apply Taken.
        -- destruct (IH _ n E)
             as [(-> & Hall)|(p & d & l1 & l2 & -> & -> & Hp & Hlt & H1 & H2)].
           ++ left; split; [reflexivity|].
              intros q dq [<-|Hin] Hq; [|exact (Hall q dq Hin Hq)].
              rewrite Hm in Hq; injection Hq as <-; exact C.
           ++ right; exists p, d, (m :: l1), l2; repeat split; auto.
              intros q dq [<-|Hin] Hq; [|exact (H1 q dq Hin Hq)].
              rewrite Hm in Hq; injection Hq as <-; lra.
      * right; now apply Taken.
Qed.

(** X1.  On a list of bodies that can all be read, [getNearestPlanet]
    returns.  Without any body with a radius it returns no planet.
    Otherwise it returns a body of the list together with its surface
    distance, which is strictly below the surface distance of every body
    before it in the list and at most that of every body after it: the
    first body of least surface distance. *)
Theorem getNearestPlanet_first_minimum (pos : Vec) (planets : list Mesh.t) :
  forallb hasParameters planets = true ->
  exists n,
    Physics.getNearestPlanet pos planets = Ok n
    /\ match n with
       | None => forall q, In q planets -> surfaceDistance pos q = None
       | Some (p, d) =>
           exists l1 l2,
             planets = l1 ++ p :: l2
             /\ surfaceDistance pos p = Some d
             /\ (forall q dq, In q l1 -> surfaceDistance pos q = Some dq ->
                              d < dq)
             /\ (forall q dq, In q l2 -> surfaceDistance pos q = Some dq ->
                              d <= dq)
       end.
Proof.
  intros Hall.
  destruct (getNearestPlanet_total pos planets Hall) as (n & E & _ & Hne).
  exists n; split; [exact E|].
  destruct (forEachNearest_spec pos planets None n E)
    as [(-> & Hnone)|(p & d & l1 & l2 & -> & -> & Hp & _ & H1 & H2)].
  - intros q Hin.
    destruct (surfaceDistance pos q) as [dq|] eqn:Hq; [|reflexivity].
    destruct (Hnone q dq Hin Hq).
  - exists l1, l2; auto.
Qed.

Lemma getNearestPlanet_first_minimum_witness :
  exists n,
    Physics.getNearestPlanet (Vector3.mk 40 0 0) [planet10; planet8] = Ok n
    /\ match n with
       | None => forall q, In q [planet10; planet8] ->
                           surfaceDistance (Vector3.mk 40 0 0) q = None
       | Some (p, d) =>
           exists l1 l2,
             [planet10; planet8] = l1 ++ p :: l2
             /\ surfaceDistance (Vector3.mk 40 0 0) p = Some d
             /\ (forall q dq, In q l1 ->
                              surfaceDistance (Vector3.mk 40 0 0) q = Some dq ->
                              d < dq)
             /\ (forall q dq, In q l2 ->
                              surfaceDistance (Vector3.mk 40 0 0) q = Some dq ->
                              d <= dq)
       end.
Proof.
  apply (getNearestPlanet_first_minimum (Vector3.mk 40 0 0) [planet10; planet8]).
  reflexivity.
Defined.

(** ** When a tick throws *)

Lemma forEachNearest_throws (pos : Vec) (planets : list Mesh.t) :
  forall acc, forallb hasParameters planets = false ->
  Physics.forEachNearest pos acc planets = Throw TypeError.
Proof.
  induction planets as [|m rest IH]; intros acc H; simpl in H; [discriminate|].
  simpl; unfold Physics.nearestStep, parametersRadius.
  unfold hasParameters in H at 1.
  destruct (Mesh.geometry m); simpl in *; try reflexivity.
  - now apply IH.
  - destruct acc as [[b0 d0]|]; [destruct (_ <? d0)|]; now apply IH.
Qed.

Lemma applyJetpack_total
    (ph : Physics.t) (env : EnvironmentResult) (controls : ControlsState)
    (camera : Camera) (planets : list Mesh.t) (deltaTime : R)
    (pos vel : Vec) (f : R) :
  forallb hasParameters planets = true ->
  exists out,
    Physics.applyJetpack ph env controls camera planets deltaTime pos vel f
    = Ok out.
Proof.
  intros Hall; unfold Physics.applyJetpack.
  destruct (jetpack controls && (f >? 0)); [|eauto].
  destruct (Physics.nearPlanet env); [|simpl; eauto].
  destruct (calculateUpDirection_total ph pos planets Hall) as (up & ->).
  simpl; eauto.
Qed.

Lemma applyDownThrusters_total
    (ph : Physics.t) (env : EnvironmentResult) (controls : ControlsState)
    (camera : Camera) (planets : list Mesh.t) (deltaTime : R)
    (pos vel : Vec) (f : R) :
  forallb hasParameters planets = true ->
  exists out,
    Physics.applyDownThrusters ph env controls camera planets deltaTime pos vel f
    = Ok out.
Proof.
  intros Hall; unfold Physics.applyDownThrusters.
  destruct (downThrusters controls && (f >? 0)); [|eauto].
  destruct (Physics.nearPlanet env); [|simpl; eauto].
  destruct (calculateUpDirection_total ph pos planets Hall) as (up & ->).
  simpl; eauto.
Qed.

Lemma updatePlayerPhysics_total
    (ph : Physics.t) (player : Player) (controls : ControlsState)
    (deltaTime : R) (planets : list Mesh.t) (sun : option Mesh.t)
    (camera : Camera) (gameState : GameState) :
  forallb hasParameters planets = true ->
  exists out,
    Physics.updatePlayerPhysics ph player controls deltaTime planets sun
                                camera gameState = Ok out.
Proof.
  intros Hall; unfold Physics.updatePlayerPhysics.
  set (player0 := Physics.updateStamina player controls deltaTime).
  destruct (noclip gameState).
  - destruct (Physics.noclipStep _ _ _ _ _); eauto.
  - destruct (calculateUpDirection_total ph (p_position player0) planets Hall)
      as (up & ->); cbn [bind].
    destruct (checkPlayerEnvironment_total ph (p_position player0) planets Hall)
      as (env & ph' & -> & Hok); cbn [bind].
    destruct (zoneDrag_total ph env Hok) as (drag & ->); cbn [bind].
    match goal with
    | |- context [Physics.applyJetpack ?a ?b ?c ?d ?e ?f ?g ?h ?i] =>
        destruct (applyJetpack_total a b c d e f g h i Hall) as ([v1 f1] & ->)
    end; cbn [bind].
    match goal with
    | |- context [Physics.applyDownThrusters ?a ?b ?c ?d ?e ?f ?g ?h ?i] =>
        destruct (applyDownThrusters_total a b c d e f g h i Hall)
          as ([v2 f2] & ->)
    end; cbn [bind].
    unfold Physics.handlePlanetCollisions.
    destruct (collisionLoop_total planets (p_position player0) v2 Hall)
      as (col & pos' & vel' & ->); cbn [bind].
    eauto.
Qed.

(** X2.  Outside noclip a tick of [updatePlayerPhysics] returns exactly
    when every planet's geometry has [parameters]; a single planet
    without them makes it end in a TypeError, wherever it stands in the
    list and however far away it is.  The sun never makes it fail, and
    in noclip the tick returns whatever the planets are. *)
Theorem updatePlayerPhysics_throws_iff
    (ph : Physics.t) (player : Player) (controls : ControlsState)
    (deltaTime : R) (planets : list Mesh.t) (sun : option Mesh.t)
    (camera : Camera) :
  ((exists out,
       Physics.updatePlayerPhysics ph player controls deltaTime planets sun
                                   camera (mkGameState false) = Ok out)
   <-> forallb hasParameters planets = true)
  /\ (Physics.updatePlayerPhysics ph player controls deltaTime planets sun
                                  camera (mkGameState false) = Throw TypeError
      <-> forallb hasParameters planets = false)
  /\ exists out,
       Physics.updatePlayerPhysics ph player controls deltaTime planets sun
                                   camera (mkGameState true) = Ok out.
Proof.
  assert (Hthrow : forallb hasParameters planets = false ->
                   Physics.updatePlayerPhysics ph player controls deltaTime
                     planets sun camera (mkGameState false) = Throw TypeError).
  { intros H; unfold Physics.updatePlayerPhysics; cbn [noclip].
    unfold Physics.calculateUpDirection, Physics.getNearestPlanet.
    now rewrite forEachNearest_throws. }
  split; [|split].
  - split.
    + intros (out & E).
      destruct (forallb hasParameters planets) eqn:H; [reflexivity|].
      rewrite Hthrow in E by reflexivity; discriminate.
    + apply updatePlayerPhysics_total.
  - split; [|exact Hthrow].
    intros E.
    destruct (forallb hasParameters planets) eqn:H; [|reflexivity].
    destruct (updatePlayerPhysics_total ph player controls deltaTime planets sun
                camera (mkGameState false) H) as (out & E').
    rewrite E' in E; discriminate.
  - unfold Physics.updatePlayerPhysics; cbn [noclip].
    destruct (Physics.noclipStep _ _ _ _ _); eauto.
Qed.

(** ** The zones of the environment *)

Lemma getNearestPlanet_single (pos center : Vec) (radius : R) :
  Physics.getNearestPlanet pos [sphere center radius]
  = Ok (Some (sphere center radius, Vector3.distanceTo pos center - radius)).
Proof. reflexivity. Qed.

(** Three ticks at 30 units above a planet of radius 10 with Surface
    stored: Surface, Surface, and deep space on the third. *)
Lemma zone_switch_delay_witness :
  exists env1 ph1 env2 ph2 env3 ph3,
    Physics.checkPlayerEnvironment
      (Physics.setZone Physics.constructor (Some Surface) 0)
      (Vector3.mk 40 0 0) [planet10] = Ok (env1, ph1)
    /\ Physics.checkPlayerEnvironment ph1 (Vector3.mk 40 0 0) [planet10]
       = Ok (env2, ph2)
    /\ Physics.checkPlayerEnvironment ph2 (Vector3.mk 40 0 0) [planet10]
       = Ok (env3, ph3)
    /\ atmosphereZone env1 = Surface
    /\ atmosphereZone env2 = Surface
    /\ atmosphereZone env3 = DeepSpace
    /\ Physics.lastZone ph3 = Some DeepSpace
    /\ Physics.zoneSwitchDelay ph3 = 0%nat.
Proof.
  set (ph := Physics.setZone Physics.constructor (Some Surface) 0).
  set (d := Vector3.distanceTo (Vector3.mk 40 0 0) (Vector3.mk 0 0 0) - 10).
  assert (Hd : d = 30) by (unfold d; rewrite distanceTo_along_x; lra).
  assert (Hdeep : forall ph',
             Physics.atmosphereRatio ph' = 125 / 100 ->
             Physics.outerAtmosphereRatio ph' = 15 / 10 ->
             Physics.zoneHysteresis ph' = 1 ->
             proposalAt ph' d 10 = DeepSpace).
  { intros ph' Ha Ho Hh.
    apply proposalAt_deep_space;
      rewrite ?Ha, ?Ho, ?Hh, ?Hd; unfold Physics.groundThreshold; lra. }
  destruct (zone_switch_delay ph Surface
              (Vector3.mk 40 0 0) (Vector3.mk 40 0 0) (Vector3.mk 40 0 0)
              [planet10] [planet10] [planet10] planet10 planet10 planet10
              d d d 10 10 10
              (getNearestPlanet_single _ _ _) (getNearestPlanet_single _ _ _)
              (getNearestPlanet_single _ _ _) eq_refl eq_refl eq_refl eq_refl)
    as (env1 & ph1 & env2 & ph2 & env3 & ph3
        & E1 & E2 & E3 & _ & _ & _ & Fresh & _).
  destruct (Fresh eq_refl) as (Z1 & Z2 & _ & Hswitch & _).
  pose proof (checkPlayerEnvironment_instance _ _ _ _ _ E1) as (z1 & k1 & T1).
  pose proof (checkPlayerEnvironment_instance _ _ _ _ _ E2) as (z2 & k2 & T2).
  assert (P1 : proposalAt ph d 10 = DeepSpace) by now apply Hdeep.
  assert (P2 : proposalAt ph1 d 10 = DeepSpace)
    by (apply Hdeep; rewrite T1; reflexivity).
  assert (P3 : proposalAt ph2 d 10 = DeepSpace)
    by (apply Hdeep; rewrite T2, T1; reflexivity).
  rewrite P1, P2, P3 in Hswitch.
  destruct Hswitch as (_ & _ & Z3 & L3 & D3); try discriminate.
  exists env1, ph1, env2, ph2, env3, ph3.
  repeat split; assumption.
Defined.

(** X3.  With a nearest planet of nonnegative radius and the atmosphere
    ratio at most the outer ratio (1.25 and 1.5 after construction),
    [checkPlayerEnvironment] returns; exactly one of inSpace,
    inTransition and inAtmosphere holds; the transition factor lies in
    [0, 1], is 1 in space and 0 in the atmosphere, and is positive in
    the transition band. *)
Theorem checkPlayerEnvironment_bands
    (ph : Physics.t) (pos : Vec) (planets : list Mesh.t)
    (planet : Mesh.t) (d radius : R) :
  Physics.getNearestPlanet pos planets = Ok (Some (planet, d)) ->
  Mesh.geometry planet = SphereGeometry radius ->
  0 <= radius ->
  Physics.atmosphereRatio ph <= Physics.outerAtmosphereRatio ph ->
  exists env ph' tf,
    Physics.checkPlayerEnvironment ph pos planets = Ok (env, ph')
    /\ nearest env = Some (planet, d)
    /\ transitionFactor env = Some tf
    /\ 0 <= tf <= 1
    /\ ((inSpace env = true /\ inTransition env = Some false
         /\ inAtmosphere env = Some false /\ tf = 1
         /\ radius * Physics.outerAtmosphereRatio ph < d)
        \/ (inSpace env = false /\ inTransition env = Some true
            /\ inAtmosphere env = Some false /\ 0 < tf
            /\ radius * Physics.atmosphereRatio ph < d
               <= radius * Physics.outerAtmosphereRatio ph)
        \/ (inSpace env = false /\ inTransition env = Some false
            /\ inAtmosphere env = Some true /\ tf = 0
            /\ d <= radius * Physics.atmosphereRatio ph)).
Proof.
  intros Hn G Hr Hratio; unfold Physics.checkPlayerEnvironment.
  rewrite Hn; cbn [bind]; unfold parametersRadius.
  rewrite G; cbn [bind option_map].
  match goal with
  | |- context [Physics.delayZoneSwitch ph ?p] =>
      destruct (Physics.delayZoneSwitch ph p) as [zone ph']
  end.
  unfold Physics.gtThreshold, Physics.leThreshold.
  set (a := radius * Physics.atmosphereRatio ph).
  set (o := radius * Physics.outerAtmosphereRatio ph).
  assert (Hao : a <= o) by (unfold a, o; nra).
  do 3 eexists; split; [reflexivity|]; cbn.
  split; [reflexivity|]. split; [reflexivity|].
  destruct (d >? o) eqn:Co; [apply Rgtb_true in Co | apply Rgtb_false in Co].
  - rewrite (proj2 (Rleb_false d o)) by lra.
    rewrite (proj2 (Rleb_false d a)) by lra; cbn.
    split; [lra|]. left; repeat split; auto.
  - rewrite (proj2 (Rleb_true d o)) by lra; cbn.
    destruct (d >? a) eqn:Ca; [apply Rgtb_true in Ca | apply Rgtb_false in Ca].
    + rewrite (proj2 (Rleb_false d a)) by lra.
      assert (Hden : 0 < o - a) by lra.
      assert (Htf : 0 < (d - a) / (o - a) <= 1).
      { split.
        - apply Rdiv_lt_0_compat; lra.
        - apply Rmult_le_reg_r with (o - a); [lra|].
          unfold Rdiv; rewrite Rmult_assoc, Rinv_l by lra; lra. }
      split; [lra|]. right; left; repeat split; auto; lra.
    + rewrite (proj2 (Rleb_true d a)) by lra.
      split; [lra|]. right; right; repeat split; auto.
Qed.

Lemma checkPlayerEnvironment_bands_witness :
  Physics.getNearestPlanet (Vector3.mk 40 0 0) [planet10]
  = Ok (Some (planet10, Vector3.distanceTo (Vector3.mk 40 0 0) (Vector3.mk 0 0 0)
                        - 10))
  /\ exists env ph' tf,
       Physics.checkPlayerEnvironment Physics.constructor (Vector3.mk 40 0 0)
                                      [planet10] = Ok (env, ph')
       /\ transitionFactor env = Some tf
       /\ 0 <= tf <= 1.
Proof.
  split; [apply getNearestPlanet_single|].
  destruct (checkPlayerEnvironment_bands Physics.constructor (Vector3.mk 40 0 0)
              [planet10] planet10 _ 10
              (getNearestPlanet_single _ _ _) eq_refl)
    as (env & ph' & tf & E & _ & T & R & _); try (simpl; lra).
  exists env, ph', tf; auto.
Defined.

(** ** The zone at rest *)

(** Proposing again from the proposed zone changes nothing. *)
Lemma proposalAt_idempotent (ph : Physics.t) (d r : R) (k : nat) :
  0 <= Physics.zoneHysteresis ph ->
  proposalAt (Physics.setZone ph (Some (proposalAt ph d r)) k) d r
  = proposalAt ph d r.
Proof.
  intros Hh.
  unfold proposalAt, Physics.proposedZone, Physics.ltScaled,
    Physics.leThreshold, Physics.gtThreshold, Physics.groundThreshold.
  cbn [Physics.setZone Physics.lastZone Physics.zoneHysteresis
       Physics.atmosphereRatio Physics.outerAtmosphereRatio].
  set (h := Physics.zoneHysteresis ph) in *.
  destruct (Physics.isSurface (Physics.lastZone ph));
    destruct (d <? 8 / 10 + h) eqn:C1;
    destruct (d <? 8 / 10) eqn:C0;
    destruct (d <? r * Physics.atmosphereRatio ph * (3 / 10)) eqn:C2;
    destruct (d <? 8 / 10 + h * 3) eqn:C3;
    destruct (d <=? r * Physics.atmosphereRatio ph) eqn:C4;
    destruct ((d <=? r * Physics.outerAtmosphereRatio ph)
              && (d >? r * Physics.atmosphereRatio ph)) eqn:C5;
    cbn; try reflexivity;
    exfalso;
    repeat match goal with
      | H : (_ <? _) = true |- _ => apply Rltb_true in H
      | H : (_ <? _) = false |- _ => apply Rltb_false in H
      end;
    lra.
Qed.

Section AtRest.

Variables (ph0 : Physics.t) (pos : Vec) (planets : list Mesh.t).
Variables (planet : Mesh.t) (d r : R).
Hypothesis nearest_here :
  Physics.getNearestPlanet pos planets = Ok (Some (planet, d)).
Hypothesis planet_sphere : Mesh.geometry planet = SphereGeometry r.
Hypothesis hysteresis_nonneg : 0 <= Physics.zoneHysteresis ph0.

(** The proposal depends on the instance through the stored zone only. *)
Let Q (z : option Zone) : Zone := proposalAt (Physics.setZone ph0 z 0) d r.

Lemma Q_idempotent (z : option Zone) : Q (Some (Q z)) = Q z.
Proof.
  unfold Q.
  exact (proposalAt_idempotent (Physics.setZone ph0 z 0) d r 0
                               hysteresis_nonneg).
Qed.

Lemma check_at_rest (z : option Zone) (k : nat) :
  exists env,
    Physics.checkPlayerEnvironment (Physics.setZone ph0 z k) pos planets
    = Ok (env, snd (Physics.delayZoneSwitch (Physics.setZone ph0 z k) (Q z)))
    /\ atmosphereZone env
       = fst (Physics.delayZoneSwitch (Physics.setZone ph0 z k) (Q z)).
Proof.
  exact (checkPlayerEnvironment_proposal (Physics.setZone ph0 z k) pos planets
           planet d r nearest_here planet_sphere).
Qed.

(** Once the stored zone is the proposed one, every call reports it. *)
Lemma repeatCheck_stable (z : Zone) :
  Q (Some z) = z ->
  forall n k,
    exists k',
      repeatCheck n (Physics.setZone ph0 (Some z) k) pos planets
      = Ok (repeat z n, Physics.setZone ph0 (Some z) k').
Proof.
  intros Hz; induction n as [|n IH]; intros k.
  - exists k; reflexivity.
  - destruct (check_at_rest (Some z) k) as (env & E & Z).
    rewrite Hz in E, Z.
    rewrite (delayZoneSwitch_same (Physics.setZone ph0 (Some z) k) z eq_refl)
      in E, Z.
    cbn [fst snd] in E, Z.
    change (Physics.setZone (Physics.setZone ph0 (Some z) k) (Some z) 0)
      with (Physics.setZone ph0 (Some z) 0) in E.
    destruct (IH 0%nat) as (k' & En).
    exists k'; cbn [repeatCheck]; rewrite E; cbn [bind].
    rewrite En; cbn [bind]; rewrite Z; reflexivity.
Qed.

(** One call from any state: the zone reported and the state left. *)
Lemma check_step (z : option Zone) (k : nat) :
  exists env z' k',
    Physics.checkPlayerEnvironment (Physics.setZone ph0 z k) pos planets
    = Ok (env, Physics.setZone ph0 (Some z') k')
    /\ atmosphereZone env = z'
    /\ Q z = Q (Some z')
    /\ (Q (Some z') = z' \/ (z = Some z' /\ k' = S k /\ (S k < 3)%nat)).
Proof.
  destruct (check_at_rest z k) as (env & E & Z).
  destruct z as [z|].
  - destruct (delayZoneSwitch_cases (Physics.setZone ph0 (Some z) k) z
                                    (Q (Some z)) eq_refl)
      as [(Hp & D)|[(Hp & Hlt & D)|(Hp & Hge & D)]];
      rewrite D in E, Z; cbn [fst snd] in E, Z.
    + exists env, z, 0%nat; repeat split; auto.
    + exists env, z, (S k); repeat split; auto.
    + exists env, (Q (Some z)), 0%nat; repeat split; auto.
      * symmetry; apply Q_idempotent.
      * left; apply Q_idempotent.
  - exists env, (Q None), 0%nat; repeat split; auto.
    + symmetry; apply Q_idempotent.
    + left; apply Q_idempotent.
Qed.

(** From any state, at a fixed position, the third call and all later
    ones report one and the same zone. *)
Lemma repeatCheck_settles (z : option Zone) (k n : nat) :
  exists early k',
    repeatCheck (2 + S n) (Physics.setZone ph0 z k) pos planets
    = Ok (early ++ repeat (Q z) (S n), Physics.setZone ph0 (Some (Q z)) k')
    /\ length early = 2%nat.
Proof.
  destruct (check_step z k) as (env1 & z1 & k1 & E1 & Z1 & Q1 & C1).
  destruct (check_step (Some z1) k1) as (env2 & z2 & k2 & E2 & Z2 & Q2 & C2).
  destruct (check_step (Some z2) k2) as (env3 & z3 & k3 & E3 & Z3 & Q3 & C3).
  assert (Hz3 : z3 = Q z /\ Q (Some z3) = z3).
  { destruct C3 as [C3|(C3 & -> & Hlt)]; [split; congruence|].
    injection C3 as <-.
    destruct C2 as [C2|(C2 & -> & Hlt2)]; [split; congruence|].
    injection C2 as <-.
    destruct C1 as [C1|(C1 & -> & Hlt1)]; [split; congruence|].
    lia. }
  destruct Hz3 as (-> & Hstable).
  destruct (repeatCheck_stable (Q z) Hstable n k3) as (k' & En).
  exists [z1; z2], k'; split; [|reflexivity].
  cbn [repeatCheck Nat.add].
  rewrite E1; cbn [bind]. rewrite E2; cbn [bind]. rewrite E3; cbn [bind].
  rewrite En; cbn [bind]. rewrite Z1, Z2, Z3; reflexivity.
Qed.

End AtRest.

(** X4.  The classification settles at rest.  With a populated planet
    list and a nonnegative hysteresis band, calling
    [checkPlayerEnvironment] again and again at one position, from any
    stored zone and any counter value, reports from the third call on
    one and the same zone, which is then also the stored one. *)
Theorem zone_settles_at_rest
    (ph : Physics.t) (pos : Vec) (planets : list Mesh.t) (n : nat) :
  populated planets = true ->
  0 <= Physics.zoneHysteresis ph ->
  exists early z ph',
    repeatCheck (2 + S n) ph pos planets = Ok (early ++ repeat z (S n), ph')
    /\ length early = 2%nat
    /\ Physics.lastZone ph' = Some z.
Proof.
  intros Hpop Hh.
  apply andb_true_iff in Hpop as [Hall Hex].
  destruct (getNearestPlanet_total pos planets Hall) as (near & E & Hok & Hne).
  specialize (Hne Hex).
  destruct near as [[planet d]|]; [|congruence].
  simpl in Hok; unfold hasRadius in Hok.
  destruct (Mesh.geometry planet) as [| |r] eqn:G; try discriminate.
  destruct (repeatCheck_settles ph pos planets planet d r E G Hh
              (Physics.lastZone ph) (Physics.zoneSwitchDelay ph) n)
    as (early & k' & Hrun & Hlen).
  rewrite setZone_eta in Hrun.
  do 3 eexists; split; [exact Hrun|]. split; [exact Hlen | reflexivity].
Qed.

Lemma zone_settles_at_rest_witness :
  populated [planet10] = true
  /\ 0 <= Physics.zoneHysteresis Physics.constructor
  /\ exists early z ph',
       repeatCheck 5 (Physics.setZone Physics.constructor (Some Surface) 1)
                   (Vector3.mk 40 0 0) [planet10]
       = Ok (early ++ repeat z 3, ph')
       /\ length early = 2%nat
       /\ Physics.lastZone ph' = Some z.
Proof.
  split; [reflexivity|]. split; [simpl; lra|].
  apply (zone_settles_at_rest
           (Physics.setZone Physics.constructor (Some Surface) 1)
           (Vector3.mk 40 0 0) [planet10] 2).
  - reflexivity.
  - simpl; lra.
Defined.

(** ** More on collisions *)

Lemma collisionLoop_first_match (planets : list Mesh.t) :
  forall pos vel res pos' vel',
    Physics.collisionLoop pos vel planets = Ok (res, pos', vel') ->
    match collidedPlanet res with
    | None =>
        res = noCollision /\ pos' = pos /\ vel' = vel
        /\ forall q dq, In q planets -> surfaceDistance pos q = Some dq ->
                        5 / 10 <= dq
    | Some p =>
        exists l1 l2 radius,
          planets = l1 ++ p :: l2
          /\ Mesh.geometry p = SphereGeometry radius
          /\ Vector3.distanceTo pos (Mesh.position p) - radius < 5 / 10
          /\ (forall q dq, In q l1 -> surfaceDistance pos q = Some dq ->
                           5 / 10 <= dq)
          /\ (res, pos', vel') = collisionHit pos vel p radius
    end.
Proof.
  induction planets as [|m rest IH]; intros pos vel res pos' vel' E.
  - simpl in E; injection E as <- <- <-; simpl.
    repeat split; auto. intros q dq [].
  - simpl in E; unfold parametersRadius in E.
    destruct (Mesh.geometry m) as [| |radius] eqn:G; simpl in E;
      [discriminate| |].
    + (* no radius: the comparison with NaN fails *)
      specialize (IH _ _ _ _ _ E).
      destruct (collidedPlanet res) as [p|].
      * destruct IH as (l1 & l2 & rp & -> & Gp & Hlt & H1 & Hit).
        exists (m :: l1), l2, rp; repeat split; auto.
        intros q dq [<-|Hin] Hq; [|exact (H1 q dq Hin Hq)].
        unfold surfaceDistance in Hq; rewrite G in Hq; discriminate.
      * destruct IH as (-> & -> & -> & Hall); repeat split; auto.
        intros q dq [<-|Hin] Hq; [|exact (Hall q dq Hin Hq)].
        unfold surfaceDistance in Hq; rewrite G in Hq; discriminate.
    + fold Physics.groundCollisionRadius in E.
      destruct (_ <? Physics.groundCollisionRadius) eqn:L;
        [apply Rltb_true in L | apply Rltb_false in L];
        unfold Physics.groundCollisionRadius in L.
      * injection E as <- <- <-; cbn [collidedPlanet].
        exists [], rest, radius; repeat split; auto.
        intros q dq [].
      * assert (Hm : surfaceDistance pos m
                     = Some (Vector3.distanceTo pos (Mesh.position m) - radius))
          by (unfold surfaceDistance; now rewrite G).
        specialize (IH _ _ _ _ _ E).
        destruct (collidedPlanet res) as [p|].
        -- destruct IH as (l1 & l2 & rp & -> & Gp & Hlt & H1 & Hit).
           exists (m :: l1), l2, rp; repeat split; auto.
           intros q dq [<-|Hin] Hq; [|exact (H1 q dq Hin Hq)].
           rewrite Hm in Hq; injection Hq as <-; exact L.
        -- destruct IH as (-> & -> & -> & Hall); repeat split; auto.
           intros q dq [<-|Hin] Hq; [|exact (Hall q dq Hin Hq)].
           rewrite Hm in Hq; injection Hq as <-; exact L.
Qed.

(** X5.  On bodies that can all be read, [handlePlanetCollisions]
    returns.  It resolves against the first body in list order whose
    surface is closer than 0.5, even when a later body is closer still;
    when no body is that close it reports no collision and leaves
    position and velocity as they are. *)
Theorem handlePlanetCollisions_first_match
    (pos vel : Vec) (planets : list Mesh.t) (r : R) :
  forallb hasParameters planets = true ->
  exists res pos' vel',
    Physics.handlePlanetCollisions pos vel planets r = Ok (res, pos', vel')
    /\ match collidedPlanet res with
       | None =>
           res = noCollision /\ pos' = pos /\ vel' = vel
           /\ forall q dq, In q planets -> surfaceDistance pos q = Some dq ->
                           5 / 10 <= dq
       | Some p =>
           exists l1 l2 radius,
             planets = l1 ++ p :: l2
             /\ Mesh.geometry p = SphereGeometry radius
             /\ Vector3.distanceTo pos (Mesh.position p) - radius < 5 / 10
             /\ (forall q dq, In q l1 -> surfaceDistance pos q = Some dq ->
                              5 / 10 <= dq)
             /\ (res, pos', vel') = collisionHit pos vel p radius
       end.
Proof.
  intros Hall; unfold Physics.handlePlanetCollisions.
  destruct (collisionLoop_total planets pos vel Hall) as (res & pos' & vel' & E).
  exists res, pos', vel'; split; [exact E|].
  now apply collisionLoop_first_match.
Qed.

Lemma handlePlanetCollisions_first_match_witness :
  exists res pos' vel',
    Physics.handlePlanetCollisions lowPosition fallingVelocity
                                   [planet10; planet8] 2 = Ok (res, pos', vel')
    /\ collidedPlanet res = Some planet10.
Proof.
  destruct (handlePlanetCollisions_first_match lowPosition fallingVelocity
              [planet10; planet8] 2 eq_refl)
    as (res & pos' & vel' & E & Hm).
  exists res, pos', vel'; split; [exact E|].
  unfold Physics.handlePlanetCollisions in E.
  rewrite (collisionLoop_sphere _ _ planet10 10) in E by reflexivity.
  cbn [planet10 sphere Mesh.position] in E; unfold lowPosition in E.
  rewrite distanceTo_along_x in E by lra.
  rewrite (proj2 (Rltb_true (41 / 4 - 10) (5 / 10))) in E by lra.
  injection E as <- _ _; reflexivity.
Defined.

Lemma lengthSq_tangential (v n : Vec) :
  Vector3.length n = 1 ->
  Vector3.lengthSq
    (Vector3.sub v (Vector3.multiplyScalar n (Vector3.dot v n)))
  = Vector3.lengthSq v - Vector3.dot v n * Vector3.dot v n.
Proof.
  intros Hn; apply dot_unit in Hn.
  unfold Vector3.lengthSq, Vector3.dot in *; simpl.
  set (c := Vector3.x v * Vector3.x n + Vector3.y v * Vector3.y n
            + Vector3.z v * Vector3.z n) in *.
  replace ((Vector3.x v - Vector3.x n * c) * (Vector3.x v - Vector3.x n * c)
           + (Vector3.y v - Vector3.y n * c) * (Vector3.y v - Vector3.y n * c)
           + (Vector3.z v - Vector3.z n * c) * (Vector3.z v - Vector3.z n * c))
    with (Vector3.x v * Vector3.x v + Vector3.y v * Vector3.y v
          + Vector3.z v * Vector3.z v - 2 * c * c
          + c * c * (Vector3.x n * Vector3.x n + Vector3.y n * Vector3.y n
                     + Vector3.z n * Vector3.z n))
    by (unfold c; ring).
  rewrite Hn; ring.
Qed.

Lemma dot_tangential (v n : Vec) :
  Vector3.length n = 1 ->
  Vector3.dot (Vector3.sub v (Vector3.multiplyScalar n (Vector3.dot v n))) n = 0.
Proof.
  intros Hn; apply dot_unit in Hn.
  rewrite dot_sub_l, dot_multiplyScalar_l, Hn; ring.
Qed.

Lemma length_tangential_le (v n : Vec) :
  Vector3.length n = 1 ->
  Vector3.length (Vector3.sub v (Vector3.multiplyScalar n (Vector3.dot v n)))
  <= Vector3.length v.
Proof.
  intros Hn; apply length_le_of_lengthSq.
  rewrite lengthSq_tangential by assumption.
  pose proof (Rle_0_sqr (Vector3.dot v n)) as H; unfold Rsqr in H; lra.
Qed.

(** X6.  The velocity after a hit.  When a collision with a planet is
    resolved (the avatar not at the planet's very centre), the reported
    surface normal is the unit vector from the centre to the avatar, the
    corrected velocity has no component into the planet (exactly none
    along the normal if it was approaching, and it is untouched if it
    was not), and its length is at most that of the velocity before. *)
Theorem collision_velocity_response
    (pos vel : Vec) (planets : list Mesh.t) (r : R)
    (res : CollisionResult) (pos' vel' : Vec) (planet : Mesh.t) :
  Physics.handlePlanetCollisions pos vel planets r = Ok (res, pos', vel') ->
  collidedPlanet res = Some planet ->
  pos <> Mesh.position planet ->
  let normal := Vector3.normalize (Vector3.subVectors pos (Mesh.position planet)) in
  surfaceNormal res = Some normal
  /\ Vector3.length normal = 1
  /\ 0 <= Vector3.dot vel' normal
  /\ Vector3.length vel' <= Vector3.length vel
  /\ (Vector3.dot vel normal < 0 -> Vector3.dot vel' normal = 0)
  /\ (0 <= Vector3.dot vel normal -> vel' = vel).
Proof.
  unfold Physics.handlePlanetCollisions; intros E Hc Hne; cbv zeta.
  set (normal := Vector3.normalize
                   (Vector3.subVectors pos (Mesh.position planet))).
  destruct (collisionLoop_hit planets pos vel res pos' vel' planet E Hc)
    as (radius & G & Hlt & Hit).
  unfold collisionHit in Hit; fold normal in Hit.
  injection Hit as -> -> ->.
  assert (Hn : Vector3.length normal = 1).
  { apply length_normalize.
    change (Vector3.length (Vector3.sub pos (Mesh.position planet)) <> 0).
    rewrite <- distanceTo_length.
    intros H0; apply Hne; now apply distanceTo_zero. }
  split; [reflexivity|]. split; [exact Hn|].
  destruct (Vector3.dot vel normal <? 0) eqn:C;
    [apply Rltb_true in C | apply Rltb_false in C].
  - assert (D0 : Vector3.dot
                   (Vector3.multiplyScalar
                      (Vector3.sub vel
                         (Vector3.multiplyScalar normal (Vector3.dot vel normal)))
                      (8 / 10)) normal = 0).
    { rewrite dot_multiplyScalar_l, dot_tangential by assumption; ring. }
    repeat split.
    + rewrite D0; lra.
    + rewrite length_multiplyScalar, Rabs_pos_eq by lra.
      pose proof (length_tangential_le vel normal Hn) as T.
      pose proof (length_nonneg
                    (Vector3.sub vel
                       (Vector3.multiplyScalar normal (Vector3.dot vel normal)))).
      lra.
    + intros _; exact D0.
    + intros H; lra.
  - repeat split; auto; try lra.
Qed.

Lemma collision_velocity_response_witness :
  lowPosition <> Mesh.position planet10
  /\ Vector3.length (Vector3.mk 0 0 0) <= Vector3.length fallingVelocity.
Proof.
  assert (Hne : lowPosition <> Mesh.position planet10).
  { unfold lowPosition; simpl; intros H; injection H as H; lra. }
  split; [exact Hne|].
  apply (collision_velocity_response lowPosition fallingVelocity [planet10]
           2 _ _ _ planet10 (sample_first_call 2) eq_refl Hne).
Defined.

(** ** More on gravity *)

Lemma add_comm (a b : Vec) : Vector3.add a b = Vector3.add b a.
Proof. apply vec_ext; simpl; ring. Qed.

Lemma add_assoc (a b c : Vec) :
  Vector3.add (Vector3.add a b) c = Vector3.add a (Vector3.add b c).
Proof. apply vec_ext; simpl; ring. Qed.

Lemma add_zero_r (v : Vec) : Vector3.add v Vector3.zero = v.
Proof. apply vec_ext; simpl; ring. Qed.

(** A step of the sum adds a vector that does not depend on the sum so
    far. *)
Lemma gravityStep_add (ph : Physics.t) (pos : Vec) (mass : R) (acc : Vec)
    (body : Mesh.t) :
  Physics.gravityStep ph pos mass acc body
  = Vector3.add acc (Physics.gravityStep ph pos mass Vector3.zero body).
Proof.
  unfold Physics.gravityStep.
  destruct (Physics.bodyGravity ph pos mass body) as [c|].
  - now rewrite add_zero_l.
  - now rewrite add_zero_r.
Qed.

Lemma gravity_fold (ph : Physics.t) (pos : Vec) (mass : R) (bodies : list Mesh.t) :
  forall acc,
    fold_left (Physics.gravityStep ph pos mass) bodies acc
    = Vector3.add acc (Physics.getGravityForce ph pos bodies mass).
Proof.
  unfold Physics.getGravityForce.
  induction bodies as [|b rest IH]; intros acc; simpl.
  - now rewrite add_zero_r.
  - rewrite IH, (IH (Physics.gravityStep ph pos mass Vector3.zero b)).
    rewrite (gravityStep_add ph pos mass acc b); apply add_assoc.
Qed.

Lemma getGravityForce_cons (ph : Physics.t) (pos : Vec) (mass : R)
    (b : Mesh.t) (rest : list Mesh.t) :
  Physics.getGravityForce ph pos (b :: rest) mass
  = Vector3.add (Physics.gravityStep ph pos mass Vector3.zero b)
                (Physics.getGravityForce ph pos rest mass).
Proof.
  unfold Physics.getGravityForce at 1; simpl; apply gravity_fold.
Qed.

(** X7.  The gravity of a list of bodies does not depend on their
    order, and the gravity of two lists put together is the sum of their
    gravities. *)
Theorem getGravityForce_order_independent
    (ph : Physics.t) (pos : Vec) (mass : R) (l1 l2 l3 : list Mesh.t) :
  Permutation l1 l2 ->
  Physics.getGravityForce ph pos l1 mass = Physics.getGravityForce ph pos l2 mass
  /\ Physics.getGravityForce ph pos (l1 ++ l3) mass
     = Vector3.add (Physics.getGravityForce ph pos l1 mass)
                   (Physics.getGravityForce ph pos l3 mass).
Proof.
  intros HP; split.
  - induction HP as [|x l l' HP IH|x y l|l l' l'' HP1 IH1 HP2 IH2].
    + reflexivity.
    + rewrite !getGravityForce_cons; now rewrite IH.
    + rewrite !getGravityForce_cons, <- !add_assoc.
      f_equal; apply add_comm.
    + congruence.
  - unfold Physics.getGravityForce at 1; rewrite fold_left_app.
    apply gravity_fold.
Qed.

Lemma getGravityForce_order_independent_witness :
  Permutation [planet10; planet8] [planet8; planet10]
  /\ Physics.getGravityForce Physics.constructor (Vector3.mk 40 0 0)
                             [planet10; planet8] 1
     = Physics.getGravityForce Physics.constructor (Vector3.mk 40 0 0)
                               [planet8; planet10] 1.
Proof.
  split; [apply perm_swap|].
  apply (getGravityForce_order_independent Physics.constructor
           (Vector3.mk 40 0 0) 1 [planet10; planet8] [planet8; planet10] []).
  apply perm_swap.
Defined.

Lemma gravityStep_zero_length (ph : Physics.t) (pos : Vec) (mass : R)
    (body : Mesh.t) :
  0 <= Physics.gravitationalConstant ph -> 0 <= mass ->
  (forall r, Mesh.geometry body = SphereGeometry r -> 0 <= r) ->
  Vector3.length (Physics.gravityStep ph pos mass Vector3.zero body) <= 20.
Proof.
  intros HG Hm Hr; unfold Physics.gravityStep.
  destruct (Physics.bodyGravity ph pos mass body) as [c|] eqn:E.
  - rewrite add_zero_l; now apply (bodyGravity_length ph pos mass body).
  - rewrite length_zero; lra.
Qed.

(** X8.  With a nonnegative gravitational constant and mass and bodies
    of nonnegative radius, the gravity of [n] bodies has length at most
    20 n, wherever the bodies are. *)
Theorem getGravityForce_bounded
    (ph : Physics.t) (pos : Vec) (mass : R) (bodies : list Mesh.t) :
  0 <= Physics.gravitationalConstant ph -> 0 <= mass ->
  (forall b r, In b bodies -> Mesh.geometry b = SphereGeometry r -> 0 <= r) ->
  Vector3.length (Physics.getGravityForce ph pos bodies mass)
  <= 20 * INR (length bodies).
Proof.
  intros HG Hm; induction bodies as [|b rest IH]; intros Hr.
  - unfold Physics.getGravityForce; simpl; rewrite length_zero; lra.
  - rewrite getGravityForce_cons.
    change (length (b :: rest)) with (S (length rest)); rewrite S_INR.
    pose proof (length_add_le
                  (Physics.gravityStep ph pos mass Vector3.zero b)
                  (Physics.getGravityForce ph pos rest mass)) as T.
    pose proof (gravityStep_zero_length ph pos mass b HG Hm
                  (fun r => Hr b r (or_introl eq_refl))) as B.
    assert (IH' : Vector3.length (Physics.getGravityForce ph pos rest mass)
                  <= 20 * INR (length rest)).
    { apply IH; intros b' r Hin; apply Hr; now right. }
    lra.
Qed.

Lemma getGravityForce_bounded_witness :
  0 <= Physics.gravitationalConstant Physics.constructor
  /\ Vector3.length
       (Physics.getGravityForce Physics.constructor (Vector3.mk 40 0 0)
                                [planet10; planet8; bareMesh] 1)
     <= 20 * INR 3.
Proof.
  split; [simpl; lra|].
  apply (getGravityForce_bounded Physics.constructor (Vector3.mk 40 0 0) 1
                                 [planet10; planet8; bareMesh]).
  - simpl; lra.
  - lra.
  - intros b r [<-|[<-|[<-|[]]]] G; simpl in G; try discriminate;
      injection G as <-; lra.
Defined.

Lemma distanceTo_translate (a b t : Vec) :
  Vector3.distanceTo (Vector3.add a t) (Vector3.add b t) = Vector3.distanceTo a b.
Proof.
  unfold Vector3.distanceTo; f_equal; unfold Vector3.distanceToSquared; simpl; ring.
Qed.

Lemma sub_translate (a b t : Vec) :
  Vector3.subVectors (Vector3.add a t) (Vector3.add b t) = Vector3.subVectors a b.
Proof. apply vec_ext; simpl; ring. Qed.

Lemma bodyGravity_translate (ph : Physics.t) (pos t : Vec) (mass : R)
    (body : Mesh.t) :
  Physics.bodyGravity ph (Vector3.add pos t) mass (translate t body)
  = Physics.bodyGravity ph pos mass body.
Proof.
  unfold Physics.bodyGravity, optionalRadius, translate; simpl.
  now rewrite sub_translate, distanceTo_translate.
Qed.

(** X9.  Gravity only sees relative positions: moving the avatar and
    every body by one and the same vector leaves [getGravityForce] as it
    is. *)
Theorem getGravityForce_translation_invariant
    (ph : Physics.t) (pos t : Vec) (mass : R) (bodies : list Mesh.t) :
  Physics.getGravityForce ph (Vector3.add pos t) (map (translate t) bodies) mass
  = Physics.getGravityForce ph pos bodies mass.
Proof.
  induction bodies as [|b rest IH].
  - reflexivity.
  - cbn [map]; rewrite !getGravityForce_cons, IH.
    unfold Physics.gravityStep; now rewrite bodyGravity_translate.
Qed.

Lemma normalize_negate (v : Vec) :
  Vector3.normalize (Vector3.negate v) = Vector3.negate (Vector3.normalize v).
Proof.
  unfold Vector3.normalize, Vector3.divideScalar; rewrite length_negate.
  apply vec_ext; simpl; ring.
Qed.



Lemma single_body_magnitude (ph : Physics.t) (pos : Vec) (mass : R)
    (body : Mesh.t) (radius : R) :
  Mesh.geometry body = SphereGeometry radius -> 0 < radius ->
  0 <= Physics.gravitationalConstant ph -> 0 <= mass ->
  1 / 10 < Vector3.distanceTo pos (Mesh.position body) ->
  let clamped :=
    Rmax (Vector3.distanceTo pos (Mesh.position body)) (radius * (5 / 10)) in
  Vector3.length (Physics.getGravityForce ph pos [body] mass)
  = Rmin (Physics.gravitationalConstant ph
          * ((if Mesh.isSun body then 50 else radius) * mass)
          / (clamped * clamped)) 20.
Proof.
  intros G Hr HG Hm Hd; cbv zeta.
  unfold Physics.getGravityForce; simpl.
  unfold Physics.gravityStep, Physics.bodyGravity, optionalRadius; rewrite G.
  rewrite (proj2 (Reqb_false radius 0)) by lra.
  rewrite (proj2 (Rleb_false _ (1 / 10)) Hd).
  rewrite add_zero_l, length_multiplyScalar, length_normalize
    by (rewrite length_toward; lra).
  set (d := Vector3.distanceTo pos (Mesh.position body)) in *.
  set (cl := Rmax d (radius * (5 / 10))).
  assert (Hcl : 0 < cl * cl).
  { assert (d <= cl) by apply Rmax_l. nra. }
  set (bodyMass := if Mesh.isSun body then 50 else radius).
  assert (Hb : 0 <= bodyMass) by (unfold bodyMass; destruct (Mesh.isSun body); lra).
  assert (Hf : 0 <= Physics.gravitationalConstant ph * (bodyMass * mass) / (cl * cl)).
  { apply Rmult_le_pos.
    - apply Rmult_le_pos; [assumption | apply Rmult_le_pos; assumption].
    - apply Rlt_le, Rinv_0_lt_compat; assumption. }
  rewrite Rabs_pos_eq by (apply Rmin_glb; lra).
  ring.
Qed.

(** X11.  The pull of one body never grows with distance: for a body of
    positive radius (nonnegative gravitational constant and mass), of
    two positions farther than 0.1 from its centre the farther one feels
    a gravity at most as strong as the nearer one. *)
Theorem gravity_weakens_with_distance
    (ph : Physics.t) (near far : Vec) (mass : R) (body : Mesh.t) (radius : R) :
  Mesh.geometry body = SphereGeometry radius -> 0 < radius ->
  0 <= Physics.gravitationalConstant ph -> 0 <= mass ->
  1 / 10 < Vector3.distanceTo near (Mesh.position body) ->
  Vector3.distanceTo near (Mesh.position body)
  <= Vector3.distanceTo far (Mesh.position body) ->
  Vector3.length (Physics.getGravityForce ph far [body] mass)
  <= Vector3.length (Physics.getGravityForce ph near [body] mass).
Proof.
  intros G Hr HG Hm Hd Hle.
  rewrite (single_body_magnitude ph near mass body radius) by assumption.
  rewrite (single_body_magnitude ph far mass body radius) by (try assumption; lra).
  cbv zeta.
  set (d1 := Vector3.distanceTo near (Mesh.position body)) in *.
  set (d2 := Vector3.distanceTo far (Mesh.position body)) in *.
  set (c1 := Rmax d1 (radius * (5 / 10))).
  set (c2 := Rmax d2 (radius * (5 / 10))).
  assert (Hc1 : 0 < c1) by (assert (d1 <= c1) by apply Rmax_l; lra).
  assert (Hc12 : c1 <= c2).
  { unfold c1, c2; apply Rmax_lub.
    - apply Rle_trans with d2; [assumption | apply Rmax_l].
    - apply Rmax_r. }
  set (K := Physics.gravitationalConstant ph
            * ((if Mesh.isSun body then 50 else radius) * mass)).
  assert (HK : 0 <= K).
  { unfold K; apply Rmult_le_pos; [assumption|].
    apply Rmult_le_pos; [destruct (Mesh.isSun body); lra | assumption]. }
  apply Rle_min_compat_r.
  unfold Rdiv; apply Rmult_le_compat_l; [assumption|].
  apply Rinv_le_contravar; nra.
Qed.

Lemma gravity_weakens_with_distance_witness :
  1 / 10 < Vector3.distanceTo (Vector3.mk 20 0 0) (Mesh.position planet10)
  /\ Vector3.length
       (Physics.getGravityForce Physics.constructor (Vector3.mk 40 0 0)
                                [planet10] 1)
     <= Vector3.length
          (Physics.getGravityForce Physics.constructor (Vector3.mk 20 0 0)
                                   [planet10] 1).
Proof.
  assert (D1 : Vector3.distanceTo (Vector3.mk 20 0 0) (Mesh.position planet10)
               = 20) by (apply distanceTo_along_x; lra).
  assert (D2 : Vector3.distanceTo (Vector3.mk 40 0 0) (Mesh.position planet10)
               = 40) by (apply distanceTo_along_x; lra).
  split; [rewrite D1; lra|].
  apply (gravity_weakens_with_distance Physics.constructor (Vector3.mk 20 0 0)
           (Vector3.mk 40 0 0) 1 planet10 10);
    try reflexivity; try (simpl; lra); rewrite ?D1, ?D2; lra.
Defined.

(** ** The avatar at rest near the ground *)

Lemma getNearestPlanet_lower_bound (pos : Vec) (planets : list Mesh.t)
    (planet : Mesh.t) (d : R) :
  Physics.getNearestPlanet pos planets = Ok (Some (planet, d)) ->
  forall q dq, In q planets -> surfaceDistance pos q = Some dq -> d <= dq.
Proof.
  intros E q dq Hin Hq.
  destruct (forEachNearest_spec pos planets None _ E)
    as [(Hn & _)|(p & d' & l1 & l2 & Hn & -> & Hp & _ & H1 & H2)];
    [discriminate|].
  injection Hn as <- <-.
  apply in_app_or in Hin as [Hin|[<-|Hin]].
  - apply Rlt_le; exact (H1 q dq Hin Hq).
  - rewrite Hp in Hq; injection Hq as <-; lra.
  - exact (H2 q dq Hin Hq).
Qed.

Lemma getNearestPlanet_sphere (pos : Vec) (planets : list Mesh.t)
    (planet : Mesh.t) (d : R) :
  Physics.getNearestPlanet pos planets = Ok (Some (planet, d)) ->
  exists r, Mesh.geometry planet = SphereGeometry r.
Proof.
  intros E.
  destruct (getNearestPlanet_found pos planets) as (_ & Hok).
  specialize (Hok _ E); simpl in Hok; unfold hasRadius in Hok.
  destruct (Mesh.geometry planet); try discriminate; eauto.
Qed.

Lemma collisionLoop_all_miss (planets : list Mesh.t) :
  forall pos vel,
    forallb hasParameters planets = true ->
    (forall q dq, In q planets -> surfaceDistance pos q = Some dq ->
                  5 / 10 <= dq) ->
    Physics.collisionLoop pos vel planets = Ok (noCollision, pos, vel).
Proof.
  induction planets as [|m rest IH]; intros pos vel Hall Hfar.
  - reflexivity.
  - simpl in Hall; apply andb_true_iff in Hall as [Hm Hrest].
    simpl; unfold parametersRadius; unfold hasParameters in Hm.
    destruct (Mesh.geometry m) as [| |radius] eqn:G; try discriminate; simpl.
    + apply IH; [assumption | intros q dq Hin; apply Hfar; now right].
    + fold Physics.groundCollisionRadius.
      assert (Hd : 5 / 10 <= Vector3.distanceTo pos (Mesh.position m) - radius).
      { apply (Hfar m); [now left|]. unfold surfaceDistance; now rewrite G. }
      unfold Physics.groundCollisionRadius.
      rewrite (proj2 (Rltb_false _ (5 / 10)) Hd).
      apply IH; [assumption | intros q dq Hin; apply Hfar; now right].
Qed.

(** One call of [checkPlayerEnvironment], with the nearest planet known:
    the ground flag, and an instance that differs in the stored zone and
    the counter only. *)
Lemma checkPlayerEnvironment_onGround
    (ph : Physics.t) (pos : Vec) (planets : list Mesh.t)
    (planet : Mesh.t) (d : R) :
  Physics.getNearestPlanet pos planets = Ok (Some (planet, d)) ->
  exists env z k,
    Physics.checkPlayerEnvironment ph pos planets
    = Ok (env, Physics.setZone ph z k)
    /\ nearest env = Some (planet, d)
    /\ env_onGround env
       = if Physics.isSurface (Physics.lastZone ph)
         then d <? Physics.groundThreshold + Physics.zoneHysteresis ph
         else d <? Physics.groundThreshold.
Proof.
  intros Hn.
  destruct (getNearestPlanet_sphere pos planets planet d Hn) as (r & G).
  unfold Physics.checkPlayerEnvironment.
  rewrite Hn; cbn [bind]; unfold parametersRadius.
  rewrite G; cbn [bind option_map].
  match goal with
  | |- context [Physics.delayZoneSwitch ph ?p] =>
      set (proposed := p)
  end.
  unfold Physics.delayZoneSwitch.
  destruct (Physics.lastZone ph) as [last|];
    [destruct (negb (Zone_eqb last proposed));
     [destruct (_ <? 3)%nat|]|];
    do 3 eexists; split; try reflexivity; split; reflexivity.
Qed.

Lemma updateStamina_velocity (player : Player) (controls : ControlsState)
    (deltaTime : R) :
  p_velocity (Physics.updateStamina player controls deltaTime) = p_velocity player.
Proof.
  unfold Physics.updateStamina.
  destruct (sprint controls && (stamina player >? 0));
    [|destruct (negb (sprint controls) || (stamina player <=? 0))];
    reflexivity.
Qed.

Lemma calculateMoveDirection_idle (controls : ControlsState) (camera : Camera)
    (inSpace onGround : bool) :
  moveForward controls = false -> moveBackward controls = false ->
  moveLeft controls = false -> moveRight controls = false ->
  Physics.calculateMoveDirection controls camera inSpace onGround = Vector3.zero.
Proof.
  intros HF HB HL HR; unfold Physics.calculateMoveDirection.
  now rewrite HF, HB, HL, HR.
Qed.

(** One tick of an avatar at rest between 0.5 and 0.8 above the nearest
    surface, no key held. *)
Lemma resting_tick
    (ph : Physics.t) (player : Player) (controls : ControlsState)
    (deltaTime : R) (planets : list Mesh.t) (sun : option Mesh.t)
    (camera : Camera) (planet : Mesh.t) (d : R) :
  forallb hasParameters planets = true ->
  Physics.getNearestPlanet (p_position player) planets = Ok (Some (planet, d)) ->
  5 / 10 <= d < 8 / 10 ->
  0 <= Physics.zoneHysteresis ph ->
  p_velocity player = Vector3.mk 0 0 0 ->
  moveForward controls = false -> moveBackward controls = false ->
  moveLeft controls = false -> moveRight controls = false ->
  jetpack controls = false -> downThrusters controls = false ->
  exists res player' z k,
    Physics.updatePlayerPhysics ph player controls deltaTime planets sun camera
                                (mkGameState false)
    = Ok (res, player', Physics.setZone ph z k)
    /\ p_position player' = p_position player
    /\ p_velocity player' = Vector3.mk 0 0 0
    /\ p_onGround player' = false
    /\ fuel player' = fuel player
    /\ env_onGround (environment res) = true
    /\ collision res = noCollision.
Proof.
  intros Hall Hn Hd Hh Hv HF HB HL HR HJ HD.
  unfold Physics.updatePlayerPhysics; cbn [noclip].
  destruct (updateStamina_motion player controls deltaTime) as (Hp0 & Hf0).
  pose proof (updateStamina_velocity player controls deltaTime) as Hv0.
  set (player0 := Physics.updateStamina player controls deltaTime) in *.
  rewrite Hp0, Hv0, Hv.
  destruct (calculateUpDirection_total ph (p_position player) planets Hall)
    as (up & ->); cbn [bind].
  destruct (checkPlayerEnvironment_onGround ph (p_position player) planets
              planet d Hn) as (env & z & k & -> & Hnear & Hg); cbn [bind].
  assert (Hground : env_onGround env = true).
  { rewrite Hg; unfold Physics.groundThreshold.
    destruct (Physics.isSurface (Physics.lastZone ph)); apply Rltb_true; lra. }
  assert (Hok : nearestOk (nearest env)).
  { rewrite Hnear; simpl.
    destruct (getNearestPlanet_sphere _ _ _ _ Hn) as (r & G).
    unfold hasRadius; now rewrite G. }
  destruct (zoneDrag_total ph env Hok) as (drag & ->); cbn [bind].
  rewrite Hground; cbn [negb].
  rewrite calculateMoveDirection_idle by assumption.
  rewrite length_zero, (proj2 (Rgtb_false 0 0)) by lra.
  unfold Physics.applyJetpack, Physics.applyDownThrusters.
  rewrite HJ, HD; cbn [andb bind].
  unfold Physics.handlePlanetCollisions.
  rewrite collisionLoop_all_miss; [cbn [bind]|assumption|].
  - do 4 eexists; split; [reflexivity|].
    cbn [Physics.setMotion p_position p_velocity p_onGround fuel
         Physics.groundFriction noCollision col_onGround environment collision].
    repeat split; auto.
    + apply vec_ext; simpl; ring.
    + apply vec_ext; simpl; ring.
  - intros q dq Hin Hq.
    pose proof (getNearestPlanet_lower_bound _ _ _ _ Hn q dq Hin Hq); lra.
Qed.

(** X12.  An avatar at rest hovers.  With no key held and zero
    velocity, at a surface distance of at least 0.5 and less than 0.8
    from the nearest planet, a tick changes neither position nor
    velocity, for any number of ticks: the environment reports
    onGround (so no gravity is applied) while no collision is detected,
    and the avatar's own onGround flag, taken from the collision, is
    false. *)
Theorem resting_avatar_hovers
    (n : nat) (ph : Physics.t) (player : Player) (controls : ControlsState)
    (deltaTime : R) (planets : list Mesh.t) (sun : option Mesh.t)
    (camera : Camera) (planet : Mesh.t) (d : R) :
  forallb hasParameters planets = true ->
  Physics.getNearestPlanet (p_position player) planets = Ok (Some (planet, d)) ->
  5 / 10 <= d < 8 / 10 ->
  0 <= Physics.zoneHysteresis ph ->
  p_velocity player = Vector3.mk 0 0 0 ->
  moveForward controls = false -> moveBackward controls = false ->
  moveLeft controls = false -> moveRight controls = false ->
  jetpack controls = false -> downThrusters controls = false ->
  exists playerN phN res player1 ph1,
    Physics.ticks n ph player controls deltaTime planets sun camera
                  (mkGameState false) = Ok (playerN, phN)
    /\ p_position playerN = p_position player
    /\ p_velocity playerN = Vector3.mk 0 0 0
    /\ fuel playerN = fuel player
    /\ ((1 <= n)%nat -> p_onGround playerN = false)
    /\ Physics.updatePlayerPhysics ph player controls deltaTime planets sun
                                   camera (mkGameState false)
       = Ok (res, player1, ph1)
    /\ env_onGround (environment res) = true
    /\ collision res = noCollision
    /\ p_onGround player1 = false.
Proof.
  intros Hall Hn Hd Hh Hv HF HB HL HR HJ HD.
  destruct (resting_tick ph player controls deltaTime planets sun camera planet d
              Hall Hn Hd Hh Hv HF HB HL HR HJ HD)
    as (res & player1 & z1 & k1 & E1 & _ & _ & G1 & _ & Genv & Gcol).
  enough (Hticks : exists playerN phN,
    Physics.ticks n ph player controls deltaTime planets sun camera
                  (mkGameState false) = Ok (playerN, phN)
    /\ p_position playerN = p_position player
    /\ p_velocity playerN = Vector3.mk 0 0 0
    /\ fuel playerN = fuel player
    /\ ((1 <= n)%nat -> p_onGround playerN = false)).
  { destruct Hticks as (playerN & phN & E & Hp & Hvel & Hf & Hg).
    exists playerN, phN, res, player1, (Physics.setZone ph z1 k1).
    repeat split; auto; now apply Hg. }
  clear res player1 z1 k1 E1 G1 Genv Gcol.
  revert ph player Hn Hh Hv; induction n as [|n IH]; intros ph player Hn Hh Hv.
  - exists player, ph; repeat split; auto; lia.
  - destruct (resting_tick ph player controls deltaTime planets sun camera
                planet d Hall Hn Hd Hh Hv HF HB HL HR HJ HD)
      as (res & player1 & z1 & k1 & E1 & P1 & V1 & G1 & F1 & _).
    destruct (IH (Physics.setZone ph z1 k1) player1) as
      (playerN & phN & E & Hp & Hvel & Hf & Hg); auto.
    { now rewrite P1. }
    exists playerN, phN.
    split; [cbn [Physics.ticks]; rewrite E1; cbn [bind]; exact E|].
    repeat split; try congruence.
    intros _; destruct n as [|n'].
    + cbn [Physics.ticks] in E; injection E as <- _; exact G1.
    + apply Hg; lia.
Qed.

Lemma resting_avatar_hovers_witness :
  Physics.getNearestPlanet (p_position restingPlayer) [planet10]
  = Ok (Some (planet10, Vector3.distanceTo (Vector3.mk (53 / 5) 0 0)
                                           (Vector3.mk 0 0 0) - 10))
  /\ exists playerN phN,
       Physics.ticks 60 Physics.constructor restingPlayer idleControls (1 / 60)
                     [planet10] None sampleCamera (mkGameState false)
       = Ok (playerN, phN)
       /\ p_position playerN = Vector3.mk (53 / 5) 0 0
       /\ p_onGround playerN = false.
Proof.
  split; [apply getNearestPlanet_single|].
  destruct (resting_avatar_hovers 60 Physics.constructor restingPlayer
              idleControls (1 / 60) [planet10] None sampleCamera planet10
              (Vector3.distanceTo (Vector3.mk (53 / 5) 0 0) (Vector3.mk 0 0 0)
               - 10))
    as (playerN & phN & _ & _ & _ & E & Hp & _ & _ & Hg & _);
    try reflexivity.
  - rewrite distanceTo_along_x by lra; lra.
  - simpl; lra.
  - exists playerN, phN; split; [exact E|]. split; [exact Hp|].
    apply Hg; lia.
Defined.

(** ** The movement direction *)

Lemma dot_projectOnPlane (v n : Vec) :
  Vector3.dot (Vector3.projectOnPlane v n) n = 0.
Proof.
  unfold Vector3.projectOnPlane, Vector3.projectOnVector.
  destruct (Reqb (Vector3.lengthSq n) 0) eqn:E;
    [apply Reqb_true in E | apply Reqb_false in E].
  - apply sum_squares_zero in E as (Hx & Hy & Hz).
    unfold Vector3.dot; simpl; rewrite Hx, Hy, Hz; ring.
  - rewrite dot_sub_l, dot_multiplyScalar_l, <- lengthSq_dot, (dot_comm n v).
    field; exact E.
Qed.

Lemma dot_crossVectors_r (a b : Vec) :
  Vector3.dot (Vector3.crossVectors a b) b = 0.
Proof. unfold Vector3.dot; simpl; ring. Qed.

Lemma dot_normalize_zero (v n : Vec) :
  Vector3.dot v n = 0 -> Vector3.dot (Vector3.normalize v) n = 0.
Proof.
  intros H; destruct (normalize_as_scale v) as (k & _ & ->).
  rewrite dot_multiplyScalar_l, H; ring.
Qed.

(** X13.  On the ground the movement direction is tangent: whatever
    keys are held and wherever the camera looks, it has no component
    along the camera's up vector, the world up (0,1,0) turned by the
    camera quaternion. *)
Theorem calculateMoveDirection_tangent
    (controls : ControlsState) (camera : Camera) (inSpace : bool) :
  Vector3.dot
    (Physics.calculateMoveDirection controls camera inSpace true)
    (Vector3.applyQuaternion (Vector3.mk 0 1 0) (quaternion camera))
  = 0.
Proof.
  unfold Physics.calculateMoveDirection.
  set (up := Vector3.applyQuaternion (Vector3.mk 0 1 0) (quaternion camera)).
  set (f := Vector3.normalize (Vector3.projectOnPlane (worldDirection camera) up)).
  set (rt := Vector3.normalize (Vector3.crossVectors f up)).
  assert (Hf : Vector3.dot f up = 0)
    by (apply dot_normalize_zero, dot_projectOnPlane).
  assert (Hr : Vector3.dot rt up = 0)
    by (apply dot_normalize_zero, dot_crossVectors_r).
  assert (H0 : Vector3.dot Vector3.zero up = 0)
    by (unfold Vector3.dot; simpl; ring).
  destruct (moveForward controls), (moveBackward controls),
    (moveRight controls), (moveLeft controls);
    rewrite ?dot_sub_l, ?dot_add_l, ?dot_sub_l, ?dot_add_l, ?dot_sub_l,
      ?dot_add_l, ?Hf, ?Hr, ?H0; ring.
Qed.

(** X14.  Opposite keys cancel: holding forward and backward together
    gives the movement direction of holding neither, and so do left and
    right, in flight and on the ground. *)
Theorem calculateMoveDirection_opposite_keys
    (camera : Camera) (inSpace onGround : bool)
    (fwd back lft rgt jmp jet spr down : bool) :
  Physics.calculateMoveDirection
    (mkControls true true lft rgt jmp jet spr down) camera inSpace onGround
  = Physics.calculateMoveDirection
      (mkControls false false lft rgt jmp jet spr down) camera inSpace onGround
  /\ Physics.calculateMoveDirection
       (mkControls fwd back true true jmp jet spr down) camera inSpace onGround
     = Physics.calculateMoveDirection
         (mkControls fwd back false false jmp jet spr down) camera inSpace
         onGround.
Proof.
  unfold Physics.calculateMoveDirection; cbn [moveForward moveBackward moveLeft
                                               moveRight].
  split.
  - destruct lft, rgt; apply vec_ext; simpl; ring.
  - destruct fwd, back; apply vec_ext; simpl; ring.
Qed.

(** ** The end of a tick *)

(** How a tick outside noclip ends (lines 466-496): the collision scan
    on the position the tick started with, the position integrated with
    the corrected velocity, the friction. *)
Lemma updatePlayerPhysics_tail
    (ph : Physics.t) (player : Player) (controls : ControlsState)
    (deltaTime : R) (planets : list Mesh.t) (sun : option Mesh.t)
    (camera : Camera) (res : PhysicsResult) (player' : Player)
    (ph' : Physics.t) :
  Physics.updatePlayerPhysics ph player controls deltaTime planets sun camera
                              (mkGameState false) = Ok (res, player', ph') ->
  exists vel0 pos1 vel1,
    Physics.collisionLoop (p_position player) vel0 planets
    = Ok (collision res, pos1, vel1)
    /\ p_position player'
       = Vector3.add pos1 (Vector3.multiplyScalar vel1 deltaTime)
    /\ p_velocity player' = Physics.groundFriction (collision res) vel1
    /\ p_onGround player' = col_onGround (collision res).
Proof.
  unfold Physics.updatePlayerPhysics; cbn [noclip].
  destruct (updateStamina_motion player controls deltaTime) as (Hp0 & _).
  set (player0 := Physics.updateStamina player controls deltaTime) in *.
  rewrite Hp0.
  destruct (Physics.calculateUpDirection ph (p_position player) planets)
    as [up|e]; cbn [bind]; [|discriminate].
  destruct (Physics.checkPlayerEnvironment ph (p_position player) planets)
    as [[env ph1]|e]; cbn [bind]; [|discriminate].
  destruct (Physics.zoneDrag ph env) as [drag|e]; cbn [bind]; [|discriminate].
  destruct (Physics.applyJetpack _ _ _ _ _ _ _ _ _) as [[v1 f1]|e];
    cbn [bind]; [|discriminate].
  destruct (Physics.applyDownThrusters _ _ _ _ _ _ _ _ _) as [[v2 f2]|e];
    cbn [bind]; [|discriminate].
  unfold Physics.handlePlanetCollisions.
  destruct (Physics.collisionLoop (p_position player) v2 planets)
    as [[[col pos1] vel1]|e] eqn:Ecol; cbn [bind]; [|discriminate].
  intros [= <- <- <-].
  exists v2, pos1, vel1; repeat split; auto.
Qed.

(** A tick that starts a quarter of a unit above [planet10] resolves a
    collision with it, whatever the keys. *)
Lemma falling_tick_lands (controls : ControlsState) (deltaTime : R) :
  exists res player1 ph1,
    Physics.updatePlayerPhysics Physics.constructor fallingPlayer controls
      deltaTime [planet10] None sampleCamera (mkGameState false)
    = Ok (res, player1, ph1)
    /\ collidedPlanet (collision res) = Some planet10.
Proof.
  destruct (updatePlayerPhysics_total Physics.constructor fallingPlayer controls
              deltaTime [planet10] None sampleCamera (mkGameState false)
              eq_refl) as ([[res player1] ph1] & E).
  exists res, player1, ph1; split; [exact E|].
  destruct (updatePlayerPhysics_tail _ _ _ _ _ _ _ _ _ _ E)
    as (vel0 & pos1 & vel1 & Ecol & _).
  unfold planet10, sphere in Ecol.
  rewrite (collisionLoop_sphere _ _ _ 10) in Ecol by reflexivity.
  cbn [Mesh.position fallingPlayer p_position] in Ecol.
  unfold lowPosition in Ecol.
  rewrite distanceTo_along_x in Ecol by lra.
  rewrite (proj2 (Rltb_true (41 / 4 - 10) (5 / 10))) in Ecol by lra.
  unfold collisionHit in Ecol.
  injection Ecol as <- _ _; reflexivity.
Qed.

(** X15.  A tick that ends on the ground leaves a tangent velocity.
    On bodies that can all be read a tick outside noclip returns; if it
    detected a collision with a planet (the avatar not at its very
    centre), the avatar's onGround flag is set and the stored velocity
    has no component along the unit surface normal reported. *)
Theorem grounded_tick_velocity
    (ph : Physics.t) (player : Player) (controls : ControlsState)
    (deltaTime : R) (planets : list Mesh.t) (sun : option Mesh.t)
    (camera : Camera) :
  forallb hasParameters planets = true ->
  exists res player' ph',
    Physics.updatePlayerPhysics ph player controls deltaTime planets sun camera
                                (mkGameState false) = Ok (res, player', ph')
    /\ forall planet,
         collidedPlanet (collision res) = Some planet ->
         p_position player <> Mesh.position planet ->
         exists normal,
           surfaceNormal (collision res) = Some normal
           /\ Vector3.length normal = 1
           /\ Vector3.dot (p_velocity player') normal = 0
           /\ p_onGround player' = true.
Proof.
  intros Hall.
  destruct (updatePlayerPhysics_total ph player controls deltaTime planets sun
              camera (mkGameState false) Hall) as ([[res player'] ph'] & E).
  exists res, player', ph'; split; [exact E|].
  intros planet Hc Hne.
  destruct (updatePlayerPhysics_tail _ _ _ _ _ _ _ _ _ _ E)
    as (vel0 & pos1 & vel1 & Ecol & _ & Hv & Hg).
  destruct (collisionLoop_hit planets _ _ _ _ _ planet Ecol Hc)
    as (radius & G & Hlt & Hit).
  set (normal := Vector3.normalize
                   (Vector3.subVectors (p_position player) (Mesh.position planet))).
  assert (Hn : Vector3.length normal = 1).
  { apply length_normalize.
    change (Vector3.length (Vector3.sub (p_position player)
                                        (Mesh.position planet)) <> 0).
    rewrite <- distanceTo_length.
    intros H0; apply Hne; now apply distanceTo_zero. }
  unfold collisionHit in Hit; fold normal in Hit.
  injection Hit as Hres _ _.
  exists normal; rewrite Hv, Hg, Hres; cbn [surfaceNormal col_onGround].
  repeat split; auto.
  unfold Physics.groundFriction; cbn [col_onGround surfaceNormal].
  rewrite dot_multiplyScalar_l.
  change (Vector3.subVectors ?a ?b) with (Vector3.sub a b).
  rewrite dot_tangential by assumption; ring.
Qed.

Lemma grounded_tick_velocity_witness :
  exists res player' ph' normal,
    Physics.updatePlayerPhysics Physics.constructor fallingPlayer idleControls
      (1 / 10) [planet10] None sampleCamera (mkGameState false)
    = Ok (res, player', ph')
    /\ surfaceNormal (collision res) = Some normal
    /\ Vector3.dot (p_velocity player') normal = 0
    /\ p_onGround player' = true.
Proof.
  destruct (grounded_tick_velocity Physics.constructor fallingPlayer
              idleControls (1 / 10) [planet10] None sampleCamera eq_refl)
    as (res & player' & ph' & E & H).
  destruct (falling_tick_lands idleControls (1 / 10))
    as (res0 & player0 & ph0 & E0 & Hc).
  rewrite E in E0; injection E0 as <- <- <-.
  assert (Hne : p_position fallingPlayer <> Mesh.position planet10).
  { unfold lowPosition; simpl; intros H0; injection H0 as H0; lra. }
  destruct (H planet10 Hc Hne) as (normal & Hs & _ & Hd & Hg).
  exists res, player', ph', normal; auto.
Defined.

(** ** More on fuel *)

Lemma applyJetpack_spend
    (ph : Physics.t) (env : EnvironmentResult) (controls : ControlsState)
    (camera : Camera) (planets : list Mesh.t) (deltaTime : R)
    (pos vel : Vec) (f : R) :
  forallb hasParameters planets = true -> 0 <= deltaTime ->
  exists vel' f',
    Physics.applyJetpack ph env controls camera planets deltaTime pos vel f
    = Ok (vel', f')
    /\ f' <= f
    /\ (jetpack controls = false \/ f <= 0 -> f' = f /\ vel' = vel).
Proof.
  intros Hall Hdt; unfold Physics.applyJetpack.
  destruct (jetpack controls); simpl.
  - destruct (f >? 0) eqn:Ef; [apply Rgtb_true in Ef | apply Rgtb_false in Ef].
    + assert (Hdir : exists dir,
                 (if Physics.nearPlanet env
                  then Physics.calculateUpDirection ph pos planets
                  else Ok (worldDirection camera)) = Ok dir).
      { destruct (Physics.nearPlanet env); [|eauto].
        now apply calculateUpDirection_total. }
      destruct Hdir as (dir & ->); simpl.
      do 2 eexists; split; [reflexivity|]. split.
      * rcases; lra.
      * intros [H|H]; [discriminate | lra].
    + do 2 eexists; split; [reflexivity|]. split; [lra | auto].
  - do 2 eexists; split; [reflexivity|]. split; [lra | auto].
Qed.

Lemma applyDownThrusters_spend
    (ph : Physics.t) (env : EnvironmentResult) (controls : ControlsState)
    (camera : Camera) (planets : list Mesh.t) (deltaTime : R)
    (pos vel : Vec) (f : R) :
  forallb hasParameters planets = true -> 0 <= deltaTime ->
  exists vel' f',
    Physics.applyDownThrusters ph env controls camera planets deltaTime pos vel f
    = Ok (vel', f')
    /\ f' <= f
    /\ (downThrusters controls = false \/ f <= 0 -> f' = f /\ vel' = vel).
Proof.
  intros Hall Hdt; unfold Physics.applyDownThrusters.
  destruct (downThrusters controls); simpl.
  - destruct (f >? 0) eqn:Ef; [apply Rgtb_true in Ef | apply Rgtb_false in Ef].
    + assert (Hdir : exists dir,
                 (if Physics.nearPlanet env
                  then let* upDirection :=
                         Physics.calculateUpDirection ph pos planets in
                       Ok (Vector3.negate upDirection)
                  else Ok (Vector3.negate (worldDirection camera))) = Ok dir).
      { destruct (Physics.nearPlanet env); [|eauto].
        destruct (calculateUpDirection_total ph pos planets Hall) as (up & ->).
        simpl; eauto. }
      destruct Hdir as (dir & ->); simpl.
      do 2 eexists; split; [reflexivity|]. split.
      * rcases; lra.
      * intros [H|H]; [discriminate | lra].
    + do 2 eexists; split; [reflexivity|]. split; [lra | auto].
  - do 2 eexists; split; [reflexivity|]. split; [lra | auto].
Qed.

(** X16.  A tick only ever spends fuel.  On bodies that can all be read
    and with deltaTime >= 0, [updatePlayerPhysics] returns with at most
    the fuel it started with, and with exactly that fuel when neither
    the jetpack nor the down thrusters are held, when the tank is empty,
    or in noclip. *)
Theorem fuel_only_spent
    (ph : Physics.t) (player : Player) (controls : ControlsState)
    (deltaTime : R) (planets : list Mesh.t) (sun : option Mesh.t)
    (camera : Camera) (gameState : GameState) :
  forallb hasParameters planets = true ->
  0 <= deltaTime ->
  exists res player' ph',
    Physics.updatePlayerPhysics ph player controls deltaTime planets sun
                                camera gameState = Ok (res, player', ph')
    /\ fuel player' <= fuel player
    /\ (jetpack controls = false /\ downThrusters controls = false
        \/ fuel player <= 0
        \/ noclip gameState = true -> fuel player' = fuel player).
Proof.
  intros Hall Hdt.
  destruct (updateStamina_motion player controls deltaTime) as (_ & Hfuel).
  unfold Physics.updatePlayerPhysics.
  set (player0 := Physics.updateStamina player controls deltaTime) in *.
  destruct (noclip gameState).
  - unfold Physics.noclipStep.
    do 3 eexists; split; [reflexivity|]; simpl.
    rewrite Hfuel; split; [lra | auto].
  - destruct (calculateUpDirection_total ph (p_position player0) planets Hall)
      as (up & ->); cbn [bind].
    destruct (checkPlayerEnvironment_total ph (p_position player0) planets Hall)
      as (env & ph' & -> & Hok); cbn [bind].
    destruct (zoneDrag_total ph env Hok) as (drag & ->); cbn [bind].
    match goal with
    | |- context [Physics.applyJetpack ?a ?b ?c ?d ?e ?f ?g ?h ?i] =>
        destruct (applyJetpack_spend a b c d e f g h i Hall Hdt)
          as (v1 & f1 & -> & Hle1 & Hsame1)
    end; cbn [bind].
    match goal with
    | |- context [Physics.applyDownThrusters ?a ?b ?c ?d ?e ?f ?g ?h ?i] =>
        destruct (applyDownThrusters_spend a b c d e f g h i Hall Hdt)
          as (v2 & f2 & -> & Hle2 & Hsame2)
    end; cbn [bind].
    unfold Physics.handlePlanetCollisions.
    destruct (collisionLoop_total planets (p_position player0) v2 Hall)
      as (col & pos' & vel' & ->); cbn [bind].
    do 3 eexists; split; [reflexivity|]; simpl.
    rewrite Hfuel in *.
    split; [lra|].
    intros [(HJ & HD)|[Hempty|Hnc]]; [| |discriminate].
    + destruct (Hsame1 (or_introl HJ)) as (-> & _).
      destruct (Hsame2 (or_introl HD)) as (-> & _); reflexivity.
    + destruct (Hsame1 (or_intror Hempty)) as (-> & _).
      destruct (Hsame2 (or_intror Hempty)) as (-> & _); reflexivity.
Qed.

Lemma fuel_only_spent_witness :
  0 <= 1 / 10
  /\ exists res player' ph',
       Physics.updatePlayerPhysics Physics.constructor samplePlayer jetpackHeld
         (1 / 10) [planet10] None sampleCamera (mkGameState false)
       = Ok (res, player', ph')
       /\ fuel player' <= fuel samplePlayer.
Proof.
  split; [lra|].
  destruct (fuel_only_spent Physics.constructor samplePlayer jetpackHeld
              (1 / 10) [planet10] None sampleCamera (mkGameState false)
              eq_refl)
    as (res & player' & ph' & E & Hle & _); [lra|].
  exists res, player', ph'; auto.
Defined.

Lemma applyJetpack_empty
    (ph : Physics.t) (env : EnvironmentResult) (controls : ControlsState)
    (camera : Camera) (planets : list Mesh.t) (deltaTime : R)
    (pos vel : Vec) (f : R) :
  f <= 0 ->
  Physics.applyJetpack ph env controls camera planets deltaTime pos vel f
  = Ok (vel, f).
Proof.
  intros Hf; unfold Physics.applyJetpack.
  now rewrite (proj2 (Rgtb_false f 0) Hf), andb_false_r.
Qed.

Lemma applyDownThrusters_empty
    (ph : Physics.t) (env : EnvironmentResult) (controls : ControlsState)
    (camera : Camera) (planets : list Mesh.t) (deltaTime : R)
    (pos vel : Vec) (f : R) :
  f <= 0 ->
  Physics.applyDownThrusters ph env controls camera planets deltaTime pos vel f
  = Ok (vel, f).
Proof.
  intros Hf; unfold Physics.applyDownThrusters.
  now rewrite (proj2 (Rgtb_false f 0) Hf), andb_false_r.
Qed.

(** X17.  With an empty tank the thruster keys are dead: for an avatar
    whose fuel is 0 (or below), two ticks that differ only in whether
    the jetpack and down-thruster keys are held have the same outcome,
    in every field of the result, the avatar and the instance. *)
Theorem empty_tank_ignores_thrusters
    (ph : Physics.t) (player : Player) (deltaTime : R)
    (planets : list Mesh.t) (sun : option Mesh.t) (camera : Camera)
    (gameState : GameState)
    (fwd back lft rgt jmp spr jet1 down1 jet2 down2 : bool) :
  fuel player <= 0 ->
  Physics.updatePlayerPhysics ph player
    (mkControls fwd back lft rgt jmp jet1 spr down1) deltaTime planets sun
    camera gameState
  = Physics.updatePlayerPhysics ph player
      (mkControls fwd back lft rgt jmp jet2 spr down2) deltaTime planets sun
      camera gameState.
Proof.
  intros Hf.
  unfold Physics.updatePlayerPhysics.
  assert (Hs : Physics.updateStamina player
                 (mkControls fwd back lft rgt jmp jet1 spr down1) deltaTime
               = Physics.updateStamina player
                   (mkControls fwd back lft rgt jmp jet2 spr down2) deltaTime)
    by reflexivity.
  rewrite Hs.
  destruct (updateStamina_motion player
              (mkControls fwd back lft rgt jmp jet2 spr down2) deltaTime)
    as (_ & Hfuel).
  set (player0 := Physics.updateStamina player
                    (mkControls fwd back lft rgt jmp jet2 spr down2) deltaTime)
    in *.
  destruct (noclip gameState); [reflexivity|].
  destruct (Physics.calculateUpDirection ph (p_position player0) planets)
    as [up|e]; cbn [bind]; [|reflexivity].
  destruct (Physics.checkPlayerEnvironment ph (p_position player0) planets)
    as [[env ph']|e]; cbn [bind]; [|reflexivity].
  destruct (Physics.zoneDrag ph env) as [drag|e]; cbn [bind]; [|reflexivity].
  rewrite <- Hfuel in Hf.
  rewrite !applyJetpack_empty by assumption; cbn [bind].
  rewrite !applyDownThrusters_empty by assumption; cbn [bind].
  reflexivity.
Qed.

Lemma empty_tank_ignores_thrusters_witness :
  fuel (Physics.setMotion samplePlayer (Vector3.mk 40 0 0) (Vector3.mk 0 0 0)
                          false 0) <= 0
  /\ Physics.updatePlayerPhysics Physics.constructor
       (Physics.setMotion samplePlayer (Vector3.mk 40 0 0) (Vector3.mk 0 0 0)
                          false 0)
       (mkControls false false false false false true false true) (1 / 10)
       [planet10] None sampleCamera (mkGameState false)
     = Physics.updatePlayerPhysics Physics.constructor
         (Physics.setMotion samplePlayer (Vector3.mk 40 0 0) (Vector3.mk 0 0 0)
                            false 0)
         (mkControls false false false false false false false false) (1 / 10)
         [planet10] None sampleCamera (mkGameState false).
Proof.
  assert (Hf : fuel (Physics.setMotion samplePlayer (Vector3.mk 40 0 0)
                                       (Vector3.mk 0 0 0) false 0) <= 0)
    by (simpl; lra).
  split; [exact Hf|].
  apply (empty_tank_ignores_thrusters Physics.constructor _ (1 / 10) [planet10]
           None sampleCamera (mkGameState false)
           false false false false false false true true false false Hf).
Defined.

(** ** The up direction *)

Lemma getNearestPlanet_in (pos : Vec) (planets : list Mesh.t)
    (planet : Mesh.t) (d : R) :
  Physics.getNearestPlanet pos planets = Ok (Some (planet, d)) ->
  In planet planets.
Proof.
  intros E.
  destruct (forEachNearest_spec pos planets None _ E)
    as [(H & _)|(p & d' & l1 & l2 & H & -> & _)]; [discriminate|].
  injection H as -> ->.
  apply in_or_app; right; left; reflexivity.
Qed.

Lemma length_world_up : Vector3.length (Vector3.mk 0 1 0) = 1.
Proof. apply length_of_square; [lra | unfold Vector3.lengthSq; simpl; ring]. Qed.

Lemma length_offset (pos center : Vec) :
  pos <> center ->
  Vector3.length (Vector3.normalize (Vector3.subVectors pos center)) = 1.
Proof.
  intros Hne; apply length_normalize.
  change (Vector3.length (Vector3.sub pos center) <> 0).
  rewrite <- distanceTo_length.
  intros H0; apply Hne; now apply distanceTo_zero.
Qed.

(** The offset from the centre as a multiple of the unit normal. *)
Lemma offset_as_normal (pos center : Vec) :
  Vector3.sub pos center
  = Vector3.multiplyScalar
      (Vector3.normalize (Vector3.subVectors pos center))
      (Vector3.distanceTo pos center).
Proof.
  rewrite distanceTo_length.
  change (Vector3.subVectors pos center) with (Vector3.sub pos center).
  set (v := Vector3.sub pos center).
  destruct (length_normalize_cases v) as [(H & _)|(H & E)].
  - unfold Vector3.normalize, Vector3.divideScalar.
    rewrite orElse_nonzero by assumption.
    apply vec_ext; simpl; field; assumption.
  - rewrite E, H.
    assert (Hs : Vector3.lengthSq v = 0).
    { apply sqrt_eq_0; [apply lengthSq_nonneg | exact H]. }
    apply sum_squares_zero in Hs as (Hx & Hy & Hz).
    apply vec_ext; unfold v in *; simpl in *; lra.
Qed.

(** X18.  On bodies that can all be read, with the avatar at the centre
    of none of them, [calculateUpDirection] returns a unit vector, and
    which one is settled by the nearest planet: the direction from its
    centre to the avatar when its surface is within [alignmentDistance],
    and the world up (0,1,0) when it is farther or there is none. *)
Theorem calculateUpDirection_unit
    (ph : Physics.t) (pos : Vec) (planets : list Mesh.t) :
  forallb hasParameters planets = true ->
  (forall q, In q planets -> pos <> Mesh.position q) ->
  exists up nearest,
    Physics.calculateUpDirection ph pos planets = Ok up
    /\ Physics.getNearestPlanet pos planets = Ok nearest
    /\ Vector3.length up = 1
    /\ (forall planet d,
          nearest = Some (planet, d) -> d <= Physics.alignmentDistance ph ->
          up = Vector3.normalize
                 (Vector3.subVectors pos (Mesh.position planet))
          /\ Vector3.dot up (Vector3.subVectors pos (Mesh.position planet))
             = Vector3.distanceTo pos (Mesh.position planet))
    /\ (forall planet d,
          nearest = Some (planet, d) -> Physics.alignmentDistance ph < d ->
          up = Vector3.mk 0 1 0)
    /\ (nearest = None -> up = Vector3.mk 0 1 0).
Proof.
  intros Hall Hne; unfold Physics.calculateUpDirection.
  destruct (getNearestPlanet_total pos planets Hall) as (n & E & _).
  rewrite E; cbn [bind].
  destruct n as [[planet d]|].
  - destruct (d >? Physics.alignmentDistance ph) eqn:C;
      [apply Rgtb_true in C | apply Rgtb_false in C].
    + do 2 eexists; split; [reflexivity|]; split; [reflexivity|].
      split; [apply length_world_up|].
      split; [intros p' d' [= <- <-]; lra|].
      split; [reflexivity | discriminate].
    + assert (Hp : pos <> Mesh.position planet)
        by (apply Hne, (getNearestPlanet_in pos planets planet d E)).
      do 2 eexists; split; [reflexivity|]; split; [reflexivity|].
      split; [now apply length_offset|].
      split; [|split; [intros p' d' [= <- <-]; lra | discriminate]].
      intros p' d' [= <- <-] _; split; [reflexivity|].
      pose proof (offset_as_normal pos (Mesh.position planet)) as Ho.
      pose proof (dot_unit _ (length_offset pos (Mesh.position planet) Hp))
        as Hu.
      set (n := Vector3.normalize
                  (Vector3.subVectors pos (Mesh.position planet))) in *.
      change (Vector3.dot n (Vector3.sub pos (Mesh.position planet))
              = Vector3.distanceTo pos (Mesh.position planet)).
      rewrite Ho, dot_multiplyScalar_r, Hu; ring.
  - do 2 eexists; split; [reflexivity|]; split; [reflexivity|].
    split; [apply length_world_up|].
    split; [discriminate|]. split; [discriminate | reflexivity].
Qed.

(** A quarter of a unit above [planet10] on the x axis, up is the x
    axis. *)
Lemma calculateUpDirection_unit_witness :
  Physics.calculateUpDirection Physics.constructor lowPosition [planet10]
  = Ok (Vector3.mk 1 0 0).
Proof.
  assert (Hne : forall q, In q [planet10] -> lowPosition <> Mesh.position q).
  { intros q [<-|[]]; unfold lowPosition; simpl; intros H; injection H as H; lra. }
  destruct (calculateUpDirection_unit Physics.constructor lowPosition [planet10]
              eq_refl Hne) as (up & nearest & E & En & _ & Hnear & _).
  rewrite E; f_equal.
  assert (Es : Physics.getNearestPlanet lowPosition [planet10]
               = Ok (Some (planet10,
                           Vector3.distanceTo lowPosition (Vector3.mk 0 0 0)
                           - 10)))
    by apply getNearestPlanet_single.
  rewrite Es in En; injection En as <-.
  destruct (Hnear planet10 _ eq_refl) as (-> & _).
  - unfold lowPosition; rewrite distanceTo_along_x by lra.
    cbn [Physics.alignmentDistance Physics.constructor]; lra.
  - cbn [planet10 sphere Mesh.position]; unfold lowPosition.
    replace (Vector3.subVectors (Vector3.mk (41 / 4) 0 0) (Vector3.mk 0 0 0))
      with (Vector3.mk (41 / 4) 0 0) by (apply vec_ext; simpl; ring).
    apply normalize_along_x; lra.
Defined.

(** ** Landing *)

(** X19.  What a landing leaves.  When a tick outside noclip has
    resolved a collision with a planet (the avatar not at its very
    centre), the collision result names that planet with the unit
    direction from its centre to the place where the tick found the
    avatar as the surface normal, and the avatar's onGround flag is
    set.  The tick ends at the point lifted to the collision threshold,
    radius + 0.5 from the centre along the normal, displaced by
    deltaTime times the velocity the collision left; the velocity it
    returns is 0.9 times the part of that velocity along the surface,
    so it has no component along the normal.  With deltaTime = 0 the
    avatar ends at radius + 0.5 from the centre. *)
Theorem landing_settles_on_threshold
    (ph : Physics.t) (player : Player) (controls : ControlsState)
    (deltaTime : R) (planets : list Mesh.t) (sun : option Mesh.t)
    (camera : Camera) (res : PhysicsResult) (player' : Player)
    (ph' : Physics.t) (planet : Mesh.t) :
  Physics.updatePlayerPhysics ph player controls deltaTime planets sun camera
                              (mkGameState false) = Ok (res, player', ph') ->
  collidedPlanet (collision res) = Some planet ->
  p_position player <> Mesh.position planet ->
  exists radius normal velocity,
    Mesh.geometry planet = SphereGeometry radius
    /\ normal = Vector3.normalize
                  (Vector3.subVectors (p_position player)
                                      (Mesh.position planet))
    /\ Vector3.length normal = 1
    /\ collision res
       = {| col_onGround := true; collidedPlanet := Some planet;
            surfaceNormal := Some normal |}
    /\ p_onGround player' = true
    /\ p_position player'
       = Vector3.add
           (Vector3.add (Mesh.position planet)
                        (Vector3.multiplyScalar normal (radius + 5 / 10)))
           (Vector3.multiplyScalar velocity deltaTime)
    /\ p_velocity player'
       = Vector3.multiplyScalar
           (Vector3.sub velocity
              (Vector3.multiplyScalar normal (Vector3.dot velocity normal)))
           (9 / 10)
    /\ Vector3.dot (p_velocity player') normal = 0
    /\ (deltaTime = 0 ->
        Vector3.distanceTo (p_position player') (Mesh.position planet)
        = radius + 5 / 10).
Proof.
  intros E Hc Hne.
  destruct (updatePlayerPhysics_tail _ _ _ _ _ _ _ _ _ _ E)
    as (vel0 & pos1 & vel1 & Ecol & Hp & Hvel & Hg).
  destruct (collisionLoop_hit planets _ _ _ _ _ planet Ecol Hc)
    as (radius & G & Hlt & Hit).
  set (pos := p_position player) in *.
  set (center := Mesh.position planet) in *.
  set (normal := Vector3.normalize (Vector3.subVectors pos center)).
  exists radius, normal, vel1.
  assert (Hn : Vector3.length normal = 1) by now apply length_offset.
  unfold collisionHit in Hit; fold center in Hit; fold normal in Hit.
  injection Hit as Hres Hpos1 Hvel1.
  assert (Hend : p_position player'
                 = Vector3.add
                     (Vector3.add center
                        (Vector3.multiplyScalar normal (radius + 5 / 10)))
                     (Vector3.multiplyScalar vel1 deltaTime)).
  { rewrite Hp, Hpos1.
    pose proof (offset_as_normal pos center) as Ho; fold normal in Ho.
    unfold Physics.groundCollisionRadius.
    apply vec_ext;
      [apply (f_equal Vector3.x) in Ho | apply (f_equal Vector3.y) in Ho
       | apply (f_equal Vector3.z) in Ho];
      simpl in *; lra. }
  assert (Hfr : p_velocity player'
                = Vector3.multiplyScalar
                    (Vector3.sub vel1
                       (Vector3.multiplyScalar normal
                          (Vector3.dot vel1 normal)))
                    (9 / 10)).
  { rewrite Hvel, Hres; reflexivity. }
  split; [exact G|].
  split; [reflexivity|].
  split; [exact Hn|].
  split; [exact Hres|].
  split; [rewrite Hg, Hres; reflexivity|].
  split; [exact Hend|].
  split; [exact Hfr|].
  split.
  { rewrite Hfr, dot_multiplyScalar_l, dot_tangential by assumption; ring. }
  assert (Hr : 0 <= radius + 5 / 10).
  { pose proof (sqrt_pos (Vector3.distanceToSquared pos center)) as Hd0.
    change (sqrt (Vector3.distanceToSquared pos center))
      with (Vector3.distanceTo pos center) in Hd0.
    unfold Physics.groundCollisionRadius in Hlt.
    lra. }
  intros ->.
  rewrite distanceTo_length, Hend.
  replace (Vector3.sub
             (Vector3.add
                (Vector3.add center
                   (Vector3.multiplyScalar normal (radius + 5 / 10)))
                (Vector3.multiplyScalar vel1 0)) center)
    with (Vector3.multiplyScalar normal (radius + 5 / 10))
    by (apply vec_ext; simpl; ring).
  rewrite length_multiplyScalar, Hn, Rabs_pos_eq; [ring | exact Hr].
Qed.

(** The falling avatar lands on [planet10], of radius 10: a tick of no
    duration leaves it on the ground at 10.5 from the centre. *)
Lemma landing_settles_on_threshold_witness :
  exists res player1 ph1,
    Physics.updatePlayerPhysics Physics.constructor fallingPlayer idleControls
      0 [planet10] None sampleCamera (mkGameState false)
    = Ok (res, player1, ph1)
    /\ p_onGround player1 = true
    /\ Vector3.distanceTo (p_position player1) (Mesh.position planet10)
       = 10 + 5 / 10.
Proof.
  destruct (falling_tick_lands idleControls 0)
    as (res & player1 & ph1 & E & Hc).
  assert (Hne : p_position fallingPlayer <> Mesh.position planet10).
  { unfold lowPosition; simpl; intros H; injection H as H; lra. }
  destruct (landing_settles_on_threshold Physics.constructor fallingPlayer
              idleControls 0 [planet10] None sampleCamera res player1
              ph1 planet10 E Hc Hne)
    as (radius & normal & velocity & G & _ & _ & _ & Hg & _ & _ & _ & Hh).
  injection G as <-.
  exists res, player1, ph1; split; [exact E|]; split; [exact Hg|].
  exact (Hh eq_refl).
Defined.

(** * The game around the physics core *)

(** ** The jump *)

(** X20.  A jump needs the ground, and there is no second one in the
    air.  With planets that can all be read and the avatar at the centre
    of none, [jump] returns; from the ground it adds [jumpForce] times a
    unit up direction to the velocity and clears onGround, off the
    ground it changes nothing; a second [jump] right after changes
    nothing either.  Position and fuel are never touched. *)
Theorem jump_needs_ground (g : Game.t) :
  forallb hasParameters (Game.planets g) = true ->
  (forall q, In q (Game.planets g) ->
             p_position (Game.player g) <> Mesh.position q) ->
  exists g' up,
    Game.jump g = Ok g'
    /\ Game.jump g' = Ok g'
    /\ Physics.calculateUpDirection (Game.physics g)
         (p_position (Game.player g)) (Game.planets g) = Ok up
    /\ Vector3.length up = 1
    /\ p_onGround (Game.player g') = false
    /\ p_position (Game.player g') = p_position (Game.player g)
    /\ fuel (Game.player g') = fuel (Game.player g)
    /\ p_velocity (Game.player g')
       = if p_onGround (Game.player g)
         then Vector3.add (p_velocity (Game.player g))
                (Vector3.multiplyScalar up (Physics.jumpForce (Game.physics g)))
         else p_velocity (Game.player g).
Proof.
  intros Hall Hne.
  destruct (calculateUpDirection_total (Game.physics g)
              (p_position (Game.player g)) (Game.planets g) Hall) as (up & E).
  assert (Hup : Vector3.length up = 1).
  { unfold Physics.calculateUpDirection in E.
    destruct (Physics.getNearestPlanet (p_position (Game.player g))
                (Game.planets g)) as [[[planet d]|]|] eqn:En;
      cbn [bind] in E; try discriminate.
    - destruct (d >? Physics.alignmentDistance (Game.physics g)).
      + injection E as <-; apply length_world_up.
      + injection E as <-.
        apply length_offset, Hne, (getNearestPlanet_in _ _ planet d En).
    - injection E as <-; apply length_world_up. }
  unfold Game.jump.
  destruct (p_onGround (Game.player g)) eqn:Hg.
  - rewrite E; cbn [bind].
    eexists; exists up; split; [reflexivity|].
    cbn [Game.setPlayer Game.player Physics.setMotion p_onGround p_position
         p_velocity fuel].
    repeat split; auto.
  - exists g, up; rewrite Hg; repeat split; auto.
Qed.

Lemma jump_needs_ground_witness :
  exists g',
    Game.jump landedGame = Ok g'
    /\ p_onGround (Game.player g') = false
    /\ Game.jump g' = Ok g'.
Proof.
  assert (Hne : forall q, In q (Game.planets landedGame) ->
                  p_position (Game.player landedGame) <> Mesh.position q).
  { intros q [<-|[]]; simpl; intros H; injection H as H; lra. }
  destruct (jump_needs_ground landedGame eq_refl Hne)
    as (g' & up & E & E2 & _ & _ & Hg & _).
  exists g'; auto.
Defined.

(** ** The keys *)

Lemma setControls_same (g : Game.t) :
  Game.setControls g (Game.controls g) = g.
Proof. destruct g; reflexivity. Qed.

Lemma isKey_eq (code name : String.string) :
  Game.isKey code name = true -> code = name.
Proof. apply String.eqb_eq. Qed.

(** X21.  Keyboard auto-repeat is harmless for the keys that set flags.
    For every key but V, C and E, a second key-down event of the same
    key, with nothing in between, changes nothing: this holds for the
    four movement keys, both Shift keys and Space (a repeated Space
    does not jump again), for Tab and for every key the handler has no
    case for.  V and C are real exceptions: every key-down of V flips
    noclip, and every key-down of C moves the camera on to another
    mode.  (E acts on the bookkeeping of discoveries, outside this
    state.) *)
Theorem key_repeat_harmless (code : String.string) (g g1 : Game.t) :
  Game.handleKeyDown code g = Ok g1 ->
  (code <> "KeyV"%string -> code <> "KeyC"%string -> code <> "KeyE"%string ->
   Game.handleKeyDown code g1 = Ok g1)
  /\ (code = "KeyV"%string ->
      noclip (Game.gameState g1) = negb (noclip (Game.gameState g))
      /\ Game.playerNoclip g1 = noclip (Game.gameState g1))
  /\ (code = "KeyC"%string -> rigConsistent (Game.rig g) ->
      CameraRig.cameraMode (Game.rig g1) <> CameraRig.cameraMode (Game.rig g)
      /\ Game.handleKeyDown code g1 <> Ok g1).
Proof.
  intros E; split; [|split].
  - intros Hv Hc _; unfold Game.handleKeyDown in *.
    destruct (Game.isKey code "KeyW"%string) eqn:K1.
    { injection E as <-; destruct g as [? ? ? ? ? ? [] ? ? ? ? ? ? ? ? ?];
        reflexivity. }
    destruct (Game.isKey code "KeyS"%string) eqn:K2.
    { injection E as <-; destruct g as [? ? ? ? ? ? [] ? ? ? ? ? ? ? ? ?];
        reflexivity. }
    destruct (Game.isKey code "KeyA"%string) eqn:K3.
    { injection E as <-; destruct g as [? ? ? ? ? ? [] ? ? ? ? ? ? ? ? ?];
        reflexivity. }
    destruct (Game.isKey code "KeyD"%string) eqn:K4.
    { injection E as <-; destruct g as [? ? ? ? ? ? [] ? ? ? ? ? ? ? ? ?];
        reflexivity. }
    destruct (Game.isKey code "ShiftLeft"%string
              || Game.isKey code "ShiftRight"%string) eqn:K5.
    { destruct (p_onGround (Game.player g)) eqn:Hg; injection E as <-;
        destruct g as [? [] ? ? ? ? [] ? ? ? ? ? ? ? ? ?];
        cbn in Hg |- *; rewrite Hg; reflexivity. }
    destruct (Game.isKey code "Space"%string) eqn:K6.
    { destruct (negb (Game.jumpHeld (Game.controls g))
                && p_onGround (Game.player g)) eqn:Hj.
      - unfold Game.jump in E.
        apply andb_true_iff in Hj as (_ & Hg); rewrite Hg in E.
        destruct (Physics.calculateUpDirection _ _ _) as [up|e];
          cbn [bind] in E; [|discriminate].
        injection E as <-.
        destruct g as [? [] ? ? ? ? [] ? ? ? ? ? ? ? ? ?]; reflexivity.
      - cbn [bind] in E; injection E as <-.
        destruct g as [? [] ? ? ? ? [] ? ? ? ? ? ? ? ? ?]; reflexivity. }
    destruct (Game.isKey code "KeyV"%string) eqn:K7.
    { apply isKey_eq in K7; contradiction. }
    destruct (Game.isKey code "KeyC"%string) eqn:K8.
    { apply isKey_eq in K8; contradiction. }
    injection E as <-; reflexivity.
  - intros ->.
    unfold Game.handleKeyDown, Game.isKey in E; simpl String.eqb in E.
    cbn [orb] in E; injection E as <-; split; reflexivity.
  - intros -> (Hmode & _).
    unfold Game.handleKeyDown, Game.isKey in E; simpl String.eqb in E.
    cbn [orb] in E; injection E as <-.
    assert (Hnext : forall c : CameraRig.t,
               (CameraRig.cameraMode c = "firstPerson"%string
                \/ CameraRig.cameraMode c = "scope"%string
                \/ CameraRig.cameraMode c = "thirdPerson"%string) ->
               CameraRig.cameraMode (CameraRig.cycleCameraMode c)
               <> CameraRig.cameraMode c
               /\ (CameraRig.cameraMode (CameraRig.cycleCameraMode c)
                   = "firstPerson"%string
                   \/ CameraRig.cameraMode (CameraRig.cycleCameraMode c)
                      = "scope"%string
                   \/ CameraRig.cameraMode (CameraRig.cycleCameraMode c)
                      = "thirdPerson"%string)).
    { intros c [Hm|[Hm|Hm]]; unfold CameraRig.cycleCameraMode;
        rewrite Hm;
        cbn [CameraRig.isMode String.eqb Ascii.eqb Bool.eqb
             CameraRig.setCameraMode CameraRig.cameraMode];
        (split; [discriminate | auto]). }
    assert (Hm : CameraRig.cameraMode (Game.rig g) = "firstPerson"%string
                 \/ CameraRig.cameraMode (Game.rig g) = "scope"%string
                 \/ CameraRig.cameraMode (Game.rig g) = "thirdPerson"%string)
      by (destruct Hmode as [(H & _)|[(H & _)|(H & _)]]; auto).
    destruct (Hnext (Game.rig g) Hm) as (Hne & Hm1).
    split; [exact Hne|].
    unfold Game.handleKeyDown, Game.isKey; simpl String.eqb; cbn [orb].
    intros [= Heq].
    destruct (Hnext _ Hm1) as (Hne2 & _).
    apply Hne2; now rewrite Heq.
Qed.

Lemma space_on_landedGame :
  exists g1, Game.handleKeyDown "Space"%string landedGame = Ok g1.
Proof.
  unfold Game.handleKeyDown, Game.isKey; simpl String.eqb; cbn [orb].
  change (negb (Game.jumpHeld (Game.controls landedGame))
          && p_onGround (Game.player landedGame)) with true.
  cbv iota; unfold Game.jump.
  change (p_onGround (Game.player landedGame)) with true; cbv iota.
  destruct (calculateUpDirection_total (Game.physics landedGame)
              (p_position (Game.player landedGame))
              (Game.planets landedGame) eq_refl) as (up & ->).
  cbn [bind]; eauto.
Qed.

Lemma key_repeat_harmless_witness :
  exists g1,
    Game.handleKeyDown "Space"%string landedGame = Ok g1
    /\ Game.handleKeyDown "Space"%string g1 = Ok g1.
Proof.
  destruct space_on_landedGame as (g1 & E).
  exists g1; split; [exact E|].
  apply (key_repeat_harmless "Space"%string landedGame g1 E); discriminate.
Defined.

(** A press of Space while its flags are still set changes nothing. *)
Lemma space_down_held (code : String.string) (g : Game.t) :
  Game.isKey code "Space"%string = true ->
  jump (Game.controls g) = true -> jetpack (Game.controls g) = true ->
  Game.handleKeyDown code g = Ok g.
Proof.
  intros K Hj Hp; apply isKey_eq in K; subst code.
  unfold Game.handleKeyDown, Game.isKey; simpl String.eqb; cbn [orb].
  unfold Game.jumpHeld; rewrite Hj; cbn [negb andb bind].
  destruct g as [? ? ? ? ? ? [] ? ? ? ? ? ? ? ? ?]; cbn in Hj, Hp |- *.
  subst; reflexivity.
Qed.

Lemma updatePlayer_controls (g g' : Game.t) :
  Game.updatePlayer g = Ok g' -> Game.controls g' = Game.controls g.
Proof.
  unfold Game.updatePlayer.
  destruct (Physics.updatePlayerPhysics _ _ _ _ _ _ _ _)
    as [[[res player'] ph']|e]; cbn [bind]; [|discriminate].
  destruct (PlayerController.alignWithSurface _ _ _ _ _ _) as [[pc' b]|e];
    cbn [bind]; [|discriminate].
  destruct (Game.updateUI _) as [stats|e]; cbn [bind]; [|discriminate].
  intros [= <-]; reflexivity.
Qed.

Lemma purchaseUpgrade_controls (upgrade : Upgrade) (g g' : Game.t) :
  Game.purchaseUpgrade upgrade g = Ok g' -> Game.controls g' = Game.controls g.
Proof.
  unfold Game.purchaseUpgrade; cbv zeta.
  destruct (Game.updateUI _) as [stats|e]; cbn [bind]; [|discriminate].
  intros [= <-].
  repeat match goal with
         | |- context [if ?c then _ else _] => destruct c
         end; reflexivity.
Qed.

(** Nothing but the release of Space clears the two flags it governs. *)
Lemma step_keeps_space (g g' : Game.t) (e : Game.Event) :
  jump (Game.controls g) = true -> jetpack (Game.controls g) = true ->
  isSpaceUp e = false ->
  Game.step g e = Ok g' ->
  jump (Game.controls g') = true /\ jetpack (Game.controls g') = true.
Proof.
  intros Hj Hp Hup E; destruct e as [code|code|upgrade|delta pl s cam];
    cbn [Game.step isSpaceUp] in *.
  - unfold Game.handleKeyDown in E.
    repeat match type of E with
           | (if ?c then _ else _) = _ => destruct c
           end;
      try (injection E as <-; cbn; auto).
    destruct (negb _ && _).
    + unfold Game.jump in E.
      destruct (p_onGround (Game.player g)).
      * destruct (Physics.calculateUpDirection _ _ _) as [up|err];
          cbn [bind] in E; [|discriminate].
        injection E as <-; cbn; auto.
      * cbn [bind] in E; injection E as <-; cbn; auto.
    + cbn [bind] in E; injection E as <-; cbn; auto.
  - injection E as <-; unfold Game.handleKeyUp.
    rewrite Hup.
    repeat match goal with
           | |- context [if ?c then _ else _] => destruct c
           end; cbn; auto.
  - apply purchaseUpgrade_controls in E; rewrite E; auto.
  - unfold Game.animate in E.
    apply updatePlayer_controls in E; rewrite E; cbn; auto.
Qed.

(** X22.  Holding Space jumps once.  In a run that starts with the flags
    of Space set (it is held) and in which Space is never released, the
    key-down events of Space -- the auto-repeat of the held key -- have
    no effect at all: the run ends as it does without them, also when
    the avatar lands again in between. *)
Theorem held_space_jumps_once (events : list Game.Event) :
  forall g : Game.t,
    jump (Game.controls g) = true -> jetpack (Game.controls g) = true ->
    existsb isSpaceUp events = false ->
    Game.run g events
    = Game.run g (filter (fun e => negb (isSpaceDown e)) events).
Proof.
  induction events as [|e rest IH]; intros g Hj Hp Hup; [reflexivity|].
  cbn [existsb] in Hup; apply orb_false_iff in Hup as (Hup & Hrest).
  cbn [filter Game.run].
  destruct (isSpaceDown e) eqn:Hd; cbn [negb].
  - destruct e as [code| | |]; try discriminate.
    cbn [Game.step]; rewrite (space_down_held code g Hd Hj Hp); cbn [bind].
    now apply IH.
  - cbn [Game.run].
    destruct (Game.step g e) as [g'|err] eqn:E; cbn [bind]; [|reflexivity].
    destruct (step_keeps_space g g' e Hj Hp Hup E) as (Hj' & Hp').
    now apply IH.
Qed.

Lemma held_space_jumps_once_witness :
  Game.run spaceHeldGame
    [Game.KeyDown "Space"%string;
     Game.Frame (1 / 60) [planet10] None sampleCamera;
     Game.KeyDown "Space"%string]
  = Game.run spaceHeldGame [Game.Frame (1 / 60) [planet10] None sampleCamera].
Proof.
  apply (held_space_jumps_once
           [Game.KeyDown "Space"%string;
            Game.Frame (1 / 60) [planet10] None sampleCamera;
            Game.KeyDown "Space"%string]
           spaceHeldGame eq_refl eq_refl eq_refl).
Defined.

(** ** The gauges *)

Lemma scanPlanets_total (physics : option Physics.t) (pos : Vec)
    (planets : list Mesh.t) :
  forallb hasParameters planets = true ->
  forall acc, exists found,
    PlayerController.scanPlanets physics pos acc planets = Ok found.
Proof.
  induction planets as [|planet rest IH]; intros Hall acc; [simpl; eauto|].
  cbn [forallb] in Hall; apply andb_true_iff in Hall as (Hp & Hrest).
  cbn [PlayerController.scanPlanets].
  unfold PlayerController.influenceStep.
  destruct (hasParameters_parametersRadius planet Hp) as ([r|] & ->);
    cbn [bind].
  - destruct acc as [best|]; cbn [bind]; [|now apply IH].
    destruct (_ <? _); cbn [bind]; now apply IH.
  - now apply IH.
Qed.

Lemma alignWithSurface_total
    (pc : PlayerController.t) (physics : option Physics.t)
    (planets : list Mesh.t) (up : Vec) (deltaTime speed : R) :
  forallb hasParameters planets = true ->
  exists out,
    PlayerController.alignWithSurface pc physics planets up deltaTime speed
    = Ok out.
Proof.
  intros Hall; unfold PlayerController.alignWithSurface.
  destruct (PlayerController.noclip pc); [eauto|].
  destruct (scanPlanets_total physics (PlayerController.position pc) planets
              Hall None) as (found & ->); cbn [bind].
  destruct found as [inf|]; [|eauto].
  destruct (_ >? _); eauto.
Qed.

(** What a tick does to the gauges. *)
Lemma tick_gauges
    (ph : Physics.t) (player : Player) (controls : ControlsState)
    (deltaTime : R) (planets : list Mesh.t) (sun : option Mesh.t)
    (camera : Camera) (gameState : GameState) :
  forallb hasParameters planets = true ->
  0 <= deltaTime ->
  0 <= fuel player ->
  0 <= stamina player <= maxStamina player ->
  0 <= staminaDrainRate player -> 0 <= staminaRechargeRate player ->
  exists res player' ph',
    Physics.updatePlayerPhysics ph player controls deltaTime planets sun
                                camera gameState = Ok (res, player', ph')
    /\ 0 <= fuel player' <= fuel player
    /\ 0 <= stamina player' <= maxStamina player'
    /\ maxStamina player' = maxStamina player
    /\ staminaDrainRate player' = staminaDrainRate player
    /\ staminaRechargeRate player' = staminaRechargeRate player.
Proof.
  intros Hall Hdt Hf Hs Hdrain Hre.
  destruct (updateStamina_bounds player controls deltaTime Hdt Hs Hdrain Hre)
    as (Hs' & Hmax & Hfuel & _).
  assert (Hrates :
            staminaDrainRate (Physics.updateStamina player controls deltaTime)
            = staminaDrainRate player
            /\ staminaRechargeRate
                 (Physics.updateStamina player controls deltaTime)
               = staminaRechargeRate player).
  { unfold Physics.updateStamina.
    destruct (sprint controls && _); [split; reflexivity|].
    destruct (negb (sprint controls) || _); split; reflexivity. }
  destruct Hrates as (Hd0 & Hr0).
  unfold Physics.updatePlayerPhysics.
  set (player0 := Physics.updateStamina player controls deltaTime) in *.
  destruct (noclip gameState).
  - unfold Physics.noclipStep.
    do 3 eexists; split; [reflexivity|]; simpl.
    rewrite Hfuel; repeat split; auto; lra.
  - destruct (calculateUpDirection_total ph (p_position player0) planets Hall)
      as (up & ->); cbn [bind].
    destruct (checkPlayerEnvironment_total ph (p_position player0) planets Hall)
      as (env & ph' & -> & Hok); cbn [bind].
    destruct (zoneDrag_total ph env Hok) as (drag & ->); cbn [bind].
    rewrite <- Hfuel in Hf.
    match goal with
    | |- context [Physics.applyJetpack ?a ?b ?c ?d ?e ?f ?g ?h ?i] =>
        destruct (applyJetpack_spend a b c d e f g h i Hall Hdt)
          as (v1 & f1 & E1 & Hle1 & _);
        destruct (applyJetpack_fuel a b c d e f g h i Hall Hf)
          as (v1' & f1' & E1' & Hf1 & _);
        rewrite E1 in E1'; injection E1' as <- <-; rewrite E1
    end; cbn [bind].
    match goal with
    | |- context [Physics.applyDownThrusters ?a ?b ?c ?d ?e ?f ?g ?h ?i] =>
        destruct (applyDownThrusters_spend a b c d e f g h i Hall Hdt)
          as (v2 & f2 & E2 & Hle2 & _);
        destruct (applyDownThrusters_fuel a b c d e f g h i Hall Hf1)
          as (v2' & f2' & E2' & Hf2 & _);
        rewrite E2 in E2'; injection E2' as <- <-; rewrite E2
    end; cbn [bind].
    unfold Physics.handlePlanetCollisions.
    destruct (collisionLoop_total planets (p_position player0) v2 Hall)
      as (col & pos' & vel' & ->); cbn [bind].
    do 3 eexists; split; [reflexivity|]; simpl.
    rewrite Hfuel in *.
    repeat split; auto; lra.
Qed.

Lemma updateUI_total (g : Game.t) :
  forallb hasParameters (Game.planets g) = true ->
  exists stats, Game.updateUI g = Ok stats.
Proof.
  intros Hall; unfold Game.updateUI.
  destruct (getNearestPlanet_total (p_position (Game.player g))
              (Game.planets g) Hall) as (n & -> & _); cbn [bind].
  destruct n as [[planet d]|]; [destruct (d <? 500)|]; eauto.
Qed.

(** What the avatar's part of a frame does to the gauges. *)
Lemma updatePlayer_gauges (g : Game.t) :
  gaugesInRange g ->
  forallb hasParameters (Game.planets g) = true ->
  0 <= Game.deltaTime g ->
  exists g',
    Game.updatePlayer g = Ok g'
    /\ gaugesInRange g'
    /\ Game.maxFuel g' = Game.maxFuel g
    /\ Game.planets g' = Game.planets g.
Proof.
  intros ((Hf0 & Hf1) & Hs & Hd & Hr & Hj) Hall Hdt.
  unfold Game.updatePlayer.
  destruct (tick_gauges (Game.physics g) (Game.player g) (Game.controls g)
              (Game.deltaTime g) (Game.planets g) (Game.sun g) (Game.camera g)
              (Game.gameState g) Hall Hdt Hf0 Hs Hd Hr)
    as (res & player' & ph' & -> & Hfuel & Hs' & Hmax & Hd' & Hr');
    cbn [bind].
  match goal with
  | |- context [PlayerController.alignWithSurface ?pc ?ph ?pl ?up ?dt ?sp] =>
      assert (Ha : exists out,
                 PlayerController.alignWithSurface pc ph pl up dt sp = Ok out)
  end.
  { apply alignWithSurface_total.
    assumption. }
  destruct Ha as ([pc' b] & ->); cbn [bind].
  match goal with
  | |- context [Game.updateUI ?g1] =>
      destruct (updateUI_total g1 Hall) as (stats & ->)
  end; cbn [bind].
  eexists; split; [reflexivity|].
  unfold gaugesInRange;
    cbn [Game.player Game.maxFuel Game.jetpackRecharge Game.planets
         Physics.setMotion fuel stamina maxStamina staminaDrainRate
         staminaRechargeRate].
  assert (Hgain : 0 <= Game.jetpackRecharge g * Game.deltaTime g)
    by (apply Rmult_le_pos; assumption).
  repeat split; auto; try lra;
    destruct (negb (jetpack (Game.controls g))
              && negb (inSpace (environment res))); rcases; lra.
Qed.

Lemma handleKeyUp_gauges (code : String.string) (g : Game.t) :
  gaugesInRange g ->
  gaugesInRange (Game.handleKeyUp code g)
  /\ Game.maxFuel (Game.handleKeyUp code g) = Game.maxFuel g
  /\ Game.planets (Game.handleKeyUp code g) = Game.planets g.
Proof.
  intros H; unfold Game.handleKeyUp.
  repeat match goal with
         | |- context [if ?c then _ else _] => destruct c
         end; repeat split; try apply H; try reflexivity.
Qed.

Lemma handleKeyDown_gauges (code : String.string) (g : Game.t) :
  gaugesInRange g ->
  forallb hasParameters (Game.planets g) = true ->
  exists g',
    Game.handleKeyDown code g = Ok g'
    /\ gaugesInRange g'
    /\ Game.maxFuel g' = Game.maxFuel g
    /\ Game.planets g' = Game.planets g.
Proof.
  intros H Hall; unfold Game.handleKeyDown.
  assert (Hdone : forall g1,
             gaugesInRange g1 -> Game.maxFuel g1 = Game.maxFuel g ->
             Game.planets g1 = Game.planets g ->
             exists g', Ok g1 = Ok g' /\ gaugesInRange g'
                        /\ Game.maxFuel g' = Game.maxFuel g
                        /\ Game.planets g' = Game.planets g)
    by (intros g1 ? ? ?; exists g1; auto).
  destruct (Game.isKey code "KeyW"%string); [now apply Hdone|].
  destruct (Game.isKey code "KeyS"%string); [now apply Hdone|].
  destruct (Game.isKey code "KeyA"%string); [now apply Hdone|].
  destruct (Game.isKey code "KeyD"%string); [now apply Hdone|].
  destruct (Game.isKey code "ShiftLeft"%string
            || Game.isKey code "ShiftRight"%string).
  { destruct (p_onGround (Game.player g)); now apply Hdone. }
  destruct (Game.isKey code "Space"%string).
  { destruct (negb _ && _); cbn [bind]; [|now apply Hdone].
    unfold Game.jump.
    destruct (p_onGround (Game.player g)); cbn [bind]; [|now apply Hdone].
    destruct (calculateUpDirection_total (Game.physics g)
                (p_position (Game.player g)) (Game.planets g) Hall)
      as (up & ->); cbn [bind].
    now apply Hdone. }
  destruct (Game.isKey code "KeyV"%string); [now apply Hdone|].
  destruct (Game.isKey code "KeyC"%string); now apply Hdone.
Qed.

Lemma purchaseUpgrade_gauges (upgrade : Upgrade) (g : Game.t) :
  gaugesInRange g ->
  forallb hasParameters (Game.planets g) = true ->
  exists g',
    Game.purchaseUpgrade upgrade g = Ok g'
    /\ gaugesInRange g'
    /\ Game.maxFuel g <= Game.maxFuel g'
    /\ Game.planets g' = Game.planets g.
Proof.
  intros ((Hf0 & Hf1) & Hs & Hd & Hr & Hj) Hall.
  unfold Game.purchaseUpgrade; cbv zeta.
  match goal with
  | |- context [Game.updateUI ?g1] =>
      assert (Hg1 : Game.planets g1 = Game.planets g
                    /\ gaugesInRange g1 /\ Game.maxFuel g <= Game.maxFuel g1);
      [|destruct Hg1 as (Hp1 & Hin1 & Hm1);
        destruct (updateUI_total g1) as (stats & ->);
        [now rewrite Hp1 | cbn [bind]; eexists; split; [reflexivity|]; auto]]
  end.
  unfold gaugesInRange.
  repeat match goal with
         | |- context [if ?c then _ else _] => destruct c
         end; cbn; repeat split; auto; lra.
Qed.

(** X23.  The gauges stay in range.  From a game whose fuel is within
    [0, maxFuel], whose stamina is within [0, maxStamina] and whose
    drain and recharge rates are not negative, every run of key events,
    purchases and frames (time steps not negative, planets that can be
    read) returns, and ends with the fuel within [0, maxFuel] and the
    stamina within [0, maxStamina]: neither the thrusters, nor the
    recharge at the end of a frame, nor an upgrade take a gauge out of
    its range.  The tank never shrinks. *)
Theorem gauges_stay_in_range (events : list Game.Event) :
  forall g : Game.t,
    gaugesInRange g ->
    forallb hasParameters (Game.planets g) = true ->
    Forall frameReadable events ->
    exists g',
      Game.run g events = Ok g'
      /\ 0 <= fuel (Game.player g') <= Game.maxFuel g'
      /\ 0 <= stamina (Game.player g') <= maxStamina (Game.player g')
      /\ Game.maxFuel g <= Game.maxFuel g'.
Proof.
  induction events as [|e rest IH]; intros g Hg Hall Hev.
  - exists g; split; [reflexivity|].
    destruct Hg as ((Hf0 & Hf1) & (Hs0 & Hs1) & _); repeat split; auto; lra.
  - inversion Hev as [|e' rest' He Hrest]; subst.
    assert (Hstep : exists g1,
               Game.step g e = Ok g1 /\ gaugesInRange g1
               /\ Game.maxFuel g <= Game.maxFuel g1
               /\ forallb hasParameters (Game.planets g1) = true).
    { destruct e as [code|code|upgrade|delta pl s cam]; cbn [Game.step].
      - destruct (handleKeyDown_gauges code g Hg Hall)
          as (g1 & E & H1 & Hm & Hp).
        exists g1; split; [exact E|]; split; [exact H1|].
        split; [rewrite Hm; lra | now rewrite Hp].
      - destruct (handleKeyUp_gauges code g Hg) as (H1 & Hm & Hp).
        eexists; split; [reflexivity|]; split; [exact H1|].
        split; [rewrite Hm; lra | now rewrite Hp].
      - destruct (purchaseUpgrade_gauges upgrade g Hg Hall)
          as (g1 & E & H1 & Hm & Hp).
        exists g1; split; [exact E|]; split; [exact H1|].
        split; [exact Hm | now rewrite Hp].
      - destruct He as (Hdelta & Hpl).
        unfold Game.animate.
        destruct (updatePlayer_gauges
                    (Game.setFrame g (Rmin (1 / 10) delta) pl s cam))
          as (g1 & E & H1 & Hm & Hp).
        + exact Hg.
        + exact Hpl.
        + cbn [Game.setFrame Game.deltaTime].
          apply Rmin_glb; lra.
        + exists g1; split; [exact E|]; split; [exact H1|].
          split; [rewrite Hm; cbn [Game.setFrame Game.maxFuel]; lra|].
          rewrite Hp; exact Hpl. }
    destruct Hstep as (g1 & E & H1 & Hm & Hp).
    destruct (IH g1 H1 Hp Hrest) as (g' & Erun & Hf & Hs & Hm').
    exists g'; cbn [Game.run]; rewrite E; cbn [bind].
    split; [exact Erun|]; split; [exact Hf|]; split; [exact Hs | lra].
Qed.

Lemma gauges_stay_in_range_witness :
  exists g',
    Game.run landedGame
      [Game.KeyDown "Space"%string;
       Game.Frame (1 / 60) [planet10] None sampleCamera;
       Game.Purchase (mkUpgrade "Enhanced Fuel Capacity"%string 300
                    "Increases max fuel by 50%"%string);
       Game.KeyUp "Space"%string;
       Game.Frame (1 / 60) [planet10] None sampleCamera] = Ok g'
    /\ 0 <= fuel (Game.player g') <= Game.maxFuel g'
    /\ 100 <= Game.maxFuel g'.
Proof.
  assert (Hg : gaugesInRange landedGame).
  { unfold gaugesInRange; simpl; lra. }
  assert (Hev : Forall frameReadable
                  [Game.KeyDown "Space"%string;
                   Game.Frame (1 / 60) [planet10] None sampleCamera;
                   Game.Purchase (mkUpgrade "Enhanced Fuel Capacity"%string 300
                    "Increases max fuel by 50%"%string);
                   Game.KeyUp "Space"%string;
                   Game.Frame (1 / 60) [planet10] None sampleCamera]).
  { repeat constructor; simpl; lra. }
  destruct (gauges_stay_in_range _ landedGame Hg eq_refl Hev)
    as (g' & E & Hf & _ & Hm).
  exists g'; split; [exact E|]; split; [exact Hf | exact Hm].
Defined.

(** ** The surface basis of the alignment *)

Lemma lengthSq_crossVectors (a b : Vec) :
  Vector3.lengthSq (Vector3.crossVectors a b)
  = Vector3.dot a a * Vector3.dot b b - Vector3.dot a b * Vector3.dot a b.
Proof. unfold Vector3.lengthSq, Vector3.dot; simpl; ring. Qed.

Lemma dot_crossVectors_l (a b : Vec) :
  Vector3.dot (Vector3.crossVectors a b) a = 0.
Proof. unfold Vector3.dot; simpl; ring. Qed.

Lemma crossVectors_twice (a b : Vec) :
  Vector3.crossVectors (Vector3.crossVectors a b) a
  = Vector3.sub (Vector3.multiplyScalar b (Vector3.dot a a))
                (Vector3.multiplyScalar a (Vector3.dot a b)).
Proof. apply vec_ext; unfold Vector3.dot; simpl; ring. Qed.

Lemma normalize_unit (v : Vec) :
  Vector3.length v = 1 -> Vector3.normalize v = v.
Proof.
  intros H; rewrite normalize_scaled by lra.
  rewrite H; apply vec_ext; simpl; field.
Qed.

Lemma dot_negate_r (a b : Vec) :
  Vector3.dot a (Vector3.negate b) = - Vector3.dot a b.
Proof. unfold Vector3.dot; simpl; ring. Qed.

(** The reference vector is a unit vector that is never parallel to a
    unit up direction. *)
Lemma planetRightReference_apart (up : Vec) :
  Vector3.length up = 1 ->
  Vector3.dot (planetRightReference up) (planetRightReference up) = 1
  /\ Vector3.dot (planetRightReference up) up
     * Vector3.dot (planetRightReference up) up < 1.
Proof.
  intros Hup; apply dot_unit in Hup.
  unfold planetRightReference.
  destruct up as [ux uy uz]; unfold Vector3.dot in *; simpl in *.
  destruct (Rabs (ux * 1 + uy * 0 + uz * 0) >? 9 / 10) eqn:C;
    [apply Rgtb_true in C | apply Rgtb_false in C]; simpl;
    replace (ux * 1 + uy * 0 + uz * 0) with ux in C by ring;
    (split; [ring|]).
  - assert (81 / 100 < ux * ux).
    { destruct (Rcase_abs ux) as [Hn|Hp];
        [rewrite Rabs_left in C by assumption
        | rewrite Rabs_right in C by assumption]; nra. }
    nra.
  - assert (ux * ux <= 81 / 100).
    { destruct (Rcase_abs ux) as [Hn|Hp];
        [rewrite Rabs_left in C by assumption
        | rewrite Rabs_right in C by assumption]; nra. }
    nra.
Qed.

(** X24.  The surface basis is orthonormal, and left-handed.  For a
    unit up direction the three axes that [alignWithSurface] hands to
    [makeBasis] are unit vectors, pairwise perpendicular, with the up
    direction as the second one -- and the first crossed with the second
    is the opposite of the third, so their determinant is -1: the
    matrix is a reflection, not a rotation. *)
Theorem surface_basis_left_handed (upDirection : Vec) :
  Vector3.length upDirection = 1 ->
  exists X Z,
    baseAlignBasis upDirection = (X, upDirection, Z)
    /\ Vector3.length X = 1 /\ Vector3.length Z = 1
    /\ Vector3.dot X upDirection = 0
    /\ Vector3.dot upDirection Z = 0
    /\ Vector3.dot X Z = 0
    /\ Vector3.crossVectors X upDirection = Vector3.negate Z
    /\ Vector3.dot (Vector3.crossVectors X upDirection) Z = -1.
Proof.
  intros Hup.
  destruct (planetRightReference_apart upDirection Hup) as (Hr & Hapart).
  pose proof (dot_unit upDirection Hup) as Huu.
  set (r := planetRightReference upDirection) in *.
  set (f := planetForward upDirection).
  assert (Hc : Vector3.length (Vector3.crossVectors r upDirection) <> 0).
  { intros H0.
    assert (Hs : Vector3.lengthSq (Vector3.crossVectors r upDirection) = 0).
    { apply sqrt_eq_0; [apply lengthSq_nonneg | exact H0]. }
    rewrite lengthSq_crossVectors, Hr, Huu in Hs; lra. }
  assert (Hf : Vector3.length f = 1) by (apply length_normalize; exact Hc).
  assert (Hfu : Vector3.dot f upDirection = 0)
    by (apply dot_normalize_zero, dot_crossVectors_r).
  pose proof (dot_unit f Hf) as Hff.
  assert (Hx : Vector3.length (Vector3.crossVectors upDirection f) = 1).
  { apply length_of_square; [lra|].
    rewrite lengthSq_crossVectors, Huu, Hff, (dot_comm upDirection f), Hfu.
    ring. }
  assert (HX : planetRight upDirection = Vector3.crossVectors upDirection f)
    by (apply normalize_unit; exact Hx).
  exists (Vector3.crossVectors upDirection f), (Vector3.negate f).
  assert (Hcross : Vector3.crossVectors
                     (Vector3.crossVectors upDirection f) upDirection
                   = Vector3.negate (Vector3.negate f)).
  { rewrite crossVectors_twice, Huu, (dot_comm upDirection f), Hfu.
    apply vec_ext; simpl; ring. }
  split; [unfold baseAlignBasis; now rewrite HX|].
  split; [exact Hx|].
  split; [now rewrite length_negate|].
  split; [apply dot_crossVectors_l|].
  split; [rewrite dot_negate_r, (dot_comm upDirection f), Hfu; ring|].
  split; [rewrite dot_negate_r, dot_crossVectors_r; ring|].
  split; [exact Hcross|].
  rewrite Hcross, dot_negate_r.
  replace (Vector3.dot (Vector3.negate (Vector3.negate f)) f)
    with (Vector3.dot f f) by (unfold Vector3.dot; simpl; ring).
  rewrite Hff; ring.
Qed.

Lemma surface_basis_left_handed_witness :
  exists X Z,
    baseAlignBasis (Vector3.mk 0 1 0) = (X, Vector3.mk 0 1 0, Z)
    /\ Vector3.crossVectors X (Vector3.mk 0 1 0) = Vector3.negate Z.
Proof.
  destruct (surface_basis_left_handed (Vector3.mk 0 1 0) length_world_up)
    as (X & Z & E & _ & _ & _ & _ & _ & Hc & _).
  exists X, Z; split; assumption.
Defined.

(** ** The two alignment numbers *)

Lemma alignFactorOf_range (g e s : R) (ground : bool) :
  0 <= g -> 0 <= PlayerController.alignFactorOf g e s ground <= 1.
Proof.
  intros Hg; unfold PlayerController.alignFactorOf.
  destruct ground; [lra|].
  pose proof (reference_speed_pos e) as He.
  assert (Hbase : 0 <= Rmin 1 (g * (1 / 10)) <= 1).
  { split; [apply Rmin_glb; lra | apply Rmin_l]. }
  destruct (s / Rmax (1 / 10) e >? 5 / 10) eqn:C;
    [apply Rgtb_true in C | lra].
  set (k := Rmax 0 (1 - (s / Rmax (1 / 10) e - 5 / 10) * 2)).
  assert (Hk : 0 <= k <= 1).
  { split; [apply Rmax_l | apply Rmax_lub; lra]. }
  nra.
Qed.

(** The influence a scan settles on has a gravity factor that is not
    negative. *)
Lemma scanPlanets_gravityFactor (physics : option Physics.t) (pos : Vec)
    (planets : list Mesh.t) :
  0 <= PlayerController.constantG physics ->
  (forall b r, In b planets -> Mesh.geometry b = SphereGeometry r -> 0 <= r) ->
  forall acc found,
    match acc with
    | Some inf => 0 <= PlayerController.gravityFactor inf
    | None => True
    end ->
    PlayerController.scanPlanets physics pos acc planets = Ok found ->
    match found with
    | Some inf => 0 <= PlayerController.gravityFactor inf
    | None => True
    end.
Proof.
  intros HG; induction planets as [|planet rest IH]; intros Hr acc found Hacc E.
  - injection E as <-; exact Hacc.
  - cbn [PlayerController.scanPlanets] in E.
    unfold PlayerController.influenceStep, parametersRadius in E.
    assert (Hrest : forall b r, In b rest ->
                      Mesh.geometry b = SphereGeometry r -> 0 <= r)
      by (intros b r Hb; apply Hr; now right).
    destruct (Mesh.geometry planet) as [| |r] eqn:G; cbn [bind] in E;
      [discriminate | exact (IH Hrest acc found Hacc E) |].
    assert (Hrad : 0 <= r) by (apply (Hr planet r); [now left | exact G]).
    set (d := Rmax (1 / 10) (Vector3.distanceTo pos (Mesh.position planet)))
      in *.
    assert (Hd : 0 < d) by (pose proof (Rmax_l (1 / 10)
                              (Vector3.distanceTo pos (Mesh.position planet)));
                            unfold d; lra).
    assert (Hnew : 0 <= PlayerController.constantG physics * (r * 10)
                        / (d * d)).
    { apply Rmult_le_pos; [nra|].
      apply Rlt_le, Rinv_0_lt_compat; nra. }
    destruct acc as [best|]; cbn [bind] in E.
    + destruct (_ <? _); cbn [bind] in E.
      * apply (IH Hrest _ found) in E; [exact E | exact Hnew].
      * exact (IH Hrest (Some best) found Hacc E).
    + apply (IH Hrest _ found) in E; [exact E | exact Hnew].
Qed.

(** X25.  The two alignment numbers stay within [0, 1].  With planets
    that can all be read and have radii that are not negative, a
    gravitational constant that is not negative (or no physics instance
    at all), an alignment speed and a time step that are not negative,
    [alignWithSurface] returns and leaves [alignmentNeeded] and
    [alignmentStrength] within [0, 1] if they were; in noclip it changes
    nothing and answers false. *)
Theorem alignWithSurface_numbers
    (pc : PlayerController.t) (physics : option Physics.t)
    (planets : list Mesh.t) (up : Vec) (deltaTime alignmentSpeed : R) :
  forallb hasParameters planets = true ->
  (forall b r, In b planets -> Mesh.geometry b = SphereGeometry r -> 0 <= r) ->
  0 <= PlayerController.constantG physics ->
  0 <= alignmentSpeed -> 0 <= deltaTime ->
  0 <= PlayerController.alignmentNeeded pc <= 1 ->
  0 <= PlayerController.alignmentStrength pc <= 1 ->
  exists pc' answer,
    PlayerController.alignWithSurface pc physics planets up deltaTime
                                      alignmentSpeed = Ok (pc', answer)
    /\ 0 <= PlayerController.alignmentNeeded pc' <= 1
    /\ 0 <= PlayerController.alignmentStrength pc' <= 1
    /\ PlayerController.position pc' = PlayerController.position pc
    /\ PlayerController.velocity pc' = PlayerController.velocity pc
    /\ PlayerController.onGround pc' = PlayerController.onGround pc
    /\ (PlayerController.noclip pc = true -> pc' = pc /\ answer = false).
Proof.
  intros Hall Hrad HG Hsp Hdt Hn Hs.
  unfold PlayerController.alignWithSurface.
  destruct (PlayerController.noclip pc) eqn:Hnc.
  { exists pc, false; repeat split; auto; lra. }
  destruct (scanPlanets_total physics (PlayerController.position pc) planets
              Hall None) as (found & E); rewrite E; cbn [bind].
  pose proof (scanPlanets_gravityFactor physics (PlayerController.position pc)
                planets HG Hrad None found I E) as Hfound.
  destruct found as [inf|].
  - destruct (PlayerController.minDistance inf >? 500).
    + do 2 eexists; split; [reflexivity|]; cbn; repeat split;
        try lra; discriminate.
    + pose proof (alignFactorOf_range (PlayerController.gravityFactor inf)
                    (PlayerController.escapeVelocity inf)
                    (Vector3.length (PlayerController.velocity pc))
                    (PlayerController.onGround pc) Hfound) as Hf.
      set (a := PlayerController.alignFactorOf _ _ _ _) in *.
      do 2 eexists; split; [reflexivity|]; cbn.
      assert (Hprod : 0 <= a * alignmentSpeed * deltaTime * 30).
      { repeat apply Rmult_le_pos; lra. }
      repeat split; try lra; try discriminate;
        destruct (PlayerController.onGround pc); try lra;
        try (apply Rmin_glb; lra); try apply Rmin_l.
  - do 2 eexists; split; [reflexivity|]; cbn; repeat split;
      try lra; discriminate.
Qed.

Lemma alignWithSurface_numbers_witness :
  exists pc' answer,
    PlayerController.alignWithSurface
      (flying (Vector3.mk 40 0 0) (Vector3.mk 0 0 0))
      (Some Physics.constructor) [planet8] (Vector3.mk 1 0 0) (1 / 60)
      (5 / 100) = Ok (pc', answer)
    /\ 0 <= PlayerController.alignmentNeeded pc' <= 1
    /\ 0 <= PlayerController.alignmentStrength pc' <= 1.
Proof.
  assert (Hrad : forall b r, In b [planet8] ->
                   Mesh.geometry b = SphereGeometry r -> 0 <= r).
  { intros b r [<-|[]] G; injection G as <-; lra. }
  assert (HG : 0 <= PlayerController.constantG (Some Physics.constructor)).
  { rewrite constantG_constructor; lra. }
  destruct (alignWithSurface_numbers
              (flying (Vector3.mk 40 0 0) (Vector3.mk 0 0 0))
              (Some Physics.constructor) [planet8] (Vector3.mk 1 0 0) (1 / 60)
              (5 / 100) eq_refl Hrad HG ltac:(lra) ltac:(lra)
              ltac:(simpl; lra) ltac:(simpl; lra))
    as (pc' & answer & E & Hn & Hs & _).
  exists pc', answer; auto.
Defined.

(** ** The two scans for the nearest planet *)

Lemma scanPlanets_forEachNearest (physics : option Physics.t) (pos : Vec)
    (planets : list Mesh.t) :
  (forall q, In q planets ->
             1 / 10 <= Vector3.distanceTo pos (Mesh.position q)) ->
  forall acc,
    mapResult influenceNearest
              (PlayerController.scanPlanets physics pos acc planets)
    = Physics.forEachNearest pos (influenceNearest acc) planets.
Proof.
  induction planets as [|planet rest IH]; intros Hfar acc; [reflexivity|].
  assert (Hrest : forall q, In q rest ->
                    1 / 10 <= Vector3.distanceTo pos (Mesh.position q))
    by (intros q Hq; apply Hfar; now right).
  cbn [PlayerController.scanPlanets Physics.forEachNearest].
  unfold PlayerController.influenceStep, Physics.nearestStep.
  destruct (parametersRadius planet) as [[r|]|e]; cbn [bind];
    [| now apply IH | reflexivity].
  rewrite Rmax_right by (apply Hfar; now left).
  destruct acc as [best|]; cbn [influenceNearest].
  - destruct (_ <? _); cbn [bind]; rewrite IH by assumption; reflexivity.
  - cbn [bind]; rewrite IH by assumption; reflexivity.
Qed.

(** X26.  The alignment looks at the planet the physics looks at.  When
    the avatar is at least 0.1 away from the centre of every body, the
    scan inside [alignWithSurface] and [Physics.getNearestPlanet] agree:
    they fail together, find nothing together, or find the same planet
    at the same surface distance. *)
Theorem scanPlanets_agrees_with_getNearestPlanet
    (physics : option Physics.t) (pos : Vec) (planets : list Mesh.t) :
  (forall q, In q planets ->
             1 / 10 <= Vector3.distanceTo pos (Mesh.position q)) ->
  mapResult influenceNearest
            (PlayerController.scanPlanets physics pos None planets)
  = Physics.getNearestPlanet pos planets.
Proof.
  intros Hfar; unfold Physics.getNearestPlanet.
  exact (scanPlanets_forEachNearest physics pos planets Hfar None).
Qed.

Lemma scanPlanets_agrees_with_getNearestPlanet_witness :
  mapResult influenceNearest
            (PlayerController.scanPlanets (Some Physics.constructor)
               (Vector3.mk 40 0 0) None [planet8])
  = Physics.getNearestPlanet (Vector3.mk 40 0 0) [planet8].
Proof.
  apply (scanPlanets_agrees_with_getNearestPlanet (Some Physics.constructor)
           (Vector3.mk 40 0 0) [planet8]).
  intros q [<-|[]]; cbn [planet8 sphere Mesh.position].
  rewrite distanceTo_along_x; lra.
Defined.

(** ** The tuning of the physics instance *)

(** A tick writes two fields of the instance only: the stored zone and
    the delay counter. *)
Lemma updatePlayerPhysics_instance
    (ph : Physics.t) (player : Player) (controls : ControlsState)
    (deltaTime : R) (planets : list Mesh.t) (sun : option Mesh.t)
    (camera : Camera) (gameState : GameState)
    (res : PhysicsResult) (player' : Player) (ph' : Physics.t) :
  Physics.updatePlayerPhysics ph player controls deltaTime planets sun camera
                              gameState = Ok (res, player', ph') ->
  exists z k, ph' = Physics.setZone ph z k.
Proof.
  unfold Physics.updatePlayerPhysics.
  destruct (noclip gameState).
  { destruct (Physics.noclipStep _ _ _ _ _); intros [= _ _ <-].
    do 2 eexists; symmetry; apply setZone_eta. }
  destruct (Physics.calculateUpDirection _ _ _) as [up|e]; cbn [bind];
    [|discriminate].
  destruct (Physics.checkPlayerEnvironment ph _ planets)
    as [[env ph1]|e] eqn:Eenv; cbn [bind]; [|discriminate].
  assert (H1 : exists z k, ph1 = Physics.setZone ph z k).
  { unfold Physics.checkPlayerEnvironment in Eenv.
    destruct (Physics.getNearestPlanet _ _) as [[[planet d]|]|e];
      cbn [bind] in Eenv; try discriminate.
    - destruct (parametersRadius planet) as [radius|e]; cbn [bind] in Eenv;
        [|discriminate].
      match type of Eenv with
      | context [Physics.delayZoneSwitch ph ?p] =>
          destruct (Physics.delayZoneSwitch ph p) as [zone ph2] eqn:Ed
      end.
      injection Eenv as _ <-.
      unfold Physics.delayZoneSwitch in Ed.
      destruct (Physics.lastZone ph) as [last|];
        [destruct (negb _); [destruct (_ <? _)%nat|]|];
        injection Ed as _ <-; eauto.
    - injection Eenv as _ <-.
      do 2 eexists; symmetry; apply setZone_eta. }
  destruct (Physics.zoneDrag ph env) as [drag|e]; cbn [bind]; [|discriminate].
  destruct (Physics.applyJetpack _ _ _ _ _ _ _ _ _) as [[v1 f1]|e];
    cbn [bind]; [|discriminate].
  destruct (Physics.applyDownThrusters _ _ _ _ _ _ _ _ _) as [[v2 f2]|e];
    cbn [bind]; [|discriminate].
  destruct (Physics.handlePlanetCollisions _ _ _ _) as [[[col pos1] vel1]|e];
    cbn [bind]; [|discriminate].
  intros [= _ _ <-]; exact H1.
Qed.

Lemma handleKeyDown_physics (code : String.string) (g g' : Game.t) :
  Game.handleKeyDown code g = Ok g' -> Game.physics g' = Game.physics g.
Proof.
  unfold Game.handleKeyDown.
  destruct (Game.isKey code "KeyW"%string); [intros [= <-]; reflexivity|].
  destruct (Game.isKey code "KeyS"%string); [intros [= <-]; reflexivity|].
  destruct (Game.isKey code "KeyA"%string); [intros [= <-]; reflexivity|].
  destruct (Game.isKey code "KeyD"%string); [intros [= <-]; reflexivity|].
  destruct (Game.isKey code "ShiftLeft"%string
            || Game.isKey code "ShiftRight"%string).
  { destruct (p_onGround (Game.player g)); intros [= <-]; reflexivity. }
  destruct (Game.isKey code "Space"%string).
  { destruct (negb _ && _); cbn [bind]; [|intros [= <-]; reflexivity].
    unfold Game.jump.
    destruct (p_onGround (Game.player g)); cbn [bind];
      [|intros [= <-]; reflexivity].
    destruct (Physics.calculateUpDirection _ _ _) as [up|e]; cbn [bind];
      [intros [= <-]; reflexivity | discriminate]. }
  destruct (Game.isKey code "KeyV"%string); [intros [= <-]; reflexivity|].
  destruct (Game.isKey code "KeyC"%string); intros [= <-]; reflexivity.
Qed.

Lemma handleKeyUp_physics (code : String.string) (g : Game.t) :
  Game.physics (Game.handleKeyUp code g) = Game.physics g.
Proof.
  unfold Game.handleKeyUp.
  repeat match goal with
         | |- context [if ?c then _ else _] => destruct c
         end; reflexivity.
Qed.

(** Every step returns on planets that can be read, and leaves planets
    that can be read. *)
Lemma step_total (g : Game.t) (e : Game.Event) :
  forallb hasParameters (Game.planets g) = true ->
  frameReadable e ->
  exists g1,
    Game.step g e = Ok g1
    /\ forallb hasParameters (Game.planets g1) = true.
Proof.
  intros Hall He; destruct e as [code|code|upgrade|delta pl s cam];
    cbn [Game.step].
  - unfold Game.handleKeyDown.
    assert (Hdone : forall g1, Game.planets g1 = Game.planets g ->
               exists g', Ok g1 = Ok g'
                          /\ forallb hasParameters (Game.planets g') = true)
      by (intros g1 Hp; exists g1; rewrite Hp; auto).
    destruct (Game.isKey code "KeyW"%string); [now apply Hdone|].
    destruct (Game.isKey code "KeyS"%string); [now apply Hdone|].
    destruct (Game.isKey code "KeyA"%string); [now apply Hdone|].
    destruct (Game.isKey code "KeyD"%string); [now apply Hdone|].
    destruct (Game.isKey code "ShiftLeft"%string
              || Game.isKey code "ShiftRight"%string).
    { destruct (p_onGround (Game.player g)); now apply Hdone. }
    destruct (Game.isKey code "Space"%string).
    { destruct (negb _ && _); cbn [bind]; [|now apply Hdone].
      unfold Game.jump.
      destruct (p_onGround (Game.player g)); cbn [bind]; [|now apply Hdone].
      destruct (calculateUpDirection_total (Game.physics g)
                  (p_position (Game.player g)) (Game.planets g) Hall)
        as (up & ->); cbn [bind].
      now apply Hdone. }
    destruct (Game.isKey code "KeyV"%string); [now apply Hdone|].
    destruct (Game.isKey code "KeyC"%string); now apply Hdone.
  - eexists; split; [reflexivity|].
    unfold Game.handleKeyUp.
    repeat match goal with
           | |- context [if ?c then _ else _] => destruct c
           end; exact Hall.
  - unfold Game.purchaseUpgrade; cbv zeta.
    match goal with
    | |- context [Game.updateUI ?g1] =>
        assert (Hp1 : Game.planets g1 = Game.planets g)
          by (repeat match goal with
                     | |- context [if ?c then _ else _] => destruct c
                     end; reflexivity);
        destruct (updateUI_total g1) as (stats & ->);
        [now rewrite Hp1 | cbn [bind]; eexists; split; [reflexivity|]]
    end.
    now rewrite Hp1.
  - destruct He as (_ & Hpl).
    unfold Game.animate, Game.updatePlayer.
    cbn [Game.setFrame Game.physics Game.player Game.controls Game.deltaTime
         Game.planets Game.sun Game.camera Game.gameState Game.rig
         Game.playerNoclip Game.alignmentNeeded Game.alignmentStrength
         Game.jetpackRecharge Game.maxFuel].
    match goal with
    | |- context [Physics.updatePlayerPhysics ?a ?b ?c ?d ?e ?f ?h ?i] =>
        destruct (updatePlayerPhysics_total a b c d e f h i Hpl)
          as ([[res player'] ph'] & ->)
    end; cbn [bind].
    match goal with
    | |- context [PlayerController.alignWithSurface ?pc ?ph ?l ?up ?dt ?sp] =>
        assert (Ha : exists out,
                   PlayerController.alignWithSurface pc ph l up dt sp = Ok out)
    end.
    { apply alignWithSurface_total.
      assumption. }
    destruct Ha as ([pc' b] & ->); cbn [bind].
    match goal with
    | |- context [Game.updateUI ?g1] =>
        destruct (updateUI_total g1 Hpl) as (stats & ->)
    end; cbn [bind].
    eexists; split; [reflexivity | exact Hpl].
Qed.

(** What one step does to the physics instance: a purchase multiplies
    one of the four tuned fields, a frame writes the stored zone and the
    delay counter, a key writes nothing. *)
Lemma step_physics (g g1 : Game.t) (e : Game.Event) :
  Game.step g e = Ok g1 ->
  exists z k,
    Game.physics g1
    = Physics.setZone
        (Game.tune (Game.physics g)
           (Physics.gravity (Game.physics g)
            * (7 / 10) ^ purchased "Gravitational Stabilizers"%string [e]
            * (1 / 10) ^ purchased "Anti-Gravity Field"%string [e])
           (Physics.moveSpeed (Game.physics g)
            * (13 / 10) ^ purchased "Improved Thrusters"%string [e])
           (Physics.jetpackForce (Game.physics g)
            * (12 / 10) ^ purchased "Improved Jetpack"%string [e])
           (Physics.inSpaceDrag (Game.physics g)
            * (7 / 10) ^ purchased "Advanced Propulsion"%string [e]))
        z k.
Proof.
  assert (Hsame : forall ph z k,
             Physics.setZone ph z k
             = Physics.setZone
                 (Game.tune ph (Physics.gravity ph * (7 / 10) ^ 0 * (1 / 10) ^ 0)
                    (Physics.moveSpeed ph * (13 / 10) ^ 0)
                    (Physics.jetpackForce ph * (12 / 10) ^ 0)
                    (Physics.inSpaceDrag ph * (7 / 10) ^ 0)) z k).
  { intros ph z k; unfold Physics.setZone, Game.tune;
      cbn [Physics.gravity Physics.jumpForce Physics.moveSpeed
           Physics.jetpackForce Physics.dragCoefficient Physics.inSpaceDrag
           Physics.inAtmosphereDrag Physics.collisionRadius
           Physics.gravitationalConstant Physics.alignmentSpeed
           Physics.alignmentDistance Physics.atmosphereRatio
           Physics.outerAtmosphereRatio Physics.lastZone
           Physics.zoneHysteresis Physics.zoneSwitchDelay pow].
    f_equal; ring. }
  destruct e as [code|code|upgrade|delta pl s cam]; cbn [Game.step]; intros E.
  - rewrite (handleKeyDown_physics code g g1 E).
    exists (Physics.lastZone (Game.physics g)),
           (Physics.zoneSwitchDelay (Game.physics g)).
    change (purchased _ [Game.KeyDown code]) with 0%nat.
    rewrite <- Hsame; symmetry; apply setZone_eta.
  - injection E as <-; rewrite handleKeyUp_physics.
    exists (Physics.lastZone (Game.physics g)),
           (Physics.zoneSwitchDelay (Game.physics g)).
    change (purchased _ [Game.KeyUp code]) with 0%nat.
    rewrite <- Hsame; symmetry; apply setZone_eta.
  - exists (Physics.lastZone (Game.physics g)),
           (Physics.zoneSwitchDelay (Game.physics g)).
    unfold Game.purchaseUpgrade in E; cbv zeta in E.
    destruct (Game.updateUI _) as [stats|err]; cbn [bind] in E;
      [|discriminate].
    injection E as <-.
    unfold purchased; cbn [filter].
    destruct (Game.isKey (name upgrade) "Improved Jetpack"%string) eqn:K1.
    { apply isKey_eq in K1; try rewrite K1.
      cbn [Game.isKey String.eqb Ascii.eqb Bool.eqb List.length pow
           Game.physics Game.setPhysics].
      unfold Physics.setZone, Game.tune; simpl; f_equal; ring. }
    destruct (Game.isKey (name upgrade) "Improved Thrusters"%string) eqn:K2.
    { apply isKey_eq in K2; try rewrite K2.
      cbn [Game.isKey String.eqb Ascii.eqb Bool.eqb List.length pow
           Game.physics Game.setPhysics].
      unfold Physics.setZone, Game.tune; simpl; f_equal; ring. }
    destruct (Game.isKey (name upgrade) "Fuel Efficiency"%string) eqn:K3.
    { apply isKey_eq in K3; try rewrite K3.
      cbn [Game.isKey String.eqb Ascii.eqb Bool.eqb List.length pow
           Game.physics Game.setJetpackRecharge].
      unfold Physics.setZone, Game.tune; simpl; 
        destruct (Game.physics g); simpl; f_equal; ring. }
    destruct (Game.isKey (name upgrade) "Enhanced Fuel Capacity"%string)
      eqn:K4.
    { apply isKey_eq in K4; try rewrite K4.
      cbn [Game.isKey String.eqb Ascii.eqb Bool.eqb List.length pow
           Game.physics Game.refill].
      unfold Physics.setZone, Game.tune; simpl;
        destruct (Game.physics g); simpl; f_equal; ring. }
    destruct (Game.isKey (name upgrade) "Advanced Propulsion"%string) eqn:K5.
    { apply isKey_eq in K5; try rewrite K5.
      cbn [Game.isKey String.eqb Ascii.eqb Bool.eqb List.length pow
           Game.physics Game.setPhysics].
      unfold Physics.setZone, Game.tune; simpl; f_equal; ring. }
    destruct (Game.isKey (name upgrade) "Gravitational Stabilizers"%string)
      eqn:K6.
    { apply isKey_eq in K6; try rewrite K6.
      cbn [Game.isKey String.eqb Ascii.eqb Bool.eqb List.length pow
           Game.physics Game.setPhysics].
      unfold Physics.setZone, Game.tune; simpl; f_equal; ring. }
    destruct (Game.isKey (name upgrade) "Anti-Gravity Field"%string) eqn:K7.
    { apply isKey_eq in K7; try rewrite K7.
      cbn [Game.isKey String.eqb Ascii.eqb Bool.eqb List.length pow
           Game.physics Game.setPhysics].
      unfold Physics.setZone, Game.tune; simpl; f_equal; ring. }
    cbn [List.length]; rewrite <- Hsame; symmetry; apply setZone_eta.
  - unfold Game.animate, Game.updatePlayer in E.
    destruct (Physics.updatePlayerPhysics _ _ _ _ _ _ _ _)
      as [[[res player'] ph']|err] eqn:Et; cbn [bind] in E;
      [|discriminate].
    destruct (PlayerController.alignWithSurface _ _ _ _ _ _)
      as [[pc' b]|err]; cbn [bind] in E; [|discriminate].
    destruct (Game.updateUI _) as [stats|err]; cbn [bind] in E;
      [|discriminate].
    injection E as <-; cbn [Game.physics].
    destruct (updatePlayerPhysics_instance _ _ _ _ _ _ _ _ _ _ _ Et)
      as (z & k & ->).
    exists z, k.
    change (purchased _ [Game.Frame delta pl s cam]) with 0%nat.
    cbn [Game.setFrame Game.physics]; apply Hsame.
Qed.

Lemma purchased_cons (upgradeName : String.string) (e : Game.Event)
    (events : list Game.Event) :
  purchased upgradeName (e :: events)
  = (purchased upgradeName [e] + purchased upgradeName events)%nat.
Proof.
  unfold purchased; cbn [filter].
  destruct e as [code|code|upgrade|delta pl s cam]; try reflexivity.
  destruct (Game.isKey (name upgrade) upgradeName); reflexivity.
Qed.

Lemma purchased_none (upgradeName : String.string)
    (events : list Game.Event) :
  noPurchase events -> purchased upgradeName events = 0%nat.
Proof.
  unfold noPurchase, purchased; induction events as [|e rest IH]; intros H;
    [reflexivity|].
  cbn [filter]; destruct e as [code|code|upgrade|delta pl s cam];
    try (apply IH; intros u Hu; apply (H u); now right).
  exfalso; apply (H upgrade); now left.
Qed.

Lemma pow_shrinks (x : R) (n : nat) : 0 <= x <= 1 -> 0 <= x ^ n <= 1.
Proof.
  intros (H0 & H1); split; [now apply pow_le|].
  rewrite <- (pow1 n); apply pow_incr; split; assumption.
Qed.

(** X27.  What a game does to the tuning of the physics.  Every run of
    key events, purchases and frames (planets that can be read, time
    steps not negative) returns, and the physics instance it leaves is
    the initial one but for six fields: the stored zone and the delay
    counter, which the frames write, and the four fields that purchases
    multiply.  The gravity is the initial one times 0.7 for every
    purchase of Gravitational Stabilizers and times 0.1 for every
    purchase of Anti-Gravity Field, the move speed is multiplied by 1.3
    for every Improved Thrusters, the jetpack force by 1.2 for every
    Improved Jetpack, the drag in space by 0.7 for every Advanced
    Propulsion; the handler does not ask whether a purchase was made
    before, so every repetition counts.  Hence the gravitational
    constant, the atmosphere ratios, the hysteresis, the alignment
    distance and speed, the jump force and the collision radius keep
    their values; from values that are not negative, the gravity and the
    drag in space never rise and never become negative, and the move
    speed and the jetpack force never fall; and a run without purchases
    leaves all four as they were.  The bounds are not strict: the
    products are taken over the reals here, and nothing is claimed about
    the gravity staying away from 0. *)
Theorem tuning_stays_in_range (events : list Game.Event) (g : Game.t) :
  forallb hasParameters (Game.planets g) = true ->
  Forall frameReadable events ->
  let ph := Game.physics g in
  let gravity' :=
    Physics.gravity ph
    * (7 / 10) ^ purchased "Gravitational Stabilizers"%string events
    * (1 / 10) ^ purchased "Anti-Gravity Field"%string events in
  let moveSpeed' :=
    Physics.moveSpeed ph
    * (13 / 10) ^ purchased "Improved Thrusters"%string events in
  let jetpackForce' :=
    Physics.jetpackForce ph
    * (12 / 10) ^ purchased "Improved Jetpack"%string events in
  let inSpaceDrag' :=
    Physics.inSpaceDrag ph
    * (7 / 10) ^ purchased "Advanced Propulsion"%string events in
  exists g' z k,
    Game.run g events = Ok g'
    /\ Game.physics g'
       = Physics.setZone
           (Game.tune ph gravity' moveSpeed' jetpackForce' inSpaceDrag') z k
    /\ (0 <= Physics.gravity ph -> 0 <= gravity' <= Physics.gravity ph)
    /\ (0 <= Physics.moveSpeed ph -> Physics.moveSpeed ph <= moveSpeed')
    /\ (0 <= Physics.jetpackForce ph ->
        Physics.jetpackForce ph <= jetpackForce')
    /\ (0 <= Physics.inSpaceDrag ph ->
        0 <= inSpaceDrag' <= Physics.inSpaceDrag ph)
    /\ (noPurchase events -> Game.physics g' = Physics.setZone ph z k).
Proof.
  intros Hall Hev; cbv zeta.
  assert (Hrun : exists g' z k,
             Game.run g events = Ok g'
             /\ Game.physics g'
                = Physics.setZone
                    (Game.tune (Game.physics g)
                       (Physics.gravity (Game.physics g)
                        * (7 / 10)
                          ^ purchased "Gravitational Stabilizers"%string events
                        * (1 / 10)
                          ^ purchased "Anti-Gravity Field"%string events)
                       (Physics.moveSpeed (Game.physics g)
                        * (13 / 10)
                          ^ purchased "Improved Thrusters"%string events)
                       (Physics.jetpackForce (Game.physics g)
                        * (12 / 10)
                          ^ purchased "Improved Jetpack"%string events)
                       (Physics.inSpaceDrag (Game.physics g)
                        * (7 / 10)
                          ^ purchased "Advanced Propulsion"%string events))
                    z k).
  { clear - Hall Hev; revert g Hall.
    induction Hev as [|e rest He Hrest IH]; intros g Hall.
    - exists g, (Physics.lastZone (Game.physics g)),
             (Physics.zoneSwitchDelay (Game.physics g)).
      split; [reflexivity|].
      change (purchased _ []) with 0%nat.
      destruct (Game.physics g); unfold Physics.setZone, Game.tune; simpl.
      f_equal; ring.
    - destruct (step_total g e Hall He) as (g1 & E & Hall1).
      destruct (step_physics g g1 e E) as (z1 & k1 & E1).
      destruct (IH g1 Hall1) as (g' & z & k & Erun & Ephys).
      exists g', z, k; cbn [Game.run]; rewrite E; cbn [bind].
      split; [exact Erun|].
      rewrite Ephys, E1, !(purchased_cons _ e rest), !pow_add.
      unfold Physics.setZone, Game.tune;
        cbn [Physics.gravity Physics.jumpForce Physics.moveSpeed
             Physics.jetpackForce Physics.dragCoefficient Physics.inSpaceDrag
             Physics.inAtmosphereDrag Physics.collisionRadius
             Physics.gravitationalConstant Physics.alignmentSpeed
             Physics.alignmentDistance Physics.atmosphereRatio
             Physics.outerAtmosphereRatio Physics.lastZone
             Physics.zoneHysteresis Physics.zoneSwitchDelay].
      f_equal; ring. }
  destruct Hrun as (g' & z & k & Erun & Ephys).
  exists g', z, k.
  split; [exact Erun|]; split; [exact Ephys|].
  pose proof (pow_shrinks (7 / 10)
                (purchased "Gravitational Stabilizers"%string events)
                ltac:(lra)) as Ha.
  pose proof (pow_shrinks (1 / 10)
                (purchased "Anti-Gravity Field"%string events)
                ltac:(lra)) as Hb.
  pose proof (pow_shrinks (7 / 10)
                (purchased "Advanced Propulsion"%string events)
                ltac:(lra)) as Hc.
  pose proof (pow_R1_Rle (13 / 10)
                (purchased "Improved Thrusters"%string events)
                ltac:(lra)) as Hd.
  pose proof (pow_R1_Rle (12 / 10)
                (purchased "Improved Jetpack"%string events)
                ltac:(lra)) as He.
  split.
  { intros H.
    set (a := (7 / 10) ^ _) in *; set (b := (1 / 10) ^ _) in *.
    assert (Hab : 0 <= a * b <= 1) by nra.
    rewrite Rmult_assoc; split; nra. }
  split; [intros H; nra|].
  split; [intros H; nra|].
  split; [intros H; split; nra|].
  intros Hno; rewrite Ephys, !(purchased_none _ events Hno).
  destruct (Game.physics g); unfold Physics.setZone, Game.tune; simpl.
  f_equal; ring.
Qed.

Lemma tuning_stays_in_range_witness :
  exists g',
    Game.run landedGame
      [Game.Purchase (mkUpgrade "Anti-Gravity Field"%string 800
                        "Negates gravity effects completely"%string);
       Game.Frame (1 / 60) [planet10] None sampleCamera] = Ok g'
    /\ Physics.gravity (Game.physics g') = 98 / 100
    /\ Physics.gravitationalConstant (Game.physics g') = 100.
Proof.
  assert (Hev : Forall frameReadable
                  [Game.Purchase (mkUpgrade "Anti-Gravity Field"%string 800
                                    "Negates gravity effects completely"%string);
                   Game.Frame (1 / 60) [planet10] None sampleCamera]).
  { repeat constructor; simpl; lra. }
  destruct (tuning_stays_in_range _ landedGame eq_refl Hev)
    as (g' & z & k & E & Ephys & _).
  exists g'; split; [exact E|].
  rewrite Ephys.
  change (purchased "Gravitational Stabilizers"%string _) with 0%nat.
  change (purchased "Anti-Gravity Field"%string _) with 1%nat.
  split; simpl; lra.
Defined.

(** ** Day and night *)

Lemma length_normalize_le (v : Vec) :
  Vector3.length (Vector3.normalize v) <= 1.
Proof.
  destruct (length_normalize_cases v) as [(_ & ->)|(_ & ->)];
    [|rewrite length_zero]; lra.
Qed.

Lemma dayNightFactorAt_range (p s c : Vec) :
  -1 <= Game.dayNightFactorAt p s c <= 1.
Proof.
  unfold Game.dayNightFactorAt.
  set (u := Vector3.negate _); set (v := Vector3.normalize _).
  pose proof (dot_le_lengths u v) as H.
  assert (Hu : Vector3.length u <= 1)
    by (unfold u; rewrite length_negate; apply length_normalize_le).
  assert (Hv : Vector3.length v <= 1) by apply length_normalize_le.
  pose proof (length_nonneg u); pose proof (length_nonneg v).
  assert (Hp : Vector3.length u * Vector3.length v <= 1) by nra.
  unfold Rabs in H; destruct (Rcase_abs (Vector3.dot u v)); lra.
Qed.

Lemma normalize_stretch (v : Vec) (t : R) :
  0 < t -> Vector3.normalize (Vector3.multiplyScalar v t) = Vector3.normalize v.
Proof.
  intros Ht.
  destruct (Req_dec_T (Vector3.length v) 0) as [H0|Hn].
  - rewrite (normalize_zero_length v H0).
    apply normalize_zero_length.
    rewrite length_multiplyScalar, H0; ring.
  - assert (Hl : Vector3.length (Vector3.multiplyScalar v t)
                 = t * Vector3.length v)
      by (rewrite length_multiplyScalar, Rabs_pos_eq by lra; reflexivity).
    rewrite !normalize_scaled; [|assumption|rewrite Hl; nra].
    rewrite Hl; apply vec_ext; simpl; field; lra.
Qed.

(** With the sun straight overhead the factor is 1, with the sun
    straight below it is -1. *)
Lemma dayNightFactorAt_noon (p c : Vec) (t : R) :
  p <> c -> 0 < t ->
  Game.dayNightFactorAt p
    (Vector3.add p (Vector3.multiplyScalar (Vector3.sub p c) t)) c = 1
  /\ Game.dayNightFactorAt p
       (Vector3.sub p (Vector3.multiplyScalar (Vector3.sub p c) t)) c = -1.
Proof.
  intros Hne Ht; unfold Game.dayNightFactorAt.
  assert (Hu : Vector3.length (Vector3.normalize (Vector3.sub p c)) = 1)
    by exact (length_offset p c Hne).
  assert (Hup : Vector3.negate (Vector3.normalize (Vector3.subVectors c p))
                = Vector3.normalize (Vector3.sub p c)).
  { replace (Vector3.subVectors c p) with (Vector3.negate (Vector3.sub p c))
      by (apply vec_ext; simpl; ring).
    rewrite normalize_negate; apply vec_ext; simpl; ring. }
  rewrite Hup; split.
  - replace (Vector3.subVectors
               (Vector3.add p (Vector3.multiplyScalar (Vector3.sub p c) t)) p)
      with (Vector3.multiplyScalar (Vector3.sub p c) t)
      by (apply vec_ext; simpl; ring).
    rewrite normalize_stretch by assumption.
    now apply dot_unit.
  - replace (Vector3.subVectors
               (Vector3.sub p (Vector3.multiplyScalar (Vector3.sub p c) t)) p)
      with (Vector3.negate (Vector3.multiplyScalar (Vector3.sub p c) t))
      by (apply vec_ext; simpl; ring).
    rewrite normalize_negate, normalize_stretch by assumption.
    rewrite dot_negate_r, (dot_unit _ Hu); ring.
Qed.

(** X28.  Day and night.  On planets that can be read [updateUI]
    returns, with a day-night progress within [0, 1].  Within 500 units
    of the nearest planet (the avatar not at its centre), with the sun
    straight overhead the progress is 1 and the time of day is Day, and
    with the sun straight below the progress is 0 and it is Night. *)
Theorem updateUI_day_and_night (g : Game.t) :
  forallb hasParameters (Game.planets g) = true ->
  let pos := p_position (Game.player g) in
  let sunPosition :=
    match Game.sun g with
    | Some s => Mesh.position s
    | None => Vector3.zero
    end in
  exists stats,
    Game.updateUI g = Ok stats
    /\ 0 <= UIStats.dayNightProgress stats <= 1
    /\ forall planet d t,
         Physics.getNearestPlanet pos (Game.planets g) = Ok (Some (planet, d)) ->
         d < 500 -> pos <> Mesh.position planet -> 0 < t ->
         (sunPosition
          = Vector3.add pos
              (Vector3.multiplyScalar (Vector3.sub pos (Mesh.position planet)) t)
          -> UIStats.dayNightProgress stats = 1
             /\ UIStats.timeOfDay stats = "Day"%string)
         /\ (sunPosition
             = Vector3.sub pos
                 (Vector3.multiplyScalar
                    (Vector3.sub pos (Mesh.position planet)) t)
             -> UIStats.dayNightProgress stats = 0
                /\ UIStats.timeOfDay stats = "Night"%string).
Proof.
  intros Hall pos sunPosition; unfold Game.updateUI.
  fold pos; fold sunPosition.
  destruct (getNearestPlanet_total pos (Game.planets g) Hall) as (n & En & _).
  rewrite En; cbn [bind].
  destruct n as [[planet d]|].
  - destruct (d <? 500) eqn:C; [apply Rltb_true in C | apply Rltb_false in C].
    + eexists; split; [reflexivity|]; cbn [UIStats.dayNightProgress
                                            UIStats.timeOfDay].
      pose proof (dayNightFactorAt_range pos sunPosition (Mesh.position planet)).
      split; [lra|].
      intros planet' d' t [= <- <-] _ Hne Ht.
      destruct (dayNightFactorAt_noon pos (Mesh.position planet) t Hne Ht)
        as (Hnoon & Hnight).
      split; intros ->.
      * rewrite Hnoon; split; [lra|].
        unfold Game.timeOfDayAt.
        now rewrite (proj2 (Rgtb_true 1 (6 / 10))) by lra.
      * rewrite Hnight; split; [lra|].
        unfold Game.timeOfDayAt.
        rewrite (proj2 (Rgtb_false (-1) (6 / 10))),
          (proj2 (Rgtb_false (-1) (2 / 10))),
          (proj2 (Rgtb_false (-1) (- (2 / 10)))),
          (proj2 (Rgtb_false (-1) (- (6 / 10)))) by lra.
        reflexivity.
    + eexists; split; [reflexivity|]; cbn [UIStats.dayNightProgress].
      split; [lra|].
      intros planet' d' t [= <- <-] Hd; lra.
  - eexists; split; [reflexivity|]; cbn [UIStats.dayNightProgress].
    split; [lra|]. intros planet' d' t [=].
Qed.

Lemma updateUI_day_and_night_witness :
  exists stats,
    Game.updateUI noonGame = Ok stats
    /\ UIStats.dayNightProgress stats = 1
    /\ UIStats.timeOfDay stats = "Day"%string.
Proof.
  destruct (updateUI_day_and_night noonGame eq_refl)
    as (stats & E & _ & H).
  assert (Hne : p_position (Game.player noonGame) <> Mesh.position planet10).
  { simpl; intros H0; injection H0 as H0; lra. }
  assert (Hd : Vector3.distanceTo (p_position (Game.player noonGame))
                 (Vector3.mk 0 0 0) - 10 < 500).
  { simpl; rewrite distanceTo_along_x; lra. }
  destruct (H planet10 _ 1
              (getNearestPlanet_single (p_position (Game.player noonGame))
                 (Vector3.mk 0 0 0) 10) Hd Hne ltac:(lra)) as (Hnoon & _).
  destruct Hnoon as (Hp & Ht); [apply vec_ext; simpl; lra|].
  exists stats; auto.
Defined.

(** * The camera rig *)

Lemma lerp_between (x y t lo hi : R) :
  0 <= t <= 1 -> lo <= x <= hi -> lo <= y <= hi ->
  lo <= CameraRig.lerp x y t <= hi.
Proof. intros Ht Hx Hy; unfold CameraRig.lerp; nra. Qed.

Lemma setCameraMode_consistent (mode : String.string) (c : CameraRig.t) :
  mode = "firstPerson"%string \/ mode = "scope"%string
  \/ mode = "thirdPerson"%string ->
  0 <= CameraRig.cameraDistance c <= 5 ->
  rigConsistent (CameraRig.setCameraMode mode c)
  /\ CameraRig.cameraZoomSpeed (CameraRig.setCameraMode mode c)
     = CameraRig.cameraZoomSpeed c.
Proof.
  intros [->|[->| ->]] Hd; (split; [|reflexivity]); split;
    try exact Hd; cbn; auto.
Qed.

Lemma step_consistent (c : CameraRig.t) (e : CameraRig.Event) :
  rigConsistent c ->
  updateGentle (CameraRig.cameraZoomSpeed c) e ->
  rigConsistent (CameraRig.step c e)
  /\ CameraRig.cameraZoomSpeed (CameraRig.step c e)
     = CameraRig.cameraZoomSpeed c.
Proof.
  intros (Hmode & Hd) He.
  assert (Hsame : rigConsistent c
                  /\ CameraRig.cameraZoomSpeed c = CameraRig.cameraZoomSpeed c)
    by (split; [split; assumption | reflexivity]).
  destruct e as [locked|deltaY| |deltaTime]; cbn [CameraRig.step].
  - split; [|reflexivity]; split; [exact Hmode | exact Hd].
  - unfold CameraRig.handleMouseWheel.
    destruct (negb (CameraRig.isLocked c)); [exact Hsame|].
    destruct (deltaY <? 0);
      destruct Hmode as [(Hm & _)|[(Hm & _)|(Hm & _)]]; rewrite Hm;
      cbn [CameraRig.isMode String.eqb Ascii.eqb Bool.eqb];
      try exact Hsame; apply setCameraMode_consistent; auto.
  - unfold CameraRig.cycleCameraMode.
    destruct Hmode as [(Hm & _)|[(Hm & _)|(Hm & _)]]; rewrite Hm;
      cbn [CameraRig.isMode String.eqb Ascii.eqb Bool.eqb];
      apply setCameraMode_consistent; auto.
  - cbn [updateGentle] in He.
    unfold CameraRig.update.
    assert (Ht : 0 <= CameraRig.targetCameraDistance c <= 5).
    { destruct Hmode as [(_ & -> & _)|[(_ & -> & _)|(_ & -> & _)]]; lra. }
    destruct (_ >? _); (split; [|reflexivity]); (split; [exact Hmode|]);
      cbn [CameraRig.setDistance CameraRig.cameraDistance];
      [now apply lerp_between | exact Ht].
Qed.

(** X29.  The camera rig stays consistent.  From a rig whose mode is
    one of firstPerson, scope and thirdPerson with the target distance
    and field of view that [setCameraMode] gives that mode, and whose
    camera distance is within [0, 5], every run of pointer-lock
    changes, wheel events, presses of C and updates (interpolation
    factor deltaTime * cameraZoomSpeed within [0, 1]) ends in such a
    rig: the mode never leaves the three names (the default branch of
    [cycleCameraMode] is never taken), the target distance is 5 exactly
    in third person, and the camera neither passes the avatar nor
    overshoots the third-person distance. *)
Theorem camera_rig_consistent (events : list CameraRig.Event) :
  forall c : CameraRig.t,
    rigConsistent c ->
    Forall (updateGentle (CameraRig.cameraZoomSpeed c)) events ->
    rigConsistent (CameraRig.run c events)
    /\ CameraRig.cameraZoomSpeed (CameraRig.run c events)
       = CameraRig.cameraZoomSpeed c.
Proof.
  induction events as [|e rest IH]; intros c Hc Hev; [now split|].
  inversion Hev as [|e' rest' He Hrest]; subst.
  destruct (step_consistent c e Hc He) as (Hc1 & Hz).
  unfold CameraRig.run; cbn [fold_left].
  rewrite <- Hz in Hrest.
  destruct (IH (CameraRig.step c e) Hc1 Hrest) as (Hc' & Hz').
  split; [exact Hc' | now rewrite <- Hz].
Qed.

Lemma camera_rig_consistent_witness :
  rigConsistent
    (CameraRig.run CameraRig.constructor
       [CameraRig.Lock true; CameraRig.Wheel 1; CameraRig.Update (1 / 10);
        CameraRig.KeyC; CameraRig.Update (1 / 60)]).
Proof.
  assert (Hc : rigConsistent CameraRig.constructor).
  { split; [left; repeat split | simpl; lra]. }
  apply (camera_rig_consistent
           [CameraRig.Lock true; CameraRig.Wheel 1; CameraRig.Update (1 / 10);
            CameraRig.KeyC; CameraRig.Update (1 / 60)]
           CameraRig.constructor Hc).
  repeat constructor; simpl; lra.
Defined.

(** ** The camera distance settles *)

Lemma update_target (deltaTime : R) (c : CameraRig.t) :
  CameraRig.targetCameraDistance (CameraRig.update deltaTime c)
  = CameraRig.targetCameraDistance c
  /\ CameraRig.cameraZoomSpeed (CameraRig.update deltaTime c)
     = CameraRig.cameraZoomSpeed c.
Proof. unfold CameraRig.update; destruct (_ >? _); split; reflexivity. Qed.

Lemma updates_target (n : nat) (deltaTime : R) :
  forall c,
    CameraRig.targetCameraDistance (CameraRig.updates n deltaTime c)
    = CameraRig.targetCameraDistance c
    /\ CameraRig.cameraZoomSpeed (CameraRig.updates n deltaTime c)
       = CameraRig.cameraZoomSpeed c.
Proof.
  induction n as [|n IH]; intros c; [now split|].
  cbn [CameraRig.updates].
  destruct (IH (CameraRig.update deltaTime c)) as (-> & ->).
  apply update_target.
Qed.

(** One update multiplies the gap to the target by [1 - t], or closes
    it. *)
Lemma update_gap (deltaTime : R) (c : CameraRig.t) :
  CameraRig.cameraDistance (CameraRig.update deltaTime c)
  - CameraRig.targetCameraDistance c
  = if Rabs (CameraRig.cameraDistance c - CameraRig.targetCameraDistance c)
       >? 1 / 100
    then (1 - deltaTime * CameraRig.cameraZoomSpeed c)
         * (CameraRig.cameraDistance c - CameraRig.targetCameraDistance c)
    else 0.
Proof.
  unfold CameraRig.update; destruct (_ >? _);
    cbn [CameraRig.setDistance CameraRig.cameraDistance];
    unfold CameraRig.lerp; ring.
Qed.

Lemma updates_gap_bound (n : nat) (deltaTime : R) :
  forall c,
    0 < deltaTime * CameraRig.cameraZoomSpeed c <= 1 ->
    Rabs (CameraRig.cameraDistance (CameraRig.updates n deltaTime c)
          - CameraRig.targetCameraDistance c)
    <= (1 - deltaTime * CameraRig.cameraZoomSpeed c) ^ n
       * Rabs (CameraRig.cameraDistance c - CameraRig.targetCameraDistance c).
Proof.
  induction n as [|n IH]; intros c Ht; [simpl; lra|].
  cbn [CameraRig.updates].
  destruct (update_target deltaTime c) as (Htg & Hzs).
  specialize (IH (CameraRig.update deltaTime c)).
  rewrite Htg, Hzs in IH; specialize (IH Ht).
  set (q := 1 - deltaTime * CameraRig.cameraZoomSpeed c) in *.
  assert (Hq : 0 <= q < 1) by (unfold q; lra).
  assert (Hqn : 0 <= q ^ n) by (apply pow_le; lra).
  assert (Hstep : Rabs (CameraRig.cameraDistance (CameraRig.update deltaTime c)
                        - CameraRig.targetCameraDistance c)
                  <= q * Rabs (CameraRig.cameraDistance c
                               - CameraRig.targetCameraDistance c)).
  { rewrite update_gap; fold q.
    pose proof (Rabs_pos (CameraRig.cameraDistance c
                          - CameraRig.targetCameraDistance c)) as Hp.
    destruct (_ >? _).
    - rewrite Rabs_mult, (Rabs_pos_eq q) by lra; lra.
    - rewrite Rabs_R0; nra. }
  cbn [pow].
  eapply Rle_trans; [exact IH|].
  replace (q * q ^ n * Rabs (CameraRig.cameraDistance c
                             - CameraRig.targetCameraDistance c))
    with (q ^ n * (q * Rabs (CameraRig.cameraDistance c
                             - CameraRig.targetCameraDistance c))) by ring.
  apply Rmult_le_compat_l; assumption.
Qed.

Lemma updates_last (n : nat) (deltaTime : R) :
  forall c,
    CameraRig.updates (S n) deltaTime c
    = CameraRig.update deltaTime (CameraRig.updates n deltaTime c).
Proof.
  induction n as [|n IH]; intros c; [reflexivity|].
  change (CameraRig.updates (S (S n)) deltaTime c)
    with (CameraRig.updates (S n) deltaTime (CameraRig.update deltaTime c)).
  rewrite IH; reflexivity.
Qed.

Lemma update_close (deltaTime : R) (c : CameraRig.t) :
  Rabs (CameraRig.cameraDistance c - CameraRig.targetCameraDistance c)
  <= 1 / 100 ->
  CameraRig.cameraDistance (CameraRig.update deltaTime c)
  = CameraRig.targetCameraDistance c.
Proof.
  intros H; unfold CameraRig.update.
  rewrite (proj2 (Rgtb_false _ _)) by lra; reflexivity.
Qed.

(** X30.  The camera distance settles.  With the interpolation factor
    deltaTime * cameraZoomSpeed within (0, 1], repeated updates never
    bring the camera distance farther from its target than it was, and
    after finitely many of them it equals the target exactly, for
    good: the snap below 0.01 ends the geometric approach. *)
Theorem camera_distance_settles (deltaTime : R) (c : CameraRig.t) :
  0 < deltaTime * CameraRig.cameraZoomSpeed c <= 1 ->
  (forall n,
     Rabs (CameraRig.cameraDistance (CameraRig.updates n deltaTime c)
           - CameraRig.targetCameraDistance c)
     <= Rabs (CameraRig.cameraDistance c - CameraRig.targetCameraDistance c))
  /\ exists N, forall n, (N <= n)%nat ->
       CameraRig.cameraDistance (CameraRig.updates n deltaTime c)
       = CameraRig.targetCameraDistance c.
Proof.
  intros Ht.
  set (q := 1 - deltaTime * CameraRig.cameraZoomSpeed c).
  assert (Hq : 0 <= q < 1) by (unfold q; lra).
  set (gap := Rabs (CameraRig.cameraDistance c
                    - CameraRig.targetCameraDistance c)).
  assert (Hgap : 0 <= gap) by apply Rabs_pos.
  split.
  - intros n.
    pose proof (updates_gap_bound n deltaTime c Ht) as H; fold q gap in H.
    assert (Hqn : 0 <= q ^ n <= 1).
    { split; [apply pow_le; lra|].
      rewrite <- (pow1 n); apply pow_incr; lra. }
    fold gap; nra.
  - assert (HN : exists N, q ^ N * gap <= 1 / 100).
    { destruct (Req_dec_T gap 0) as [H0|Hn].
      - exists 0%nat; rewrite H0; simpl; lra.
      - assert (Hpos : 0 < gap) by lra.
        assert (Hy : 0 < 1 / 100 / gap) by (apply Rdiv_lt_0_compat; lra).
        destruct (pow_lt_1_zero q) with (y := 1 / 100 / gap) as (N & HN);
          [rewrite Rabs_pos_eq; lra | exact Hy |].
        exists N.
        specialize (HN N (Nat.le_refl N)).
        rewrite Rabs_pos_eq in HN by (apply pow_le; lra).
        apply Rlt_le.
        apply (Rmult_lt_compat_r gap) in HN; [|exact Hpos].
        replace (1 / 100 / gap * gap) with (1 / 100) in HN by (field; lra).
        exact HN. }
    destruct HN as (N & HN).
    exists (S N).
    assert (Hat : forall k,
               CameraRig.cameraDistance (CameraRig.updates (k + S N) deltaTime c)
               = CameraRig.targetCameraDistance c).
    { induction k as [|k IHk].
      - cbn [Nat.add]; rewrite updates_last.
        destruct (updates_target N deltaTime c) as (Htg & _).
        rewrite <- Htg; apply update_close; rewrite Htg.
        eapply Rle_trans; [apply (updates_gap_bound N deltaTime c Ht)|].
        exact HN.
      - change (S k + S N)%nat with (S (k + S N)); rewrite updates_last.
        destruct (updates_target (k + S N) deltaTime c) as (Htg & _).
        rewrite <- Htg; apply update_close; rewrite Htg, IHk.
        replace (CameraRig.targetCameraDistance c
                 - CameraRig.targetCameraDistance c) with 0 by ring.
        rewrite Rabs_R0; lra. }
    intros n Hn.
    replace n with ((n - S N) + S N)%nat by lia.
    apply Hat.
Qed.

Lemma camera_distance_settles_witness :
  exists N, forall n, (N <= n)%nat ->
    CameraRig.cameraDistance
      (CameraRig.updates n (1 / 10)
         (CameraRig.setCameraMode "thirdPerson"%string CameraRig.constructor))
    = 5.
Proof.
  destruct (camera_distance_settles (1 / 10)
              (CameraRig.setCameraMode "thirdPerson"%string
                 CameraRig.constructor)) as (_ & N & HN).
  - simpl; lra.
  - exists N; exact HN.
Defined.
